(** * Plant: environmental-data resolution and crop-fitness scoring

    A shallow embedding of [Full.py] (the command-line front end carries the
    same functions): the climate resolver, the report aggregator, the CSV
    persistence of the report, the extraction and completion of the sensor
    vector, and the Gaussian fitness scorer.

    Conventions of the embedding.
    - Python's dynamically typed values are the inductive [value]; a [dict] is
      an association list in insertion order, as Python iterates it.
    - Exceptions are the type [exn]; code that may raise returns [res].
    - HTTP providers are an oracle [net] from a request to the parsed body
      ([VNone] when [fetch_api] caught a failure); every request made is
      appended to a log, so that attempts can be counted.
    - JSON numbers are rationals ([Q]); the scorer, which needs [exp], works
      over the reals ([R]).  Rounding, overflow and NaN of IEEE floats are
      outside the model. *)

From Stdlib Require Import ZArith QArith Reals Lra Lia List String Ascii Bool.
From Stdlib Require Import DecimalString Permutation Qreals.
From Equations Require Import Equations.
From Equations.Prop Require Import Logic.
Import ListNotations.

Set Implicit Arguments.
Set Warnings "-register-all".

(* ===================================================================== *)
(** * Python values, exceptions and the operations the code applies      *)
(* ===================================================================== *)

Module Py.

Local Open Scope string_scope.

(** The exceptions the modelled code can meet. *)
Inductive exn : Type :=
| KeyError
| IndexError
| TypeError
| ValueError
| AttributeError
| ZeroDivisionError.

(** The outcome of an expression: a value or a raised exception. *)
Inductive res (A : Type) : Type :=
| Ok (a : A)
| Raise (e : exn).

Arguments Ok {A} a.
Arguments Raise {A} e.

Definition rbind {A B} (r : res A) (k : A -> res B) : res B :=
  match r with
  | Ok a => k a
  | Raise e => Raise e
  end.

(** Values as [response.json()] yields them and as the report holds them. *)
Inductive value : Type :=
| VNone
| VBool (b : bool)
| VNum (q : Q)
| VStr (s : string)
| VList (l : list value)
| VDict (d : list (string * value)).

Definition dict : Type := list (string * value).

(** [d.get(k)] on the association list: the first binding of [k]. *)
Fixpoint lookup {A} (k : string) (d : list (string * A)) : option A :=
  match d with
  | [] => None
  | (k', v) :: d' => if String.eqb k k' then Some v else lookup k d'
  end.

(** [d[k] = v]: an existing key keeps its place, a new key goes last. *)
Fixpoint set {A} (k : string) (v : A) (d : list (string * A)) : list (string * A) :=
  match d with
  | [] => [(k, v)]
  | (k', v') :: d' =>
      if String.eqb k k' then (k', v) :: d' else (k', v') :: set k v d'
  end.

Definition keys {A} (d : list (string * A)) : list string := map fst d.

(** Truth value of an object in a condition. *)
Definition truthy (v : value) : bool :=
  match v with
  | VNone => false
  | VBool b => b
  | VNum q => negb (Qeq_bool q 0)
  | VStr s => negb (String.eqb s "")
  | VList l => match l with [] => false | _ => true end
  | VDict d => match d with [] => false | _ => true end
  end.

Definition is_substring (k s : string) : bool :=
  match index 0 k s with Some _ => true | None => false end.

Definition is_str (k : string) (v : value) : bool :=
  match v with VStr s => String.eqb s k | _ => false end.

(** [k in v] for a string [k]. *)
Definition contains (k : string) (v : value) : res bool :=
  match v with
  | VDict d => Ok (match lookup k d with Some _ => true | None => false end)
  | VList l => Ok (existsb (is_str k) l)
  | VStr s => Ok (is_substring k s)
  | _ => Raise TypeError
  end.

(** [v[k]] for a string [k]. *)
Definition getitem (v : value) (k : string) : res value :=
  match v with
  | VDict d => match lookup k d with Some x => Ok x | None => Raise KeyError end
  | _ => Raise TypeError
  end.

(** [v[0]]. JSON objects have string keys only, so [0] is never a key. *)
Definition getitem0 (v : value) : res value :=
  match v with
  | VList (x :: _) => Ok x
  | VList [] => Raise IndexError
  | VStr (String c _) => Ok (VStr (String c EmptyString))
  | VStr EmptyString => Raise IndexError
  | VDict _ => Raise KeyError
  | _ => Raise TypeError
  end.

(** [len(v)]. *)
Definition len (v : value) : res nat :=
  match v with
  | VList l => Ok (List.length l)
  | VDict d => Ok (List.length d)
  | VStr s => Ok (String.length s)
  | _ => Raise TypeError
  end.

(** [v.get(k, default)]: only a dict has the method. *)
Definition get (v : value) (k : string) (default : value) : res value :=
  match v with
  | VDict d => Ok (match lookup k d with Some x => x | None => default end)
  | _ => Raise AttributeError
  end.

(** [v.values()], as the list the comprehension walks. *)
Definition values (v : value) : res (list value) :=
  match v with
  | VDict d => Ok (map snd d)
  | _ => Raise AttributeError
  end.

(** [v != q] against a number: a bool counts as 0 or 1, any other type differs. *)
Definition ne_num (v : value) (q : Q) : bool :=
  match v with
  | VNum x => negb (Qeq_bool x q)
  | VBool b => negb (Qeq_bool (if b then 1 else 0) q)
  | _ => true
  end.

(** [v != s] against a string. *)
Definition ne_str (v : value) (s : string) : bool := negb (is_str s v).

(** One step of [sum]: the accumulator plus the next element. *)
Definition add_num (acc : Q) (v : value) : res Q :=
  match v with
  | VNum x => Ok (acc + x)%Q
  | VBool b => Ok (acc + (if b then 1 else 0))%Q
  | _ => Raise TypeError
  end.

(** [sum(l)], starting from 0 and adding left to right. *)
Fixpoint sum_from (acc : Q) (l : list value) : res Q :=
  match l with
  | [] => Ok acc
  | v :: l' => rbind (add_num acc v) (fun acc' => sum_from acc' l')
  end.

Definition sum (l : list value) : res Q := sum_from 0 l.

(** [str(n)] and [f"{n}"] for an int. *)
Definition str_of_int (n : Z) : string := NilZero.string_of_int (Z.to_int n).

End Py.

(* ===================================================================== *)
(** * The calendar and datetime calls of the climate resolver            *)
(* ===================================================================== *)

Module Calendar.

Import Py.
Local Open Scope Z_scope.

Definition MINYEAR : Z := 1.
Definition MAXYEAR : Z := 9999.

(** [calendar.isleap]. *)
Definition isleap (year : Z) : bool :=
  (year mod 4 =? 0) && (negb (year mod 100 =? 0) || (year mod 400 =? 0)).

(** [calendar.mdays]. *)
Definition mdays (month : Z) : Z :=
  match month with
  | 1 => 31 | 2 => 28 | 3 => 31 | 4 => 30 | 5 => 31 | 6 => 30
  | 7 => 31 | 8 => 31 | 9 => 30 | 10 => 31 | 11 => 30 | 12 => 31
  | _ => 0
  end.

(** [calendar.monthrange(year, month)[1]]: the number of days of the month;
    a month outside 1..12 raises [IllegalMonthError], a [ValueError]. *)
Definition monthrange_days (year month : Z) : res Z :=
  if (1 <=? month) && (month <=? 12)
  then Ok (mdays month + (if (month =? 2) && isleap year then 1 else 0))
  else Raise ValueError.

Record date : Type := mkdate { d_year : Z; d_month : Z; d_day : Z }.

(** [datetime(year, month, day)]: [ValueError] outside the supported range. *)
Definition datetime (year month day : Z) : res date :=
  if (MINYEAR <=? year) && (year <=? MAXYEAR)
     && (1 <=? month) && (month <=? 12)
     && (1 <=? day) && (day <=? mdays month + (if (month =? 2) && isleap year then 1 else 0))
  then Ok (mkdate year month day)
  else Raise ValueError.

Definition digit (n : Z) : ascii := ascii_of_nat (48 + Z.to_nat (n mod 10)).

(** [d.strftime("%Y%m%d")]: four, two and two zero-padded decimal digits. *)
Definition strftime_Ymd (d : date) : string :=
  String (digit (d_year d / 1000)) (String (digit (d_year d / 100))
  (String (digit (d_year d / 10)) (String (digit (d_year d))
  (String (digit (d_month d / 10)) (String (digit (d_month d))
  (String (digit (d_day d / 10)) (String (digit (d_day d)) EmptyString))))))).

(** The same day written YYYY-MM-DD, the secondary provider's format. *)
Definition isoformat (d : date) : string :=
  String (digit (d_year d / 1000)) (String (digit (d_year d / 100))
  (String (digit (d_year d / 10)) (String (digit (d_year d))
  (String "-"%char
  (String (digit (d_month d / 10)) (String (digit (d_month d))
  (String "-"%char
  (String (digit (d_day d / 10)) (String (digit (d_day d)) EmptyString))))))))).

End Calendar.

(* ===================================================================== *)
(** * The remote data client                                             *)
(* ===================================================================== *)

Module Net.

Import Py.
Local Open Scope string_scope.

Record request : Type := mkreq { url : string; params : dict }.

(** What a provider answers to a request: the parsed body, or [VNone] when
    [fetch_api] caught a transport or parsing failure. *)
Definition oracle : Type := string -> dict -> value.

(** Code that fetches: it reads the oracle and extends the request log. *)
Definition M (A : Type) : Type := oracle -> list request -> res A * list request.

Definition ret {A} (a : A) : M A := fun _ log => (Ok a, log).

Definition bind {A B} (m : M A) (k : A -> M B) : M B :=
  fun net log =>
    match m net log with
    | (Ok a, log') => k a net log'
    | (Raise e, log') => (Raise e, log')
    end.

Definition lift {A} (r : res A) : M A := fun _ log => (r, log).

(** [fetch_api(url, params)]: one GET, never raising to the caller. *)
Definition fetch_api (u : string) (p : dict) : M value :=
  fun net log => (Ok (net u p), (log ++ [mkreq u p])%list).

(** Run from an empty log. *)
Definition run {A} (m : M A) (net : oracle) : res A * list request := m net [].

(** The requests of a log that went to the endpoint [u]. *)
Definition requests_to (u : string) (log : list request) : list request :=
  filter (fun r => String.eqb (url r) u) log.

End Net.

Declare Scope py_scope.
Delimit Scope py_scope with py.
Notation "x <- m ;; k" := (Net.bind m (fun x => k))
  (at level 61, m at next level, right associativity) : py_scope.
Notation "x <~ r ;; k" := (Net.bind (Net.lift r) (fun x => k))
  (at level 61, r at next level, right associativity) : py_scope.

(* ===================================================================== *)
(** * The climate resolver                                               *)
(* ===================================================================== *)

Module Climate.

Import Py Calendar Net.
Local Open Scope string_scope.
Local Open Scope py_scope.

Definition NASA_URL : string := "https://power.larc.nasa.gov/api/temporal/daily/point".
Definition METEO_URL : string := "https://archive-api.open-meteo.com/v1/archive".

(** The primary provider's code for a missing daily value. *)
Definition SENTINEL : Q := (-999 # 1)%Q.

Definition NO_DATA : value := VStr "No data".

(** [a and b] in a condition whose right operand may raise. *)
Definition and_then (a : bool) (b : res bool) : res bool :=
  if a then b else Ok false.

(** The elements [sum] walks over: a dict yields its keys, a string its
    characters. *)
Definition iterate (v : value) : res (list value) :=
  match v with
  | VList l => Ok l
  | VDict d => Ok (map (fun kv => VStr (fst kv)) d)
  | VStr s => Ok (map (fun c => VStr (String c EmptyString)) (list_ascii_of_string s))
  | _ => Raise TypeError
  end.

(** [s[6:]]. *)
Definition slice_from (n : nat) (s : string) : string :=
  substring n (String.length s - n) s.

(** The YYYYMMDD to YYYY-MM-DD rewrite of [get_alternative_precipitation]. *)
Definition reformat_date (d : string) : string :=
  substring 0 4 d ++ "-" ++ substring 4 2 d ++ "-" ++ slice_from 6 d.

Definition alternative_params (lat lon : Q) (start_date end_date : string) : dict :=
  [ ("latitude", VNum lat);
    ("longitude", VNum lon);
    ("start_date", VStr (reformat_date start_date));
    ("end_date", VStr (reformat_date end_date));
    ("daily", VStr "precipitation_sum");
    ("timezone", VStr "auto") ].

(** What [get_alternative_precipitation] makes of the secondary's answer. *)
Definition alternative_total (response : value) : res value :=
  rbind (and_then (truthy response)
          (rbind (contains "daily" response) (fun c =>
           and_then c
             (rbind (getitem response "daily") (fun daily =>
              contains "precipitation_sum" daily))))) (fun cond =>
  if cond then
    rbind (getitem response "daily") (fun daily =>
    rbind (getitem daily "precipitation_sum") (fun precip_values =>
    if truthy precip_values
    then rbind (iterate precip_values) (fun l =>
         rbind (sum l) (fun s => Ok (VNum s)))
    else Ok NO_DATA))
  else Ok NO_DATA).

Definition get_alternative_precipitation
    (lat lon : Q) (start_date end_date : string) : M value :=
  response <- fetch_api METEO_URL (alternative_params lat lon start_date end_date) ;;
  lift (alternative_total response).

(** The guard of the loop that moves a future date back. *)
Definition in_future (current_year current_month month adjusted_year : Z) : bool :=
  ((adjusted_year >? current_year)
   || ((adjusted_year =? current_year) && (month >? current_month)))%Z.

(** The first loop of [get_climate_data]: one year back while the date is
    in the future. *)
Equations? adjust_year (current_year current_month month adjusted_year : Z) : Z
  by wf (Z.to_nat (adjusted_year - current_year + 1)) lt :=
  adjust_year cy cm m ay with inspect (in_future cy cm m ay) => {
    | exist _ true _ => adjust_year cy cm m (ay - 1);
    | exist _ false _ => ay }.
Proof.
  unfold in_future in e.
  apply orb_true_iff in e. destruct e as [e | e].
  - apply Z.gtb_lt in e. lia.
  - apply andb_true_iff in e. destruct e as [e _]. apply Z.eqb_eq in e. lia.
Qed.

Definition primary_params (lat lon : Q) (start_date end_date : string) : dict :=
  [ ("parameters", VStr "T2M,PRECTOT");
    ("community", VStr "RE");
    ("longitude", VNum lon);
    ("latitude", VNum lat);
    ("start", VStr start_date);
    ("end", VStr end_date);
    ("format", VStr "JSON") ].

(** The condition under which an attempt reads the primary's answer. *)
Definition has_parameter_block (climate_response : value) : res bool :=
  and_then (truthy climate_response)
    (rbind (contains "properties" climate_response) (fun c =>
     and_then c
       (rbind (getitem climate_response "properties") (fun properties =>
        contains "parameter" properties)))).

(** The sentinel-free readings of one daily series. *)
Definition valid_readings (series : value) : res (list value) :=
  rbind (values series) (fun vs => Ok (filter (fun v => ne_num v SENTINEL) vs)).

Definition nonempty {A} (l : list A) : bool :=
  match l with [] => false | _ => true end.

(** [sum(valid) / len(valid) if valid else "No data"]. *)
Definition average (valid : list value) : res value :=
  if nonempty valid
  then rbind (sum valid) (fun s =>
       Ok (VNum (s / inject_Z (Z.of_nat (List.length valid)))%Q))
  else Ok NO_DATA.

(** The precipitation of an attempt: the primary's sum when a reading
    survived the filter, the secondary provider's otherwise. *)
Definition total_precipitation (valid_prectot : list value)
    (lat lon : Q) (start_date end_date : string) : M value :=
  if nonempty valid_prectot
  then s <~ sum valid_prectot ;; ret (VNum s)
  else get_alternative_precipitation lat lon start_date end_date.

(** What an attempt makes of the primary's answer: [Some record] when the
    function returns from inside the loop. *)
Definition read_response (lat lon : Q) (start_date end_date : string)
    (climate_response : value) : M (option value) :=
  cond <~ has_parameter_block climate_response ;;
  if cond then
    properties <~ getitem climate_response "properties" ;;
    parameters <~ getitem properties "parameter" ;;
    t2m_data <~ get parameters "T2M" (VDict []) ;;
    prectot_data <~ get parameters "PRECTOT" (VDict []) ;;
    valid_t2m <~ valid_readings t2m_data ;;
    valid_prectot <~ valid_readings prectot_data ;;
    avg_t2m <~ average valid_t2m ;;
    total_prectot <- total_precipitation valid_prectot lat lon start_date end_date ;;
    if ne_str avg_t2m "No data" || ne_str total_prectot "No data"
    then ret (Some (VDict
           [ ("Date Range", VStr (start_date ++ " to " ++ end_date));
             ("Average Temperature (T2M)", avg_t2m);
             ("Total Precipitation (PRECTOT)", total_prectot) ]))
    else ret None
  else ret None.

(** One pass through the body of the search loop for the candidate year. *)
Definition attempt (lat lon : Q) (month adjusted_year : Z) : M (option value) :=
  last_day <~ monthrange_days adjusted_year month ;;
  first <~ datetime adjusted_year month 1 ;;
  last <~ datetime adjusted_year month last_day ;;
  let start_date := strftime_Ymd first in
  let end_date := strftime_Ymd last in
  climate_response <- fetch_api NASA_URL (primary_params lat lon start_date end_date) ;;
  read_response lat lon start_date end_date climate_response.

(** The search loop with [n] passes left: [while attempts < max_years_back]. *)
Fixpoint search (n : nat) (lat lon : Q) (month adjusted_year : Z) : M (option value) :=
  match n with
  | O => ret None
  | S n' =>
      r <- attempt lat lon month adjusted_year ;;
      match r with
      | Some record => ret (Some record)
      | None => search n' lat lon month (adjusted_year - 1)%Z
      end
  end.

Definition error_record (month max_years_back year : Z) : value :=
  VDict [ ("Error", VStr ("No climate data for month " ++ str_of_int month
                          ++ " in past " ++ str_of_int max_years_back
                          ++ " years from " ++ str_of_int year ++ ".")) ].

(** [get_climate_data(lat, lon, month, year, max_years_back)], with the
    year and month of [datetime.now()] as [current_year], [current_month]. *)
Definition get_climate_data (current_year current_month : Z)
    (lat lon : Q) (month year max_years_back : Z) : M value :=
  let adjusted_year := adjust_year current_year current_month month year in
  r <- search (Z.to_nat max_years_back) lat lon month adjusted_year ;;
  match r with
  | Some record => ret record
  | None => ret (error_record month max_years_back year)
  end.

Definition DEFAULT_MAX_YEARS_BACK : Z := 5.

End Climate.

(* ===================================================================== *)
(** * The report aggregator                                              *)
(* ===================================================================== *)

Module Report.

Import Py Net Climate.
Local Open Scope string_scope.
Local Open Scope py_scope.

Definition OPENWEATHER_API_KEY : string := "".
Definition WEATHER_URL : string := "https://api.openweathermap.org/data/2.5/weather".
Definition SOIL_URL : string := "https://rest.isric.org/soilgrids/v2.0/properties/query".
Definition TERRAIN_URL : string := "https://api.opentopodata.org/v1/srtm90m".

Definition CLIMATE_KEY : string := "Climate Data".
Definition WEATHER_KEY : string := "Weather Data".
Definition SOIL_KEY : string := "Soil Data (Depth 0-5cm)".
Definition ELEVATION_KEY : string := "Elevation Data".

Definition NO_WEATHER : value := VStr "No weather data retrieved.".
Definition NO_SOIL : value := VStr "No soil data retrieved.".
Definition NO_ELEVATION : value := VStr "No elevation data retrieved.".

Definition get_weather_data (lat lon : Q) : M value :=
  fetch_api WEATHER_URL
    [ ("lat", VNum lat); ("lon", VNum lon);
      ("appid", VStr OPENWEATHER_API_KEY); ("units", VStr "metric") ].

Definition soil_properties : list string :=
  ["phh2o"; "soc"; "clay"; "silt"; "sand"; "cec"; "cfvo"].

Definition soil_params (lat lon : Q) (prop depth : string) : dict :=
  [ ("lat", VNum lat); ("lon", VNum lon); ("property", VStr prop);
    ("depth", VStr depth); ("value", VStr "mean") ].

(** [response and key in response and len(response[key]) > 0]. *)
Definition has_items (response : value) (key : string) : res bool :=
  and_then (truthy response)
    (rbind (contains key response) (fun c =>
     and_then c
       (rbind (getitem response key) (fun items =>
        rbind (len items) (fun n => Ok (0 <? n)%nat))))).

(** What one pass of the soil loop stores under the property. *)
Definition soil_value (response : value) (prop depth : string) : res value :=
  rbind (has_items response "features") (fun cond =>
  if cond then
    rbind (getitem response "features") (fun features =>
    rbind (getitem0 features) (fun feature =>
    rbind (getitem feature "properties") (fun properties =>
    rbind (get properties prop (VDict [])) (fun by_depth =>
    rbind (get by_depth depth (VDict [])) (fun stats =>
    get stats "mean" VNone)))))
  else Ok VNone).

(** The loop of [get_soil_data] over the properties still to fetch. *)
Fixpoint soil_loop (props : list string) (lat lon : Q) (depth : string)
    (soil_data : dict) : M dict :=
  match props with
  | [] => ret soil_data
  | prop :: rest =>
      response <- fetch_api SOIL_URL (soil_params lat lon prop depth) ;;
      v <~ soil_value response prop depth ;;
      soil_loop rest lat lon depth (set prop v soil_data)
  end.

Definition get_soil_data (lat lon : Q) (depth : string) : M value :=
  soil_data <- soil_loop soil_properties lat lon depth [] ;;
  ret (VDict soil_data).

Definition DEFAULT_DEPTH : string := "0-5cm".

(** The weather section made of the current-weather answer. *)
Definition weather_section (weather_response : value) : res value :=
  rbind (and_then (truthy weather_response) (contains "main" weather_response))
    (fun cond =>
  if cond then
    rbind (getitem weather_response "main") (fun main =>
    rbind (get weather_response "name" (VStr "Unknown")) (fun location =>
    rbind (get main "temp" NO_DATA) (fun temp =>
    rbind (get main "humidity" NO_DATA) (fun humidity =>
    rbind (get main "pressure" NO_DATA) (fun pressure =>
    Ok (VDict [ ("Location", location); ("Temperature", temp);
                ("Humidity", humidity); ("Pressure", pressure) ]))))))
  else Ok NO_WEATHER).

(** The elevation section made of the terrain answer. *)
Definition elevation_section (terrain_response : value) : res value :=
  rbind (has_items terrain_response "results") (fun cond =>
  if cond then
    rbind (getitem terrain_response "results") (fun results =>
    rbind (getitem0 results) (fun first =>
    rbind (get first "elevation" NO_DATA) (fun elevation =>
    Ok (VDict [ ("Elevation (meters)", elevation) ]))))
  else Ok NO_ELEVATION).

Section Aggregator.

(** The text Python prints for a float, used in the terrain request only. *)
Variable float_repr : Q -> string.

Definition get_terrain_data (lat lon : Q) : M value :=
  fetch_api TERRAIN_URL [ ("locations", VStr (float_repr lat ++ "," ++ float_repr lon)) ].

(** [get_location_info(lat, lon, month, year)] at the date
    ([current_year], [current_month]). *)
Definition get_location_info (current_year current_month : Z)
    (lat lon : Q) (month year : Z) : M value :=
  let report := [] in
  climate <- get_climate_data current_year current_month lat lon month year
               DEFAULT_MAX_YEARS_BACK ;;
  let report := set CLIMATE_KEY climate report in
  weather_response <- get_weather_data lat lon ;;
  weather <~ weather_section weather_response ;;
  let report := set WEATHER_KEY weather report in
  soil_response <- get_soil_data lat lon DEFAULT_DEPTH ;;
  let report := set SOIL_KEY (if truthy soil_response then soil_response else NO_SOIL) report in
  terrain_response <- get_terrain_data lat lon ;;
  elevation <~ elevation_section terrain_response ;;
  let report := set ELEVATION_KEY elevation report in
  ret (VDict report).

End Aggregator.

End Report.

(* ===================================================================== *)
(** * Persistence of the report as CSV rows                              *)
(* ===================================================================== *)

Module Csv.

Import Py.
Local Open Scope string_scope.

(** A line of the file, as [csv.writer] takes it and [csv.reader] gives it
    back: the list of its fields. *)
Definition row : Type := list string.

Definition HEADER : row := ["Section"; "Key"; "Value"].

Section Writer.

(** [str(value)] of a value that is not [None]. *)
Variable py_str : value -> string.

(** ['' if value is None else str(value)]. *)
Definition cell (v : value) : string :=
  match v with
  | VNone => ""
  | _ => py_str v
  end.

(** The rows one section contributes. *)
Definition section_rows (section : string) (data : value) : list row :=
  match data with
  | VDict d => map (fun kv => [section; fst kv; cell (snd kv)]) d
  | _ => [[section; ""; py_str data]]
  end.

(** [export_report_to_csv(report)]: the rows written to the file. *)
Definition export_report_to_csv (report : dict) : list row :=
  HEADER :: flat_map (fun sd => section_rows (fst sd) (snd sd)) report.

End Writer.

(** [value if value else None]. *)
Definition parse_cell (s : string) : value :=
  if String.eqb s "" then VNone else VStr s.

(** The body of the reading loop for one row. *)
Definition read_row (report : dict) (r : row) : res dict :=
  match r with
  | [section; key; v] =>
      let report :=
        match lookup section report with
        | Some _ => report
        | None => set section (VDict []) report
        end in
      if negb (String.eqb key "") then
        match lookup section report with
        | Some (VDict d) => Ok (set section (VDict (set key (parse_cell v) d)) report)
        | Some _ => Raise TypeError
        | None => Raise KeyError
        end
      else Ok (set section (parse_cell v) report)
  | _ => Raise ValueError
  end.

(** The loop over the rows; an exception ends it with what was read so far
    (the [except Exception] branch prints and falls through to [return]). *)
Fixpoint read_loop (rows : list row) (report : dict) : dict :=
  match rows with
  | [] => report
  | r :: rest =>
      match read_row report r with
      | Ok report' => read_loop rest report'
      | Raise _ => report
      end
  end.

(** [read_report_from_csv()] on a file holding [rows]; [next(reader)] skips
    the header, and fails into the [except] branch on an empty file. *)
Definition read_report_from_csv (rows : list row) : dict :=
  match rows with
  | [] => []
  | _ :: body => read_loop body []
  end.

(** What reading back makes of a stored field. *)
Definition reread (py_str : value -> string) (v : value) : value :=
  parse_cell (cell py_str v).

End Csv.

(* ===================================================================== *)
(** * The fitness scorer                                                 *)
(* ===================================================================== *)

Module Fitness.

Import Py.
Local Open Scope string_scope.
Local Open Scope R_scope.

(** A mapping from names to floats: a profile, the sigmas, the weights. *)
Definition fdict : Type := list (string * R).

(** The sensor mapping: a reading is a float or [None]. *)
Definition sensor_dict : Type := list (string * option R).

(** [d[k]]. *)
Definition item {A} (d : list (string * A)) (k : string) : res A :=
  match lookup k d with
  | Some x => Ok x
  | None => Raise KeyError
  end.

(** Arithmetic on a reading raises [TypeError] on [None]. *)
Definition number (v : option R) : res R :=
  match v with
  | Some x => Ok x
  | None => Raise TypeError
  end.

(** [a / b]. *)
Definition div (a b : R) : res R :=
  if Req_dec_T b 0 then Raise ZeroDivisionError else Ok (a / b).

(** [(sensor[key] - opt)**2 / (2 * sigmas[skey]**2)]. *)
Definition diff (sensor : sensor_dict) (key : string) (opt : R)
    (sigmas : fdict) (skey : string) : res R :=
  rbind (item sensor key) (fun reading =>
  rbind (number reading) (fun x =>
  rbind (item sigmas skey) (fun sigma =>
  div ((x - opt) ^ 2) (2 * sigma ^ 2)))).

Definition plant_fitness (sensor : sensor_dict) (optimal sigmas weights : fdict) : res R :=
  rbind (item optimal "T_opt") (fun T_opt =>
  rbind (item optimal "H_opt") (fun H_opt =>
  rbind (item optimal "pH_opt") (fun pH_opt =>
  rbind (item optimal "AP_opt") (fun AP_opt =>
  let P_opt := 1013 in
  let T_avg_opt := T_opt in
  rbind (diff sensor "T" T_opt sigmas "sigma_T") (fun diff_T =>
  rbind (diff sensor "H" H_opt sigmas "sigma_H") (fun diff_H =>
  rbind (diff sensor "P" P_opt sigmas "sigma_P") (fun diff_P =>
  rbind (diff sensor "T_avg" T_avg_opt sigmas "sigma_Tavg") (fun diff_Tavg =>
  rbind (diff sensor "AP" AP_opt sigmas "sigma_AP") (fun diff_AP =>
  rbind (diff sensor "pH" pH_opt sigmas "sigma_pH") (fun diff_pH =>
  rbind (item weights "w_T") (fun w_T =>
  rbind (item weights "w_H") (fun w_H =>
  rbind (item weights "w_P") (fun w_P =>
  rbind (item weights "w_Tavg") (fun w_Tavg =>
  rbind (item weights "w_AP") (fun w_AP =>
  rbind (item weights "w_pH") (fun w_pH =>
  let exponent := w_T * diff_T + w_H * diff_H + w_P * diff_P
                  + w_Tavg * diff_Tavg + w_AP * diff_AP + w_pH * diff_pH in
  Ok (exp (- exponent)))))))))))))))))).

(** The dict comprehension of [recommend_crop], filling [crop_fitness]. *)
Fixpoint score_all (sensor : sensor_dict) (items : list (string * fdict))
    (sigmas weights : fdict) (crop_fitness : fdict) : res fdict :=
  match items with
  | [] => Ok crop_fitness
  | (crop, optimal) :: rest =>
      rbind (plant_fitness sensor optimal sigmas weights) (fun f =>
      score_all sensor rest sigmas weights (set crop f crop_fitness))
  end.

(** [a > b] on what [crop_fitness.get] returns. *)
Definition gt (a b : option R) : res bool :=
  match a, b with
  | Some x, Some y => Ok (if Rlt_dec y x then true else false)
  | _, _ => Raise TypeError
  end.

(** The loop of [max(iterable, key=...)]: a later item replaces the best
    only when its key is strictly greater. *)
Fixpoint max_loop (key : string -> option R) (best : string) (best_key : option R)
    (l : list string) : res string :=
  match l with
  | [] => Ok best
  | x :: rest =>
      rbind (gt (key x) best_key) (fun g =>
      if g then max_loop key x (key x) rest else max_loop key best best_key rest)
  end.

(** [max(l, key=key)]; an empty iterable raises [ValueError]. *)
Definition max_by (key : string -> option R) (l : list string) : res string :=
  match l with
  | [] => Raise ValueError
  | x :: rest => max_loop key x (key x) rest
  end.

Definition recommend_crop (sensor_data : sensor_dict)
    (optimal_conditions : list (string * fdict)) (sigmas weights : fdict)
    : res (string * R * fdict) :=
  rbind (score_all sensor_data optimal_conditions sigmas weights []) (fun crop_fitness =>
  rbind (max_by (fun c => lookup c crop_fitness) (keys crop_fitness)) (fun best_crop =>
  rbind (item crop_fitness best_crop) (fun best =>
  Ok (best_crop, best, crop_fitness)))).

(** The scoring parameters fixed in [on_submit]. *)
Definition sigmas : fdict :=
  [ ("sigma_T", 2); ("sigma_H", 10); ("sigma_P", 10);
    ("sigma_Tavg", 2); ("sigma_AP", 20); ("sigma_pH", 1 / 2) ].

Definition weights : fdict :=
  [ ("w_T", 35 / 100); ("w_H", 30 / 100); ("w_P", 5 / 100);
    ("w_Tavg", 15 / 100); ("w_AP", 10 / 100); ("w_pH", 5 / 100) ].

End Fitness.

(* ===================================================================== *)
(** * The scorer's inputs as the specification names them                *)
(* ===================================================================== *)

Module FitnessModel.

Import Py Fitness.
Local Open Scope string_scope.
Local Open Scope R_scope.

(** A fully populated sensor vector. *)
Record SensorVector : Type := mkSensor
  { s_T : R; s_H : R; s_P : R; s_T_avg : R; s_AP : R; s_pH : R }.

(** A crop's optimal profile. *)
Record OptimalProfile : Type := mkProfile
  { T_opt : R; H_opt : R; pH_opt : R; AP_opt : R }.

Record Sigmas : Type := mkSigmas
  { sigma_T : R; sigma_H : R; sigma_P : R; sigma_Tavg : R; sigma_AP : R; sigma_pH : R }.

Record Weights : Type := mkWeights
  { w_T : R; w_H : R; w_P : R; w_Tavg : R; w_AP : R; w_pH : R }.

(** The mapping [sensor] holds the six readings of [s], none of them [None]. *)
Definition populated (sensor : sensor_dict) (s : SensorVector) : Prop :=
  lookup "T" sensor = Some (Some (s_T s)) /\
  lookup "H" sensor = Some (Some (s_H s)) /\
  lookup "P" sensor = Some (Some (s_P s)) /\
  lookup "T_avg" sensor = Some (Some (s_T_avg s)) /\
  lookup "AP" sensor = Some (Some (s_AP s)) /\
  lookup "pH" sensor = Some (Some (s_pH s)).

Definition profile_of (optimal : fdict) (o : OptimalProfile) : Prop :=
  lookup "T_opt" optimal = Some (T_opt o) /\
  lookup "H_opt" optimal = Some (H_opt o) /\
  lookup "pH_opt" optimal = Some (pH_opt o) /\
  lookup "AP_opt" optimal = Some (AP_opt o).

Definition sigmas_of (sg : fdict) (sigma : Sigmas) : Prop :=
  lookup "sigma_T" sg = Some (sigma_T sigma) /\
  lookup "sigma_H" sg = Some (sigma_H sigma) /\
  lookup "sigma_P" sg = Some (sigma_P sigma) /\
  lookup "sigma_Tavg" sg = Some (sigma_Tavg sigma) /\
  lookup "sigma_AP" sg = Some (sigma_AP sigma) /\
  lookup "sigma_pH" sg = Some (sigma_pH sigma).

Definition weights_of (wt : fdict) (w : Weights) : Prop :=
  lookup "w_T" wt = Some (w_T w) /\
  lookup "w_H" wt = Some (w_H w) /\
  lookup "w_P" wt = Some (w_P w) /\
  lookup "w_Tavg" wt = Some (w_Tavg w) /\
  lookup "w_AP" wt = Some (w_AP w) /\
  lookup "w_pH" wt = Some (w_pH w).

Definition nonzero (sigma : Sigmas) : Prop :=
  sigma_T sigma <> 0 /\ sigma_H sigma <> 0 /\ sigma_P sigma <> 0 /\
  sigma_Tavg sigma <> 0 /\ sigma_AP sigma <> 0 /\ sigma_pH sigma <> 0.


(** The exponent of the specification's formula. *)
Definition exponent (s : SensorVector) (o : OptimalProfile)
    (sigma : Sigmas) (w : Weights) : R :=
  w_T w * (s_T s - T_opt o) ^ 2 / (2 * sigma_T sigma ^ 2)
  + w_H w * (s_H s - H_opt o) ^ 2 / (2 * sigma_H sigma ^ 2)
  + w_P w * (s_P s - 1013) ^ 2 / (2 * sigma_P sigma ^ 2)
  + w_Tavg w * (s_T_avg s - T_opt o) ^ 2 / (2 * sigma_Tavg sigma ^ 2)
  + w_AP w * (s_AP s - AP_opt o) ^ 2 / (2 * sigma_AP sigma ^ 2)
  + w_pH w * (s_pH s - pH_opt o) ^ 2 / (2 * sigma_pH sigma ^ 2).



(** Every crop of the mapping has a complete profile. *)
Definition complete (optimal_conditions : list (string * fdict)) : Prop :=
  Forall (fun co => exists o, profile_of (snd co) o) optimal_conditions.

(** The score of a profile, for use where [plant_fitness] does not raise. *)
Definition score (sensor : sensor_dict) (sg wt optimal : fdict) : R :=
  match plant_fitness sensor optimal sg wt with
  | Ok f => f
  | Raise _ => 0
  end.

(** The mapping the comprehension of [recommend_crop] builds when no score
    raises. *)
Definition score_mapping_of (sensor : sensor_dict) (sg wt : fdict)
    (optimal_conditions : list (string * fdict)) : fdict :=
  map (fun co => (fst co, score sensor sg wt (snd co))) optimal_conditions.

(** The fixed parameters of [on_submit] as records. *)
Definition fixed_sigmas : Sigmas := mkSigmas 2 10 10 2 20 (1 / 2).
Definition fixed_weights : Weights :=
  mkWeights (35 / 100) (30 / 100) (5 / 100) (15 / 100) (10 / 100) (5 / 100).

(** Sample inputs. *)
Definition sample_sensor : sensor_dict :=
  [ ("T", Some 25); ("H", Some 80); ("P", Some 1013);
    ("T_avg", Some 24); ("AP", Some 200); ("pH", Some (13 / 2)) ].
Definition sample_vector : SensorVector := mkSensor 25 80 1013 24 200 (13 / 2).

Definition rice : fdict :=
  [ ("T_opt", 24); ("H_opt", 82); ("pH_opt", 13 / 2); ("AP_opt", 230) ].
Definition rice_profile : OptimalProfile := mkProfile 24 82 (13 / 2) 230.





(** Three crops with one and the same profile: a three-way tie. *)
Definition tied_conditions : list (string * fdict) :=
  [ ("a", rice); ("b", rice); ("c", rice) ].


(** Closing the side conditions on concrete mappings and parameters. *)
Ltac lookups := repeat split; reflexivity.
Ltac nonzeros := repeat split; simpl; lra.

End FitnessModel.

(* ===================================================================== *)
(** * The providers' payloads and the vocabulary of the statements       *)
(* ===================================================================== *)

Module Schema.

Import Py Calendar Net Climate Report.
Local Open Scope string_scope.

Definition is_num (v : value) : bool :=
  match v with VNum _ => true | _ => false end.

Definition is_dict (v : value) : bool :=
  match v with VDict _ => true | _ => false end.

(** A JSON number or null. *)
Definition is_num_or_none (v : value) : bool :=
  match v with VNum _ | VNone => true | _ => false end.

(** The field [k], when the object has it, satisfies [ok]. *)
Definition field_ok (k : string) (ok : value -> bool) (d : dict) : bool :=
  match lookup k d with
  | Some v => ok v
  | None => true
  end.

(** An object, with a condition on its fields. *)
Definition object (ok : dict -> bool) (v : value) : bool :=
  match v with VDict d => ok d | _ => false end.

(** A daily series of the primary provider: numbers keyed by date. *)
Definition series_ok (v : value) : bool :=
  object (forallb (fun kv => is_num (snd kv))) v.

(** The primary climate provider answers nothing, or an object whose
    [properties.parameter], when present, holds daily series. *)
Definition primary_ok (v : value) : bool :=
  match v with
  | VNone => true
  | _ =>
    object (field_ok "properties"
      (object (field_ok "parameter"
        (object (fun m => field_ok "T2M" series_ok m
                          && field_ok "PRECTOT" series_ok m))))) v
  end.

Definition num_list (v : value) : bool :=
  match v with VList l => forallb is_num l | _ => false end.

(** The secondary provider answers nothing, or an object whose
    [daily.precipitation_sum], when present, is a list of numbers. *)
Definition secondary_ok (v : value) : bool :=
  match v with
  | VNone => true
  | _ => object (field_ok "daily"
           (object (field_ok "precipitation_sum" num_list))) v
  end.

(** The current-weather provider answers nothing, or an object whose
    [main], when present, is an object. *)
Definition weather_ok (v : value) : bool :=
  match v with
  | VNone => true
  | _ => object (field_ok "main" is_dict) v
  end.

Definition feature_ok (prop depth : string) (v : value) : bool :=
  object (fun f =>
    match lookup "properties" f with
    | Some p =>
        object (field_ok prop
          (object (field_ok depth
            (object (field_ok "mean" is_num_or_none))))) p
    | None => false
    end) v.

(** The soil provider answers nothing, or an object whose [features], when
    present, is a list; its first feature carries the property's mean by
    depth, a number or null. *)
Definition soil_ok (prop depth : string) (v : value) : bool :=
  match v with
  | VNone => true
  | _ =>
    object (field_ok "features"
      (fun fs => match fs with
                 | VList [] => true
                 | VList (f :: _) => feature_ok prop depth f
                 | _ => false
                 end)) v
  end.

(** The terrain provider answers nothing, or an object whose [results],
    when present, is a list of objects. *)
Definition terrain_ok (v : value) : bool :=
  match v with
  | VNone => true
  | _ =>
    object (field_ok "results"
      (fun rs => match rs with
                 | VList [] => true
                 | VList (r :: _) => is_dict r
                 | _ => false
                 end)) v
  end.

(** The oracle answers the climate requests as the two providers do. *)
Definition climate_conforms (net : oracle) : Prop :=
  (forall p, primary_ok (net NASA_URL p) = true) /\
  (forall p, secondary_ok (net METEO_URL p) = true).

Definition weather_conforms (net : oracle) : Prop :=
  forall p, weather_ok (net WEATHER_URL p) = true.

Definition soil_conforms (net : oracle) : Prop :=
  forall lat lon prop depth,
    soil_ok prop depth (net SOIL_URL (soil_params lat lon prop depth)) = true.

Definition terrain_conforms (net : oracle) : Prop :=
  forall p, terrain_ok (net TERRAIN_URL p) = true.

Definition conforms (net : oracle) : Prop :=
  climate_conforms net /\ weather_conforms net /\
  soil_conforms net /\ terrain_conforms net.

(** The date is not in the future of (current_month, current_year). *)
Definition not_in_future (current_year current_month month y : Z) : Prop :=
  (y < current_year \/ (y = current_year /\ month <= current_month))%Z.

(** The date is strictly in the future. *)
Definition strictly_in_future (current_year current_month month y : Z) : Prop :=
  (current_year < y \/ (y = current_year /\ current_month < month))%Z.

(** The number of days of a month. *)
Definition days_in_month (year month : Z) : Z :=
  (mdays month + (if (month =? 2) && isleap year then 1 else 0))%Z.

Definition first_day (year month : Z) : date := mkdate year month 1.
Definition last_day (year month : Z) : date :=
  mkdate year month (days_in_month year month).

(** A success record: the three fields, one of the two readings usable. *)
Definition success_record (v : value) : Prop :=
  exists range avg total : value,
    v = VDict [ ("Date Range", range);
                ("Average Temperature (T2M)", avg);
                ("Total Precipitation (PRECTOT)", total) ] /\
    (avg <> NO_DATA \/ total <> NO_DATA).

(** What one attempt yields for a candidate year, and the requests it makes. *)
Definition attempt_outcome (net : oracle) (lat lon : Q) (month y : Z)
    : res (option value) :=
  fst (attempt lat lon month y net []).



(** The window of a candidate month as the secondary provider is asked. *)
Definition secondary_request (lat lon : Q) (year month : Z) : request :=
  mkreq METEO_URL
    [ ("latitude", VNum lat);
      ("longitude", VNum lon);
      ("start_date", VStr (isoformat (first_day year month)));
      ("end_date", VStr (isoformat (last_day year month)));
      ("daily", VStr "precipitation_sum");
      ("timezone", VStr "auto") ].

Definition primary_request (lat lon : Q) (year month : Z) : request :=
  mkreq NASA_URL
    (primary_params lat lon (strftime_Ymd (first_day year month))
                            (strftime_Ymd (last_day year month))).

(** The attempts for the years [ay], [ay - 1], ... before the [k]-th found
    nothing, and the [k]-th returned [record]. *)
Definition first_success (net : oracle) (lat lon : Q) (month ay : Z)
    (k : nat) (record : value) : Prop :=
  (forall j : nat, (j < k)%nat ->
     attempt_outcome net lat lon month (ay - Z.of_nat j) = Ok None) /\
  attempt_outcome net lat lon month (ay - Z.of_nat k) = Ok (Some record).

(** The [n] attempts from the year [ay] downwards all found nothing. *)
Definition all_fail (net : oracle) (lat lon : Q) (month ay : Z) (n : nat) : Prop :=
  forall j : nat, (j < n)%nat ->
    attempt_outcome net lat lon month (ay - Z.of_nat j) = Ok None.

(** The number of requests a log holds for the primary climate provider. *)
Definition primary_fetches (log : list request) : nat :=
  List.length (requests_to NASA_URL log).

(** The daily precipitation list of a secondary answer, when it has one. *)
Definition secondary_series (response : value) : option (list value) :=
  match response with
  | VDict d =>
      match lookup "daily" d with
      | Some (VDict dd) =>
          match lookup "precipitation_sum" dd with
          | Some (VList l) => Some l
          | _ => None
          end
      | _ => None
      end
  | _ => None
  end.

(** The number a JSON value stands for. *)
Definition num_of (v : value) : Q :=
  match v with VNum q => q | _ => 0%Q end.

(** The sum of a list of numbers, left to right from 0. *)
Definition total_of (l : list value) : Q :=
  fold_left Qplus (map num_of l) 0%Q.

(** The precipitation the secondary provider stands for. *)
Definition secondary_total (response : value) : value :=
  match secondary_series response with
  | Some (x :: l) => VNum (total_of (x :: l))
  | _ => NO_DATA
  end.

(** A section of the report: a mapping or a string placeholder. *)
Definition is_section (v : value) : bool :=
  match v with VDict _ | VStr _ => true | _ => false end.

(** The report with its four sections, in the order they are stored. *)
Definition report_of (climate weather soil elevation : value) : value :=
  VDict [ (CLIMATE_KEY, climate); (WEATHER_KEY, weather);
          (SOIL_KEY, soil); (ELEVATION_KEY, elevation) ].

Definition weather_params (lat lon : Q) : dict :=
  [ ("lat", VNum lat); ("lon", VNum lon);
    ("appid", VStr OPENWEATHER_API_KEY); ("units", VStr "metric") ].

(** The requests of [m] go to endpoints of [U] only, and [m] depends on the
    oracle through them only; its log is the given one, extended. *)
Definition agree (U : string -> bool) (n1 n2 : oracle) : Prop :=
  forall u p, U u = true -> n1 u p = n2 u p.

Definition local (U : string -> bool) {A} (m : M A) : Prop :=
  forall (n1 n2 : oracle) (l1 l2 : list request),
    agree U n1 n2 ->
    exists (r : res A) (ext : list request),
      m n1 l1 = (r, (l1 ++ ext)%list) /\ m n2 l2 = (r, (l2 ++ ext)%list) /\
      Forall (fun q => U (url q) = true) ext.

Definition climate_urls (u : string) : bool :=
  String.eqb u NASA_URL || String.eqb u METEO_URL.
Definition secondary_urls (u : string) : bool := String.eqb u METEO_URL.
Definition weather_urls (u : string) : bool := String.eqb u WEATHER_URL.
Definition soil_urls (u : string) : bool := String.eqb u SOIL_URL.
Definition terrain_urls (u : string) : bool := String.eqb u TERRAIN_URL.


(** A report whose sections are mappings with distinct, non-empty keys;
    section names are distinct, as the keys of a dict are. *)
Definition fields_ok (d : dict) : Prop :=
  NoDup (keys d) /\ Forall (fun kv => fst kv <> "") d.


(** What reading makes of the rows one section contributes. *)
Definition reread_section (py_str : value -> string) (sd : string * value)
    : list (string * value) :=
  match snd sd with
  | VDict (kv :: d) =>
      [ (fst sd, VDict (map (fun f => (fst f, Csv.reread py_str (snd f))) (kv :: d))) ]
  | _ => []
  end.

End Schema.

(* ===================================================================== *)
(** * Sample providers and requests                                      *)
(* ===================================================================== *)

Module Samples.

Import Py Calendar Net Climate Report Schema.
Local Open Scope string_scope.

(** Every provider is down. *)
Definition net_down : oracle := fun _ _ => VNone.

(** A primary answer with one temperature reading and no precipitation
    reading but the sentinel. *)
Definition primary_payload : value :=
  VDict [ ("properties", VDict [ ("parameter", VDict
    [ ("T2M", VDict [ ("20250201", VNum (3 # 2)); ("20250202", VNum SENTINEL) ]);
      ("PRECTOT", VDict [ ("20250201", VNum SENTINEL) ]) ]) ]) ].

Definition secondary_payload : value :=
  VDict [ ("daily", VDict [ ("precipitation_sum", VList [ VNum 1; VNum (1 # 2) ]) ]) ].

Definition weather_payload : value :=
  VDict [ ("name", VStr "Hanoi");
          ("main", VDict [ ("temp", VNum 25); ("humidity", VNum 80);
                           ("pressure", VNum 1013) ]) ].

Definition soil_payload : value :=
  VDict [ ("features", VList [ VDict [ ("properties", VDict
    [ ("phh2o", VDict [ ("0-5cm", VDict [ ("mean", VNum (13 # 2)) ]) ]) ]) ] ]) ].

Definition terrain_payload : value :=
  VDict [ ("results", VList [ VDict [ ("elevation", VNum 12) ] ]) ].

(** The primary provider has nothing for February 2026 and answers for the
    years before; the other providers answer. *)
Definition net_sample : oracle :=
  fun u p =>
    if String.eqb u NASA_URL then
      match lookup "start" p with
      | Some v => if is_str "20260201" v then VNone else primary_payload
      | None => primary_payload
      end
    else if String.eqb u METEO_URL then secondary_payload
    else if String.eqb u WEATHER_URL then weather_payload
    else if String.eqb u SOIL_URL then soil_payload
    else if String.eqb u TERRAIN_URL then terrain_payload
    else VNone.

(** The same providers with the current-weather provider down. *)
Definition net_no_weather : oracle :=
  fun u p => if String.eqb u WEATHER_URL then VNone else net_sample u p.

(** A rendering of floats for the terrain request. *)
Definition sample_repr (q : Q) : string :=
  str_of_int (Qnum q) ++ "/" ++ str_of_int (Zpos (Qden q)).


(** [str] on the leaves of a stored report that are text: a string is
    itself. *)
Definition text_str (v : value) : string :=
  match v with
  | VStr s => s
  | VNone => "None"
  | VBool true => "True"
  | VBool false => "False"
  | _ => ""
  end.

(** A report with an unset field, an empty text and a plain text. *)
Definition stored_report : dict :=
  [ ("Weather Data", VDict [ ("Location", VStr "Hanoi"); ("Temperature", VStr "25") ]);
    ("Soil Data (Depth 0-5cm)", VDict [ ("phh2o", VNone); ("soc", VStr "") ]) ].

End Samples.

(* ===================================================================== *)
(** * The sensor vector: extraction from the report and completion       *)
(* ===================================================================== *)

Module Sensors.

Import Py Fitness.
Local Open Scope string_scope.

(** [c.isspace()] for the characters of ASCII text: tab to carriage return,
    the four separators and the space.  A text of other Unicode blanks only
    is one [float] rejects, so that the reading is [None] either way. *)
Definition is_space (c : ascii) : bool :=
  let n := nat_of_ascii c in
  ((9 <=? n) && (n <=? 13) || (28 <=? n) && (n <=? 32))%nat.

Fixpoint lstrip (s : string) : string :=
  match s with
  | EmptyString => EmptyString
  | String c s' => if is_space c then lstrip s' else s
  end.

Fixpoint rstrip (s : string) : string :=
  match s with
  | EmptyString => EmptyString
  | String c s' =>
      match rstrip s' with
      | EmptyString => if is_space c then EmptyString else String c EmptyString
      | t => String c t
      end
  end.

(** [s.strip()]. *)
Definition strip (s : string) : string := rstrip (lstrip s).

(** [v.strip()]: only a string has the method. *)
Definition strip_of (v : value) : res string :=
  match v with
  | VStr s => Ok (strip s)
  | _ => Raise AttributeError
  end.

(** [except (ValueError, TypeError): sensor_data[key] = None]. *)
Definition except_value_type {A} (r : res (option A)) : res (option A) :=
  match r with
  | Raise ValueError | Raise TypeError => Ok None
  | _ => r
  end.

(** The table of [get_sensor_data_from_report]: sensor key, section, field. *)
Definition sensor_keys : list (string * (string * string)) :=
  [ ("T", ("Weather Data", "Temperature"));
    ("H", ("Weather Data", "Humidity"));
    ("P", ("Weather Data", "Pressure"));
    ("T_avg", ("Climate Data", "Average Temperature (T2M)"));
    ("AP", ("Climate Data", "Total Precipitation (PRECTOT)"));
    ("pH", ("Soil Data (Depth 0-5cm)", "phh2o")) ].

(** A user's reply to one dialog: a text, or [None] when cancelled. *)
Definition answer : Type := option string.

(** How an interactive step ends: done, failed with an exception, or still
    waiting for input when the replies at hand are used up. *)
Inductive outcome (A : Type) : Type :=
| Done (a : A)
| Failed (e : exn)
| Waiting.

Arguments Done {A} a.
Arguments Failed {A} e.
Arguments Waiting {A}.

Section Floats.

(** [float(s)] on a string: the number of a text that denotes one, [None]
    when it raises [ValueError].  The texts of the floats that are no real
    numbers (inf, nan) are outside the model, as those floats are. *)
Variable py_float : string -> option R.

(** [float(v)]: a text is parsed, a number or a bool converted, and any
    other value raises [TypeError]. *)
Definition float_of (v : value) : res R :=
  match v with
  | VStr s => match py_float s with Some x => Ok x | None => Raise ValueError end
  | VNum q => Ok (Q2R q)
  | VBool b => Ok (if b then 1%R else 0%R)
  | _ => Raise TypeError
  end.

(** The body of the loop for one sensor key: the two lines under [try]. *)
Definition reading_of (report : dict) (section subkey : string) : res (option R) :=
  rbind (get (match lookup section report with Some v => v | None => VDict [] end)
             subkey VNone) (fun v =>
  if truthy v then
    rbind (strip_of v) (fun stripped =>
    if truthy (VStr stripped)
    then rbind (float_of v) (fun x => Ok (Some x))
    else Ok None)
  else Ok None).

Fixpoint sensor_loop (table : list (string * (string * string))) (report : dict)
    (sensor_data : sensor_dict) : res sensor_dict :=
  match table with
  | [] => Ok sensor_data
  | (key, (section, subkey)) :: rest =>
      rbind (except_value_type (reading_of report section subkey)) (fun r =>
      sensor_loop rest report (set key r sensor_data))
  end.

Definition get_sensor_data_from_report (report : dict) : res sensor_dict :=
  sensor_loop sensor_keys report [].

(** The [while True] loop of [prompt_for_missing_data] for one key: ask
    until a reply is a number within the key's range. *)
Fixpoint ask (prompts : list (string * string)) (valid_ranges : list (string * (R * R)))
    (key : string) (answers : list answer) : outcome (R * list answer) :=
  match lookup key prompts with
  | None => Failed KeyError
  | Some _ =>
      match answers with
      | [] => Waiting
      | None :: rest => ask prompts valid_ranges key rest
      | Some text :: rest =>
          match py_float text with
          | None => ask prompts valid_ranges key rest
          | Some val =>
              match lookup key valid_ranges with
              | None => Failed KeyError
              | Some (min_val, max_val) =>
                  if Rle_dec min_val val
                  then if Rle_dec val max_val
                       then Done (val, rest)
                       else ask prompts valid_ranges key rest
                  else ask prompts valid_ranges key rest
              end
          end
      end
  end.

(** The [for key in sensor_data] loop over the keys still to visit. *)
Fixpoint fill (prompts : list (string * string)) (valid_ranges : list (string * (R * R)))
    (todo : list string) (sensor_data : sensor_dict) (answers : list answer)
    : outcome (sensor_dict * list answer) :=
  match todo with
  | [] => Done (sensor_data, answers)
  | key :: rest =>
      match lookup key sensor_data with
      | None => Failed KeyError
      | Some (Some _) => fill prompts valid_ranges rest sensor_data answers
      | Some None =>
          match ask prompts valid_ranges key answers with
          | Done (val, answers') =>
              fill prompts valid_ranges rest (set key (Some val) sensor_data) answers'
          | Failed e => Failed e
          | Waiting => Waiting
          end
      end
  end.

(** [prompt_for_missing_data(sensor_data, prompts, valid_ranges)] with the
    user's replies in the order given; the replies left over are returned
    with the completed mapping. *)
Definition prompt_for_missing_data (sensor_data : sensor_dict)
    (prompts : list (string * string)) (valid_ranges : list (string * (R * R)))
    (answers : list answer) : outcome (sensor_dict * list answer) :=
  fill prompts valid_ranges (keys sensor_data) sensor_data answers.

End Floats.

(** The prompts and ranges fixed in [on_submit]. *)
Definition prompts : list (string * string) :=
  [ ("T", "Enter instantaneous temperature (°C): ");
    ("H", "Enter ambient humidity (%): ");
    ("P", "Enter atmospheric pressure (hPa): ");
    ("T_avg", "Enter monthly average temperature (°C): ");
    ("AP", "Enter total precipitation (mm): ");
    ("pH", "Enter soil pH: ") ].

Definition valid_ranges : list (string * (R * R)) :=
  [ ("T", (-50, 60)); ("H", (0, 100)); ("P", (900, 1100));
    ("T_avg", (-50, 60)); ("AP", (0, 1000)); ("pH", (0, 14)) ]%R.

End Sensors.

(* ===================================================================== *)
(** * The crop table's grouping column                                   *)
(* ===================================================================== *)

Module Dataset.

Import Py.
Local Open Scope string_scope.

(** The column names tried, in this order, for the one that names the crop. *)
Definition GROUP_CANDIDATES : list string :=
  ["label"; "crop"; "common_name"; "plant_name"].

(** [next((col for col in [...] if col in df.columns), None)]. *)
Definition first_candidate (columns : list string) : option string :=
  find (fun col => existsb (String.eqb col) columns) GROUP_CANDIDATES.

(** The first lines of [compute_optimal_conditions] and of
    [export_plant_counts]: [if not group_col: raise KeyError(...)]. *)
Definition group_column (columns : list string) : res string :=
  match first_candidate columns with
  | Some col => if truthy (VStr col) then Ok col else Raise KeyError
  | None => Raise KeyError
  end.

End Dataset.

(* ===================================================================== *)
(** * From the stored report to the sensor vector, as [on_submit] goes   *)
(* ===================================================================== *)

Module Workflow.

Import Py Net Climate Report Csv Fitness Sensors Schema.
Local Open Scope string_scope.

Section Steps.

Variable py_str : value -> string.
Variable py_float : string -> option R.

(** [export_report_to_csv(report, csv_path)],
    [report_from_csv = read_report_from_csv(csv_path)],
    [sensor_data = get_sensor_data_from_report(report_from_csv)]. *)
Definition sensor_data_of_report (report : dict) : res sensor_dict :=
  let rows := export_report_to_csv py_str report in
  let report_from_csv := read_report_from_csv rows in
  get_sensor_data_from_report py_float report_from_csv.

(** The field a sensor key is read from, [None] where the section is a
    mapping without it or is not in the report. *)
Definition field_of (report : dict) (section subkey : string) : option value :=
  match lookup section report with
  | None => Some VNone
  | Some (VDict d) =>
      Some (match lookup subkey d with Some v => v | None => VNone end)
  | Some _ => None
  end.

(** A field [get_sensor_data_from_report] can read: a text, or anything
    false in a condition. *)
Definition readable (report : dict) (section subkey : string) : bool :=
  match field_of report section subkey with
  | Some (VStr _) => true
  | Some v => negb (truthy v)
  | None => false
  end.

(** The reading a readable field stands for: the number of a text that is
    not blank and that [float] accepts, and [None] otherwise. *)
Definition expected_reading (report : dict) (section subkey : string) : option R :=
  match field_of report section subkey with
  | Some (VStr s) => if String.eqb (strip s) "" then None else py_float s
  | _ => None
  end.

(** The reading a field of the report stands for once the report went
    through the file: the number of [str] of the field, [None] for a field
    that is missing, [None], or has a text that is blank or that [float]
    rejects. *)
Definition stored_reading (report : dict) (section subkey : string) : option R :=
  match lookup section report with
  | Some (VDict d) =>
      match lookup subkey d with
      | Some v =>
          let text := cell py_str v in
          if String.eqb (strip text) "" then None else py_float text
      | None => None
      end
  | _ => None
  end.

(** What reading makes of the rows of any section: a mapping field by
    field, nothing of an empty mapping, and of any other value its text. *)
Definition reread_any (sd : string * value) : list (string * value) :=
  match snd sd with
  | VDict [] => []
  | VDict d => [ (fst sd, VDict (map (fun f => (fst f, reread py_str (snd f))) d)) ]
  | v => [ (fst sd, parse_cell (py_str v)) ]
  end.

End Steps.

(** A report as a dict holds it: distinct section names, and in a section
    that is a mapping distinct keys, none of them empty. *)
Definition storable (report : dict) : Prop :=
  NoDup (keys report) /\
  Forall (fun sd => forall d, snd sd = VDict d -> fields_ok d) report.

(** The shape of a report [get_location_info] returned. *)
Definition located (month year : Z) (report : dict) : Prop :=
  exists (climate weather elevation : value) (soil_data : dict),
    report = [ (CLIMATE_KEY, climate); (WEATHER_KEY, weather);
               (SOIL_KEY, VDict soil_data); (ELEVATION_KEY, elevation) ] /\
    (success_record climate \/ climate = error_record month DEFAULT_MAX_YEARS_BACK year) /\
    (weather = NO_WEATHER \/
     exists location temp humidity pressure : value,
       weather = VDict [ ("Location", location); ("Temperature", temp);
                         ("Humidity", humidity); ("Pressure", pressure) ]) /\
    keys soil_data = soil_properties /\
    (elevation = NO_ELEVATION \/
     exists x : value, elevation = VDict [ ("Elevation (meters)", x) ]).

(** A leaf of a report that was read: [None] or a text that is not empty. *)
Definition read_leaf (v : value) : bool :=
  match v with
  | VNone => true
  | VStr s => negb (String.eqb s "")
  | _ => false
  end.

Definition read_field (kv : string * value) : bool :=
  negb (String.eqb (fst kv) "") && read_leaf (snd kv).

(** A section of a report that was read: a leaf, or a mapping that is not
    empty from keys that are not empty to leaves. *)
Definition read_section_ok (v : value) : bool :=
  match v with
  | VDict d => nonempty d && forallb read_field d
  | _ => read_leaf v
  end.

Definition distinct_fields (v : value) : Prop :=
  match v with VDict d => NoDup (keys d) | _ => True end.

Definition as_read (report : dict) : Prop :=
  NoDup (keys report) /\
  Forall (fun sd => read_section_ok (snd sd) = true /\ distinct_fields (snd sd)) report.

(** A line at which the reading of the file ends, the report read so far
    being [report]: a line that has not three fields, or a line with a key
    for a section that is stored as a single value. *)
Definition ends_reading (report : dict) (r : row) : Prop :=
  List.length r <> 3%nat \/
  exists (section key v : string) (stored : value),
    r = [section; key; v] /\ key <> "" /\
    lookup section report = Some stored /\ is_dict stored = false.

(** The six keys of the sensor mapping, in the order they are stored. *)
Definition SENSOR_KEYS : list string := ["T"; "H"; "P"; "T_avg"; "AP"; "pH"].

(** A reply the dialog of [prompt_for_missing_data] turns down for [key]:
    cancelled, not a number, or a number outside the key's range. *)
Definition turned_down (py_float : string -> option R)
    (valid_ranges : list (string * (R * R))) (key : string) (a : answer) : Prop :=
  match a with
  | None => True
  | Some text =>
      match py_float text with
      | None => True
      | Some val =>
          match lookup key valid_ranges with
          | Some (min_val, max_val) => ~ (min_val <= val <= max_val)%R
          | None => False
          end
      end
  end.

(** [val] lies in the range [valid_ranges] gives for [key]. *)
Definition within (valid_ranges : list (string * (R * R))) (key : string) (val : R) : Prop :=
  exists min_val max_val : R,
    lookup key valid_ranges = Some (min_val, max_val) /\ (min_val <= val <= max_val)%R.

End Workflow.

(* ===================================================================== *)
(** * Sample inputs of the workflow                                      *)
(* ===================================================================== *)

Module Inputs.

Import Py Report Fitness Sensors Samples.
Local Open Scope string_scope.

(** A reading of decimal integers, enough for the samples: [float] accepts
    every such text. *)
Definition sample_float (s : string) : option R :=
  match NilZero.int_of_string s with
  | Some i => Some (IZR (Z.of_int i))
  | None => None
  end.

(** A rendering of the values of the samples: a whole number by its
    digits, a text by itself. *)
Definition sample_str (v : value) : string :=
  match v with
  | VNum q => if Pos.eqb (Qden q) 1 then str_of_int (Qnum q) else sample_repr q
  | _ => text_str v
  end.



(** A report whose weather section is the placeholder. *)
Definition report_without_weather : dict :=
  [ (CLIMATE_KEY, VDict [ ("Date Range", VStr "20250201 to 20250228");
                          ("Average Temperature (T2M)", VNum 21);
                          ("Total Precipitation (PRECTOT)", VStr "No data") ]);
    (WEATHER_KEY, NO_WEATHER);
    (SOIL_KEY, VDict [ ("phh2o", VNum 65); ("soc", VNone) ]);
    (ELEVATION_KEY, VDict []) ].

(** The report a file holds after reading: texts and [None] only. *)
Definition report_read : dict :=
  [ (CLIMATE_KEY, VDict [ ("Average Temperature (T2M)", VStr "21");
                          ("Total Precipitation (PRECTOT)", VStr "No data") ]);
    (WEATHER_KEY, VDict [ ("Temperature", VStr "25"); ("Humidity", VStr "  ");
                          ("Pressure", VNone) ]);
    (SOIL_KEY, VDict [ ("phh2o", VStr "7") ]) ].

(** The sensor mapping read from [report_read]. *)
Definition sensor_read : sensor_dict :=
  [ ("T", Some 25%R); ("H", None); ("P", None);
    ("T_avg", Some 21%R); ("AP", None); ("pH", Some 7%R) ].

(** Replies to the dialogs for the three readings [sensor_read] lacks. *)
Definition replies : list answer :=
  [ None; Some "many"; Some "120"; Some "80"; Some "1013"; Some "200" ].

Definition sensor_completed : sensor_dict :=
  [ ("T", Some 25%R); ("H", Some 80%R); ("P", Some 1013%R);
    ("T_avg", Some 21%R); ("AP", Some 200%R); ("pH", Some 7%R) ].

(** Reading the replies of a sample, and settling the comparisons of a
    reply with the bounds of its range. *)
Ltac read_replies :=
  repeat match goal with
         | |- context [Z.of_uint ?u] =>
             let z := eval vm_compute in (Z.of_uint u) in
             change (Z.of_uint u) with z
         end.

Ltac compare_bounds :=
  repeat match goal with
         | |- context [Rle_dec ?a ?b] =>
             first [ assert (a <= b)%R by lra;
                     destruct (Rle_dec a b); [| contradiction]
                   | assert (~ (a <= b)%R) by lra;
                     destruct (Rle_dec a b); [contradiction |] ]
         end.

End Inputs.

(* ===================================================================== *)
(** * Cases of the scorer's inputs                                       *)
(* ===================================================================== *)

Module Ranking.

Import Py Fitness FitnessModel.
Local Open Scope string_scope.
Local Open Scope R_scope.











End Ranking.

(* ===================================================================== *)
(** * Facts about dicts as association lists                             *)
(* ===================================================================== *)

Module DictFacts.

Import Py.

Section Assoc.

Variable A : Type.
Implicit Types (d : list (string * A)) (k : string) (v : A).

Lemma lookup_None_iff k d : lookup k d = None <-> ~ In k (keys d).
Proof.
  induction d as [| [k' v'] d IH]; simpl.
  - tauto.
  - destruct (String.eqb_spec k k') as [E | NE].
    + split; [discriminate | intros H; exfalso; apply H; left; congruence].
    + rewrite IH. split; intros H.
      * intros [E | I]; [congruence | tauto].
      * tauto.
Qed.

Lemma lookup_Some_In k v d : lookup k d = Some v -> In (k, v) d.
Proof.
  induction d as [| [k' v'] d IH]; simpl; [discriminate |].
  destruct (String.eqb_spec k k') as [E | NE].
  - intros H. injection H as ->. left. congruence.
  - intros H. right. apply IH, H.
Qed.


Lemma lookup_in_keys k d : In k (keys d) -> exists v, lookup k d = Some v.
Proof.
  intros I. destruct (lookup k d) as [v |] eqn:E; [eauto |].
  apply lookup_None_iff in E. contradiction.
Qed.

Lemma lookup_app k d1 d2 :
  lookup k (d1 ++ d2) =
  match lookup k d1 with Some v => Some v | None => lookup k d2 end.
Proof.
  induction d1 as [| [k' v'] d1 IH]; simpl; [reflexivity |].
  destruct (String.eqb k k'); [reflexivity | exact IH].
Qed.

Lemma set_fresh k v d : ~ In k (keys d) -> set k v d = d ++ [(k, v)].
Proof.
  induction d as [| [k' v'] d IH]; simpl; intros NI; [reflexivity |].
  destruct (String.eqb_spec k k') as [E | NE]; [exfalso; auto |].
  rewrite IH; [reflexivity | tauto].
Qed.

Lemma keys_set_present k v d : In k (keys d) -> keys (set k v d) = keys d.
Proof.
  induction d as [| [k' v'] d IH]; simpl; [tauto |].
  intros I. destruct (String.eqb_spec k k') as [E | NE]; simpl; [reflexivity |].
  f_equal. apply IH. destruct I; [congruence | assumption].
Qed.

Lemma lookup_set_same k v d : lookup k (set k v d) = Some v.
Proof.
  induction d as [| [k' v'] d IH]; simpl.
  - rewrite String.eqb_refl. reflexivity.
  - destruct (String.eqb k k') eqn:E; simpl; rewrite E; [reflexivity | exact IH].
Qed.

Lemma lookup_set_other k k0 v d : k0 <> k -> lookup k0 (set k v d) = lookup k0 d.
Proof.
  intros NE. induction d as [| [k' v'] d IH]; simpl.
  - destruct (String.eqb_spec k0 k); [contradiction | reflexivity].
  - destruct (String.eqb_spec k k') as [E | NE']; simpl.
    + subst k'. destruct (String.eqb_spec k0 k); [contradiction | reflexivity].
    + destruct (String.eqb k0 k'); [reflexivity | exact IH].
Qed.

End Assoc.

Lemma keys_map_snd (A B : Type) (g : A -> B) (d : list (string * A)) :
  keys (map (fun kv => (fst kv, g (snd kv))) d) = keys d.
Proof.
  unfold keys. rewrite map_map. reflexivity.
Qed.

Lemma lookup_map_snd (A B : Type) (g : A -> B) (k : string) (d : list (string * A)) :
  lookup k (map (fun kv => (fst kv, g (snd kv))) d) = option_map g (lookup k d).
Proof.
  induction d as [| [k' v'] d IH]; simpl; [reflexivity |].
  destruct (String.eqb k k'); [reflexivity | exact IH].
Qed.

End DictFacts.

(* ===================================================================== *)
(** * Facts about fetching code                                          *)
(* ===================================================================== *)

Module NetFacts.

Import Py Net Schema.
Local Open Scope list_scope.

Section Locality.

Variable U : string -> bool.

Lemma local_ret (A : Type) (a : A) : local U (ret a).
Proof.
  intros n1 n2 l1 l2 _. exists (Ok a), []. unfold ret.
  rewrite !app_nil_r. auto.
Qed.

Lemma local_lift (A : Type) (r : res A) : local U (lift r).
Proof.
  intros n1 n2 l1 l2 _. exists r, []. unfold lift.
  rewrite !app_nil_r. auto.
Qed.

Lemma local_fetch_api (u : string) (p : dict) : U u = true -> local U (fetch_api u p).
Proof.
  intros Hu n1 n2 l1 l2 Ha. exists (Ok (n1 u p)), [mkreq u p]. unfold fetch_api.
  rewrite (Ha u p Hu). repeat split. constructor; [exact Hu | constructor].
Qed.

Lemma local_bind (A B : Type) (m : M A) (k : A -> M B) :
  local U m -> (forall a, local U (k a)) -> local U (bind m k).
Proof.
  intros Hm Hk n1 n2 l1 l2 Ha.
  destruct (Hm n1 n2 l1 l2 Ha) as (r & ext & E1 & E2 & F).
  unfold bind. rewrite E1, E2. destruct r as [a | e].
  - destruct (Hk a n1 n2 (l1 ++ ext) (l2 ++ ext) Ha) as (r' & ext' & E1' & E2' & F').
    exists r', (ext ++ ext'). rewrite E1', E2', !app_assoc.
    repeat split. apply Forall_app. split; assumption.
  - exists (Raise e), ext. auto.
Qed.

End Locality.

(** The log a computation leaves is the one it was given, extended by the
    requests it makes from an empty log. *)
Lemma local_extends (U : string -> bool) (A : Type) (m : M A) (net : oracle)
    (log : list request) :
  local U m ->
  m net log = (fst (m net []), log ++ snd (m net [])) /\
  Forall (fun q => U (url q) = true) (snd (m net [])).
Proof.
  intros Hm.
  destruct (Hm net net log [] (fun _ _ _ => eq_refl)) as (r & ext & E1 & E2 & F).
  rewrite E2, E1. simpl. auto.
Qed.

(** Two oracles that agree on the endpoints of [U] give the same result. *)
Lemma local_result (U : string -> bool) (A : Type) (m : M A) (n1 n2 : oracle)
    (l1 l2 : list request) :
  local U m -> agree U n1 n2 -> fst (m n1 l1) = fst (m n2 l2).
Proof.
  intros Hm Ha.
  destruct (Hm n1 n2 l1 l2 Ha) as (r & ext & E1 & E2 & _).
  rewrite E1, E2. reflexivity.
Qed.

Lemma local_weaken (U V : string -> bool) (A : Type) (m : M A) :
  (forall u, U u = true -> V u = true) -> local U m -> local V m.
Proof.
  intros HUV Hm n1 n2 l1 l2 Ha.
  destruct (Hm n1 n2 l1 l2) as (r & ext & E1 & E2 & F).
  - intros u p Hu. apply Ha, HUV, Hu.
  - exists r, ext. repeat split; try assumption.
    rewrite Forall_forall in *. intros q I. apply HUV, F, I.
Qed.

(** A bind that returns went through both of its parts. *)
Lemma bind_Ok (A B : Type) (m : M A) (k : A -> M B) (net : oracle)
    (log log' : list request) (b : B) :
  bind m k net log = (Ok b, log') ->
  exists a l, m net log = (Ok a, l) /\ k a net l = (Ok b, log').
Proof.
  unfold bind. destruct (m net log) as [[a | e] l]; intros H.
  - exists a, l. auto.
  - discriminate.
Qed.

Lemma rbind_Ok (A B : Type) (r : res A) (k : A -> res B) (b : B) :
  rbind r k = Ok b -> exists a, r = Ok a /\ k a = Ok b.
Proof.
  destruct r as [a | e]; simpl; intros H; [eauto | discriminate].
Qed.

Lemma requests_to_app (u : string) (l1 l2 : list request) :
  requests_to u (l1 ++ l2) = requests_to u l1 ++ requests_to u l2.
Proof. apply filter_app. Qed.

End NetFacts.

Module FitnessFacts.

Import Py Fitness FitnessModel DictFacts.
Local Open Scope string_scope.
Local Open Scope list_scope.
Local Open Scope R_scope.

Lemma div_ok (a b : R) : b <> 0 -> div a b = Ok (a / b).
Proof.
  intros Hb. unfold div. destruct (Req_dec_T b 0) as [E | _]; [contradiction | reflexivity].
Qed.

Lemma two_sq_nonzero (x : R) : x <> 0 -> 2 * x ^ 2 <> 0.
Proof.
  intros Hx. apply Rmult_integral_contrapositive_currified; [lra |].
  apply pow_nonzero. exact Hx.
Qed.

Lemma diff_ok (sensor : sensor_dict) (key skey : string) (x opt sigma : R) (sg : fdict) :
  lookup key sensor = Some (Some x) -> lookup skey sg = Some sigma -> sigma <> 0 ->
  diff sensor key opt sg skey = Ok ((x - opt) ^ 2 / (2 * sigma ^ 2)).
Proof.
  intros Hs Hg Hn. unfold diff, item. rewrite Hs, Hg. simpl.
  apply div_ok, two_sq_nonzero, Hn.
Qed.

Lemma plant_fitness_value
    (sensor : sensor_dict) (optimal sg wt : fdict)
    (s : SensorVector) (o : OptimalProfile) (sigma : Sigmas) (w : Weights) :
  populated sensor s -> profile_of optimal o ->
  sigmas_of sg sigma -> weights_of wt w -> nonzero sigma ->
  plant_fitness sensor optimal sg wt = Ok (exp (- exponent s o sigma w)).
Proof.
  intros (sT & sH & sP & sTa & sAP & spH) (oT & oH & opH & oAP)
         (gT & gH & gP & gTa & gAP & gpH) (wT & wH & wP & wTa & wAP & wpH)
         (nT & nH & nP & nTa & nAP & npH).
  unfold plant_fitness, item.
  rewrite oT, oH, opH, oAP. cbn [rbind].
  rewrite (@diff_ok _ _ _ _ _ _ _ sT gT nT), (@diff_ok _ _ _ _ _ _ _ sH gH nH), (@diff_ok _ _ _ _ _ _ _ sP gP nP),
          (@diff_ok _ _ _ _ _ _ _ sTa gTa nTa), (@diff_ok _ _ _ _ _ _ _ sAP gAP nAP), (@diff_ok _ _ _ _ _ _ _ spH gpH npH).
  cbn [rbind]. rewrite wT, wH, wP, wTa, wAP, wpH. cbn [rbind].
  do 2 f_equal. unfold exponent, Rdiv. ring.
Qed.










Section Scoring.

Variables (sensor : sensor_dict) (sg wt : fdict).
Variables (s : SensorVector) (sigma : Sigmas) (w : Weights).
Hypothesis sensor_ok : populated sensor s.
Hypothesis sigmas_ok : sigmas_of sg sigma.
Hypothesis weights_ok : weights_of wt w.
Hypothesis sigma_nonzero : nonzero sigma.

Lemma plant_fitness_score (optimal : fdict) :
  (exists o, profile_of optimal o) ->
  plant_fitness sensor optimal sg wt = Ok (score sensor sg wt optimal).
Proof.
  intros [o Ho]. unfold score.
  rewrite (plant_fitness_value sensor_ok Ho sigmas_ok weights_ok sigma_nonzero).
  reflexivity.
Qed.

Lemma score_all_ok (items : list (string * fdict)) :
  forall acc : fdict,
    complete items -> NoDup (keys acc ++ keys items) ->
    score_all sensor items sg wt acc
    = Ok (acc ++ map (fun co => (fst co, score sensor sg wt (snd co))) items).
Proof.
  induction items as [| [crop optimal] rest IH]; intros acc Hc ND; simpl.
  - rewrite app_nil_r. reflexivity.
  - inversion Hc as [| ? ? Ho Hc']; subst.
    simpl in Ho. rewrite (plant_fitness_score Ho). cbn [rbind].
    assert (NI : ~ In crop (keys acc)).
    { intros I. apply NoDup_remove_2 in ND. apply ND, in_or_app. left. exact I. }
    rewrite set_fresh by exact NI.
    rewrite IH; [| exact Hc' |].
    + rewrite <- app_assoc. reflexivity.
    + unfold keys in *. rewrite map_app, <- app_assoc. exact ND.
Qed.

End Scoring.

Lemma gt_Some (x y : R) : gt (Some x) (Some y) = Ok (if Rlt_dec y x then true else false).
Proof. reflexivity. Qed.

(** [max_loop] returns the first item whose key is maximal. *)
Lemma max_loop_first_max (key : string -> option R) (f : string -> R) (l : list string) :
  forall (pre : list string) (best : string) (mid : list string),
    (forall x, In x (pre ++ best :: mid ++ l) -> key x = Some (f x)) ->
    (forall x, In x pre -> f x < f best) ->
    (forall x, In x mid -> f x <= f best) ->
    exists (b : string) (pre' post' : list string),
      max_loop key best (key best) l = Ok b /\
      (pre ++ best :: mid ++ l = pre' ++ b :: post')%list /\
      (forall x, In x pre' -> f x < f b) /\
      (forall x, In x post' -> f x <= f b).
Proof.
  induction l as [| x rest IH]; intros pre best mid Hkey Hpre Hmid.
  - exists best, pre, mid. rewrite app_nil_r. simpl. auto.
  - simpl.
    rewrite (Hkey x), (Hkey best), gt_Some;
      [| apply in_or_app; right; left; reflexivity
       | apply in_or_app; right; right; apply in_or_app; right; left; reflexivity].
    cbn [rbind]. destruct (Rlt_dec (f best) (f x)) as [Lt | NLt].
    + destruct (IH (pre ++ best :: mid)%list x []) as (b & pre' & post' & Hb & Heq & H1 & H2).
      * intros y Hy. apply Hkey. simpl in Hy. rewrite <- app_assoc in Hy. exact Hy.
      * intros y Hy. apply in_app_or in Hy. destruct Hy as [Hy | [Hy | Hy]].
        -- apply Hpre in Hy. lra.
        -- subst y. exact Lt.
        -- apply Hmid in Hy. lra.
      * intros y [].
      * exists b, pre', post'. rewrite (Hkey x) in Hb;
          [| apply in_or_app; right; right; apply in_or_app; right; left; reflexivity].
        split; [exact Hb |]. split; [| auto].
        rewrite <- Heq. simpl. rewrite <- app_assoc. reflexivity.
    + destruct (IH pre best (mid ++ [x])%list) as (b & pre' & post' & Hb & Heq & H1 & H2).
      * intros y Hy. apply Hkey. rewrite <- app_assoc in Hy. exact Hy.
      * exact Hpre.
      * intros y Hy. apply in_app_or in Hy. destruct Hy as [Hy | [Hy | []]].
        -- apply Hmid, Hy.
        -- subst y. lra.
      * exists b, pre', post'. rewrite (Hkey best) in Hb;
          [| apply in_or_app; right; left; reflexivity].
        split; [exact Hb |]. split; [| auto].
        rewrite <- Heq, <- app_assoc. reflexivity.
Qed.


Section Recommending.

Variables (sensor : sensor_dict) (sg wt : fdict).
Variables (s : SensorVector) (sigma : Sigmas) (w : Weights).
Hypothesis sensor_ok : populated sensor s.
Hypothesis sigmas_ok : sigmas_of sg sigma.
Hypothesis weights_ok : weights_of wt w.
Hypothesis sigma_nonzero : nonzero sigma.

Variable optimal_conditions : list (string * fdict).
Hypothesis profiles_ok : complete optimal_conditions.
Hypothesis keys_ok : NoDup (keys optimal_conditions).


Lemma score_all_scores :
  score_all sensor optimal_conditions sg wt [] = Ok (score_mapping_of sensor sg wt optimal_conditions).
Proof.
  rewrite (score_all_ok sensor_ok sigmas_ok weights_ok sigma_nonzero);
    [reflexivity | exact profiles_ok | exact keys_ok].
Qed.


(** What [recommend_crop] returns on a non-empty mapping. *)
Lemma recommend_crop_result :
  optimal_conditions <> [] ->
  exists (best_crop : string) (best_score : R),
    recommend_crop sensor optimal_conditions sg wt = Ok (best_crop, best_score, (score_mapping_of sensor sg wt optimal_conditions)) /\
    lookup best_crop (score_mapping_of sensor sg wt optimal_conditions) = Some best_score /\
    (forall crop f, lookup crop (score_mapping_of sensor sg wt optimal_conditions) = Some f -> f <= best_score) /\
    (exists before after : list string,
       keys optimal_conditions = before ++ best_crop :: after /\
       forall crop f, In crop before -> lookup crop (score_mapping_of sensor sg wt optimal_conditions) = Some f -> f < best_score).
Proof.
  intros NE. unfold recommend_crop. rewrite score_all_scores. cbn [rbind].
  set (f := fun c => match lookup c (score_mapping_of sensor sg wt optimal_conditions) with Some v => v | None => 0 end).
  assert (Hk : keys (score_mapping_of sensor sg wt optimal_conditions) = keys optimal_conditions) by apply keys_map_snd.
  assert (Hkey : forall x, In x (keys (score_mapping_of sensor sg wt optimal_conditions)) -> lookup x (score_mapping_of sensor sg wt optimal_conditions) = Some (f x)).
  { intros x I. destruct (lookup_in_keys _ _ I) as [v E]. unfold f. rewrite E. reflexivity. }
  destruct (keys (score_mapping_of sensor sg wt optimal_conditions)) as [| c0 rest] eqn:Ek.
  { destruct optimal_conditions; [contradiction | discriminate]. }
  destruct (@max_loop_first_max (fun c => lookup c (score_mapping_of sensor sg wt optimal_conditions)) f rest [] c0 [])
    as (b & pre' & post' & Hb & Heq & H1 & H2).
  { intros x I. apply Hkey. exact I. }
  { intros x []. }
  { intros x []. }
  simpl in Heq. unfold max_by. rewrite Hb. cbn [rbind].
  assert (Ib : In b (c0 :: rest)).
  { rewrite Heq. apply in_or_app. right. left. reflexivity. }
  unfold item. rewrite (Hkey b Ib). cbn [rbind].
  exists b, (f b). split; [reflexivity |]. split; [apply Hkey, Ib |]. split.
  - intros crop v E.
    assert (I : In crop (c0 :: rest)).
    { rewrite <- Ek. apply lookup_Some_In in E. change crop with (fst (crop, v)).
      apply in_map, E. }
    assert (Ev : v = f crop) by (unfold f; rewrite E; reflexivity).
    rewrite Heq in I. apply in_app_or in I. destruct I as [I | [I | I]].
    + apply H1 in I. lra.
    + subst b. lra.
    + apply H2 in I. lra.
  - exists pre', post'. split; [rewrite <- Hk; exact Heq |].
    intros crop v I E.
    assert (Ev : v = f crop) by (unfold f; rewrite E; reflexivity).
    apply H1 in I. lra.
Qed.

End Recommending.












(** A three-way tie goes to the crop the mapping iterates first. *)
Example three_way_tie :
  exists (score : R) (mapping : fdict),
    recommend_crop sample_sensor tied_conditions sigmas weights = Ok ("a", score, mapping).
Proof.
  assert (Hc : complete tied_conditions).
  { repeat constructor; exists rice_profile; lookups. }
  assert (ND : NoDup (keys tied_conditions)).
  { repeat constructor; simpl; intuition discriminate. }
  destruct (@recommend_crop_result sample_sensor sigmas weights
              sample_vector fixed_sigmas fixed_weights
              ltac:(lookups) ltac:(lookups) ltac:(lookups) ltac:(nonzeros)
              tied_conditions Hc ND ltac:(discriminate))
    as (b & sc & Hr & Hb & Hmax & before & after & Hk & Hlt).
  assert (Eb : b = "a").
  { destruct before as [| c0 before'].
    - simpl in Hk. injection Hk as Ha _. congruence.
    - exfalso.
      assert (I : In b (keys tied_conditions)).
      { rewrite Hk. apply in_or_app. right. left. reflexivity. }
      simpl in Hk. injection Hk as Hc0 _. subst c0.
      assert (Ha : lookup "a" (map (fun co => (fst co, score sample_sensor sigmas weights (snd co)))
                                   tied_conditions)
                   = Some (score sample_sensor sigmas weights rice)) by reflexivity.
      pose proof (Hlt "a" _ (or_introl eq_refl) Ha) as Hlt'.
      assert (Hsc : sc = score sample_sensor sigmas weights rice).
      { simpl in I. destruct I as [I | [I | [I | []]]]; subst b;
          simpl in Hb; congruence. }
      lra. }
  subst b. eauto.
Qed.

End FitnessFacts.

(* ===================================================================== *)
(** * Facts about the climate resolver                                   *)
(* ===================================================================== *)

Module ClimateFacts.

Import Py Calendar Net Climate Schema NetFacts.
Local Open Scope string_scope.
Local Open Scope list_scope.
Local Open Scope Z_scope.

(** The loop that moves a future date back, in closed form. *)
Lemma adjust_year_closed (cy cm m ay : Z) :
  adjust_year cy cm m ay =
  if ay >? cy then (if m >? cm then cy - 1 else cy)
  else if (ay =? cy) && (m >? cm) then cy - 1
  else ay.
Proof.
  funelim (adjust_year cy cm m ay).
  - rewrite H. clear - e. unfold in_future in e.
    destruct (Z.gtb_spec ay cy) as [G | NG]; simpl in e.
    + destruct (Z.gtb_spec (ay - 1) cy) as [G' | NG']; [reflexivity |].
      assert (E : ay - 1 = cy) by lia. rewrite E, Z.eqb_refl. simpl.
      destruct (m >? cm); reflexivity.
    + apply andb_true_iff in e. destruct e as [e1 e2].
      apply Z.eqb_eq in e1. subst ay. rewrite Z.eqb_refl, e2. simpl.
      destruct (Z.gtb_spec (cy - 1) cy) as [G' | _]; [lia |].
      destruct (Z.eqb_spec (cy - 1) cy) as [E' | _]; [lia |]. reflexivity.
  - clear - e. unfold in_future in e.
    apply orb_false_iff in e. destruct e as [e1 e2]. rewrite e1, e2. reflexivity.
Qed.

(** ** Concrete runs *)

Example adjust_year_future_late_month : adjust_year 2026 11 12 2030 = 2025.
Proof. reflexivity. Qed.

Example adjust_year_future_early_month : adjust_year 2026 11 3 2030 = 2026.
Proof. reflexivity. Qed.

Example adjust_year_past : adjust_year 2026 11 12 2019 = 2019.
Proof. reflexivity. Qed.

(** February 2026 has no data; the search falls back on February 2025,
    whose precipitation comes from the secondary provider. *)
Example search_falls_back_one_year :
  run (get_climate_data 2026 11 1 2 2 2026 5) Samples.net_sample
  = (Ok (VDict [ ("Date Range", VStr "20250201 to 20250228");
                 ("Average Temperature (T2M)", VNum (3 # 2));
                 ("Total Precipitation (PRECTOT)", VNum (3 # 2)) ]),
     [ primary_request 1 2 2026 2; primary_request 1 2 2025 2;
       secondary_request 1 2 2025 2 ]).
Proof. vm_compute. reflexivity. Qed.

Example search_exhausted :
  fst (run (get_climate_data 2026 11 1 2 2 2026 5) Samples.net_down)
  = Ok (VDict [ ("Error",
                 VStr "No climate data for month 2 in past 5 years from 2026.") ]).
Proof. vm_compute. reflexivity. Qed.

Example leap_february : monthrange_days 2024 2 = Ok 29 /\ monthrange_days 1900 2 = Ok 28.
Proof. split; reflexivity. Qed.

(** ** Dates *)

Lemma days_in_month_bounds (y m : Z) :
  1 <= m <= 12 -> 28 <= days_in_month y m <= 31.
Proof.
  intros Hm. unfold days_in_month.
  assert (C : m = 1 \/ m = 2 \/ m = 3 \/ m = 4 \/ m = 5 \/ m = 6 \/ m = 7 \/
              m = 8 \/ m = 9 \/ m = 10 \/ m = 11 \/ m = 12) by lia.
  repeat (destruct C as [C | C]); subst m; simpl; try lia.
  destruct (isleap y); lia.
Qed.

Lemma monthrange_days_ok (y m : Z) :
  1 <= m <= 12 -> monthrange_days y m = Ok (days_in_month y m).
Proof.
  intros [H1 H2]. unfold monthrange_days.
  apply Z.leb_le in H1, H2. rewrite H1, H2. reflexivity.
Qed.

Lemma datetime_ok (y m d : Z) :
  1 <= y <= 9999 -> 1 <= m <= 12 -> 1 <= d <= days_in_month y m ->
  datetime y m d = Ok (mkdate y m d).
Proof.
  intros [Y1 Y2] [M1 M2] [D1 D2]. unfold datetime, MINYEAR, MAXYEAR.
  unfold days_in_month in D2.
  apply Z.leb_le in Y1, Y2, M1, M2, D1, D2.
  rewrite Y1, Y2, M1, M2, D1, D2. reflexivity.
Qed.

Lemma datetime_year_range (y m d : Z) (dt : date) :
  datetime y m d = Ok dt -> 1 <= y <= 9999.
Proof.
  unfold datetime, MINYEAR, MAXYEAR.
  destruct (Z.leb_spec 1 y); destruct (Z.leb_spec y 9999); simpl;
    try discriminate. lia.
Qed.

(** ** Sums of daily series *)

Lemma sum_from_nums (l : list value) :
  forall acc : Q,
    forallb is_num l = true ->
    sum_from acc l = Ok (fold_left Qplus (map num_of l) acc).
Proof.
  induction l as [| v l IH]; intros acc H; simpl; [reflexivity |].
  simpl in H. apply andb_true_iff in H. destruct H as [Hv Hl].
  destruct v; try discriminate. simpl. apply IH, Hl.
Qed.

Lemma sum_nums (l : list value) :
  forallb is_num l = true -> sum l = Ok (total_of l).
Proof. apply sum_from_nums. Qed.

Lemma forallb_filter (A : Type) (p q : A -> bool) (l : list A) :
  forallb p l = true -> forallb p (filter q l) = true.
Proof.
  induction l as [| a l IH]; simpl; [reflexivity |].
  intros H. apply andb_true_iff in H. destruct H as [Ha Hl].
  destruct (q a); simpl; [rewrite Ha |]; auto.
Qed.

Lemma valid_readings_ok (series : value) :
  series_ok series = true ->
  exists l, valid_readings series = Ok l /\ forallb is_num l = true.
Proof.
  destruct series as [| | | | | d]; try discriminate. simpl. intros H.
  eexists. split; [reflexivity |].
  apply forallb_filter. rewrite forallb_forall in *.
  intros v I. apply in_map_iff in I. destruct I as (kv & <- & I). apply H, I.
Qed.

Lemma average_ok (valid : list value) :
  forallb is_num valid = true ->
  exists avg, average valid = Ok avg /\
              (valid = [] -> avg = NO_DATA) /\
              (valid <> [] -> avg <> NO_DATA).
Proof.
  intros H. unfold average. destruct valid as [| v l] eqn:E.
  - exists NO_DATA. simpl. repeat split; congruence.
  - unfold nonempty. rewrite (sum_nums _ H). cbn [rbind].
    eexists. split; [reflexivity |]. split; [discriminate |].
    intros _. unfold NO_DATA. discriminate.
Qed.

Lemma get_series_ok (prm : dict) (k : string) :
  field_ok k series_ok prm = true ->
  exists series, get (VDict prm) k (VDict []) = Ok series /\ series_ok series = true.
Proof.
  unfold field_ok, get. intros H. destruct (lookup k prm) as [v |].
  - exists v. auto.
  - exists (VDict []). auto.
Qed.

(** ** The secondary provider *)

Lemma alternative_total_ok (response : value) :
  secondary_ok response = true ->
  alternative_total response = Ok (secondary_total response).
Proof.
  unfold alternative_total, secondary_total, secondary_series.
  destruct response as [| | | | | d]; try discriminate; [reflexivity |].
  destruct d as [| kv d']; [reflexivity |].
  set (d := kv :: d'). unfold secondary_ok, object, field_ok.
  cbn [truthy and_then contains getitem rbind].
  destruct (lookup "daily" d) as [daily |]; [| reflexivity].
  destruct daily as [| | | | | dd]; try discriminate.
  cbn [and_then contains getitem rbind].
  destruct (lookup "precipitation_sum" dd) as [ps |]; [| reflexivity].
  cbn [and_then contains getitem rbind].
  destruct ps as [| | | | l |]; try discriminate.
  unfold num_list. intros H. destruct l as [| x l]; [reflexivity |].
  cbn [truthy iterate rbind]. rewrite (sum_nums _ H). reflexivity.
Qed.

Lemma secondary_total_cases (response : value) :
  secondary_total response = NO_DATA \/
  exists q, secondary_total response = VNum q.
Proof.
  unfold secondary_total. destruct (secondary_series response) as [[| x l] |]; eauto.
Qed.

(** ** The primary provider *)

Lemma primary_cases (cr : value) :
  primary_ok cr = true ->
  has_parameter_block cr = Ok false \/
  exists d pd prm,
    cr = VDict d /\
    lookup "properties" d = Some (VDict pd) /\
    lookup "parameter" pd = Some (VDict prm) /\
    field_ok "T2M" series_ok prm = true /\
    field_ok "PRECTOT" series_ok prm = true /\
    has_parameter_block cr = Ok true.
Proof.
  unfold has_parameter_block.
  destruct cr as [| | | | | d]; try discriminate; [left; reflexivity |].
  destruct d as [| kv d']; [left; reflexivity |].
  set (d := kv :: d'). unfold primary_ok, object, field_ok.
  cbn [truthy and_then contains getitem rbind].
  destruct (lookup "properties" d) as [p |] eqn:Ep; [| left; reflexivity].
  destruct p as [| | | | | pd]; try discriminate.
  cbn [and_then contains getitem rbind].
  destruct (lookup "parameter" pd) as [prm |] eqn:Eprm; [| left; reflexivity].
  destruct prm as [| | | | | m]; try discriminate.
  intros H. apply andb_true_iff in H. destruct H as [H1 H2].
  right. exists d, pd, m. unfold field_ok. repeat split; assumption || reflexivity.
Qed.

(** ** One attempt *)

Lemma bind_lift (A B : Type) (r : res A) (k : A -> M B) (net : oracle)
    (log : list request) :
  bind (lift r) k net log =
  match r with
  | Ok a => k a net log
  | Raise e => (Raise e, log)
  end.
Proof. unfold bind, lift. destruct r; reflexivity. Qed.



Lemma get_alternative_precipitation_run (net : oracle) (lat lon : Q)
    (sd ed : string) (log : list request) :
  get_alternative_precipitation lat lon sd ed net log
  = (alternative_total (net METEO_URL (alternative_params lat lon sd ed)),
     log ++ [mkreq METEO_URL (alternative_params lat lon sd ed)]).
Proof. reflexivity. Qed.

Lemma total_precipitation_run (net : oracle) (lat lon : Q) (sd ed : string)
    (valid : list value) (log : list request) :
  forallb is_num valid = true ->
  secondary_ok (net METEO_URL (alternative_params lat lon sd ed)) = true ->
  total_precipitation valid lat lon sd ed net log =
  if nonempty valid
  then (Ok (VNum (total_of valid)), log)
  else (Ok (secondary_total (net METEO_URL (alternative_params lat lon sd ed))),
        log ++ [mkreq METEO_URL (alternative_params lat lon sd ed)]).
Proof.
  intros Hv Hs. unfold total_precipitation. destruct (nonempty valid).
  - rewrite bind_lift, (sum_nums _ Hv). reflexivity.
  - rewrite get_alternative_precipitation_run, (alternative_total_ok _ Hs). reflexivity.
Qed.

Lemma ne_str_true (v : value) (s : string) : ne_str v s = true -> v <> VStr s.
Proof.
  unfold ne_str, is_str. intros H E. subst v. rewrite String.eqb_refl in H. discriminate.
Qed.

Lemma ne_str_false (v : value) (s : string) : ne_str v s = false -> v = VStr s.
Proof.
  unfold ne_str, is_str. destruct v; try discriminate.
  destruct (String.eqb_spec s0 s); [congruence | discriminate].
Qed.

(** The record of an attempt whose readings are [avg] and [total]. *)
Lemma record_or_none (start_date end_date : string) (avg total : value)
    (net : oracle) (log : list request) :
  exists r : option value,
    (if ne_str avg "No data" || ne_str total "No data"
     then ret (Some (VDict
            [ ("Date Range", VStr (start_date ++ " to " ++ end_date)%string);
              ("Average Temperature (T2M)", avg);
              ("Total Precipitation (PRECTOT)", total) ]))
     else ret None) net log = (Ok r, log) /\
    (forall rec, r = Some rec -> success_record rec) /\
    (r = None -> avg = NO_DATA /\ total = NO_DATA).
Proof.
  destruct (ne_str avg "No data" || ne_str total "No data") eqn:E.
  - eexists. split; [reflexivity |]. split; [| discriminate].
    intros rec H. injection H as <-. do 3 eexists. split; [reflexivity |].
    apply orb_true_iff in E. destruct E as [E | E]; apply ne_str_true in E; auto.
  - exists None. split; [reflexivity |]. split; [discriminate |].
    intros _. apply orb_false_iff in E. destruct E as [E1 E2].
    apply ne_str_false in E1, E2. auto.
Qed.

Lemma read_response_run (net : oracle) (lat lon : Q) (sd ed : string)
    (cr : value) (log : list request) :
  primary_ok cr = true ->
  secondary_ok (net METEO_URL (alternative_params lat lon sd ed)) = true ->
  exists (r : option value) (ext : list request),
    read_response lat lon sd ed cr net log = (Ok r, log ++ ext) /\
    requests_to NASA_URL ext = [] /\
    (forall rec, r = Some rec -> success_record rec).
Proof.
  intros Hp Hs. unfold read_response.
  destruct (primary_cases _ Hp) as [Hb | (d & pd & prm & -> & Ed & Epd & Ht & Hr & Hb)];
    rewrite bind_lift, Hb.
  { exists None, []. rewrite app_nil_r. repeat split. discriminate. }
  unfold getitem at 1. rewrite Ed, bind_lift.
  unfold getitem at 1. rewrite Epd, bind_lift.
  destruct (get_series_ok _ _ Ht) as (t2m & Et & Hts).
  destruct (get_series_ok _ _ Hr) as (prc & Er & Hrs).
  rewrite Et, bind_lift, Er, bind_lift.
  destruct (valid_readings_ok _ Hts) as (vt & Evt & Hvt).
  destruct (valid_readings_ok _ Hrs) as (vr & Evr & Hvr).
  rewrite Evt, bind_lift, Evr, bind_lift.
  destruct (average_ok _ Hvt) as (avg & Eavg & _).
  rewrite Eavg, bind_lift.
  unfold bind at 1. rewrite total_precipitation_run by assumption.
  destruct (nonempty vr).
  - destruct (record_or_none sd ed avg (VNum (total_of vr)) net log) as (r & Er' & Hsucc & _).
    rewrite Er'. exists r, []. rewrite app_nil_r. auto.
  - set (total := secondary_total _).
    set (log' := log ++ _).
    destruct (record_or_none sd ed avg total net log') as (r & Er' & Hsucc & _).
    rewrite Er'. exists r. eexists. split; [reflexivity |]. split; [reflexivity | exact Hsucc].
Qed.

Lemma attempt_run (net : oracle) (lat lon : Q) (month y : Z) (log : list request) :
  1 <= month <= 12 -> 1 <= y <= 9999 -> climate_conforms net ->
  exists (r : option value) (ext : list request),
    attempt lat lon month y net log
    = (Ok r, log ++ primary_request lat lon y month :: ext) /\
    requests_to NASA_URL ext = [] /\
    (forall rec, r = Some rec -> success_record rec).
Proof.
  intros Hm Hy [Hp Hs]. unfold attempt.
  pose proof (days_in_month_bounds y Hm) as Hd.
  rewrite bind_lift, (monthrange_days_ok y Hm).
  rewrite bind_lift, datetime_ok by (assumption || lia).
  rewrite bind_lift, datetime_ok by (assumption || lia).
  unfold bind at 1, fetch_api at 1.
  destruct (@read_response_run net lat lon
              (strftime_Ymd (mkdate y month 1))
              (strftime_Ymd (mkdate y month (days_in_month y month)))
              (net NASA_URL (primary_params lat lon
                 (strftime_Ymd (mkdate y month 1))
                 (strftime_Ymd (mkdate y month (days_in_month y month)))))
              (log ++ [primary_request lat lon y month]))
    as (r & ext & E & Hn & Hsucc); [apply Hp | apply Hs |].
  unfold primary_request, first_day, last_day in *. rewrite E.
  exists r, ext. rewrite <- app_assoc. auto.
Qed.


(** ** The shape of what the resolver returns *)

Lemma success_record_is_section (rec : value) :
  success_record rec -> is_section rec = true.
Proof. intros (range & avg & total & -> & _). reflexivity. Qed.

Lemma read_response_shape (net : oracle) (lat lon : Q) (sd ed : string)
    (cr : value) (log log' : list request) (rec : value) :
  read_response lat lon sd ed cr net log = (Ok (Some rec), log') ->
  success_record rec.
Proof.
  unfold read_response. intros H.
  apply bind_Ok in H. destruct H as (cond & l0 & _ & H).
  destruct cond; [| unfold ret in H; discriminate].
  do 6 (apply bind_Ok in H; destruct H as (? & ? & _ & H)).
  apply bind_Ok in H. destruct H as (avg & l1 & _ & H).
  apply bind_Ok in H. destruct H as (total & l2 & _ & H).
  destruct (ne_str avg "No data" || ne_str total "No data") eqn:E;
    unfold ret in H; [| discriminate].
  injection H as <- _. do 3 eexists. split; [reflexivity |].
  apply orb_true_iff in E. destruct E as [E | E]; apply ne_str_true in E; auto.
Qed.

Lemma attempt_shape (net : oracle) (lat lon : Q) (month y : Z)
    (log log' : list request) (rec : value) :
  attempt lat lon month y net log = (Ok (Some rec), log') -> success_record rec.
Proof.
  unfold attempt. intros H.
  do 4 (apply bind_Ok in H; destruct H as (? & ? & _ & H)).
  apply read_response_shape in H. exact H.
Qed.

Lemma search_shape (net : oracle) (lat lon : Q) (month : Z) (n : nat) :
  forall (y : Z) (log log' : list request) (rec : value),
    search n lat lon month y net log = (Ok (Some rec), log') -> success_record rec.
Proof.
  induction n as [| n IH]; intros y log log' rec H; simpl in H.
  - unfold ret in H. discriminate.
  - apply bind_Ok in H. destruct H as (r & l & Ha & H). destruct r as [rec0 |].
    + unfold ret in H. injection H as <- _. apply attempt_shape in Ha. exact Ha.
    + apply IH in H. exact H.
Qed.

(** A climate section that was returned is a success record or the error
    record, whatever the providers answered. *)
Lemma get_climate_data_returned (net : oracle) (cy cm : Z) (lat lon : Q)
    (month year mb : Z) (log log' : list request) (v : value) :
  get_climate_data cy cm lat lon month year mb net log = (Ok v, log') ->
  success_record v \/ v = error_record month mb year.
Proof.
  unfold get_climate_data. intros H.
  apply bind_Ok in H. destruct H as (r & l & Hs & H). destruct r as [rec |].
  - unfold ret in H. injection H as <- _. left. apply search_shape in Hs. exact Hs.
  - unfold ret in H. injection H as <- _. right. reflexivity.
Qed.

Lemma get_climate_data_shape (net : oracle) (cy cm : Z) (lat lon : Q)
    (month year mb : Z) (log log' : list request) (v : value) :
  get_climate_data cy cm lat lon month year mb net log = (Ok v, log') ->
  is_section v = true.
Proof.
  intros H. apply get_climate_data_returned in H.
  destruct H as [H | ->]; [apply success_record_is_section, H | reflexivity].
Qed.

(** ** Locality of the resolver *)

Lemma get_alternative_precipitation_local (lat lon : Q) (sd ed : string) :
  local secondary_urls (get_alternative_precipitation lat lon sd ed).
Proof.
  unfold get_alternative_precipitation.
  apply local_bind; [apply local_fetch_api; reflexivity | intros response].
  apply local_lift.
Qed.

Lemma read_response_local (lat lon : Q) (sd ed : string) (cr : value) :
  local secondary_urls (read_response lat lon sd ed cr).
Proof.
  unfold read_response, total_precipitation.
  repeat first
    [ apply local_ret
    | apply local_lift
    | apply local_fetch_api; reflexivity
    | apply local_bind; [| intros ?]
    | match goal with
      | |- local _ (if ?b then _ else _) => destruct b
      | |- local _ (match ?x with _ => _ end) => destruct x
      end ].
Qed.

Lemma secondary_climate (u : string) : secondary_urls u = true -> climate_urls u = true.
Proof. unfold secondary_urls, climate_urls. intros ->. apply orb_true_r. Qed.

Lemma attempt_local (lat lon : Q) (month y : Z) :
  local climate_urls (attempt lat lon month y).
Proof.
  unfold attempt.
  apply local_bind; [apply local_lift | intros ld].
  apply local_bind; [apply local_lift | intros d1].
  apply local_bind; [apply local_lift | intros d2].
  apply local_bind; [apply local_fetch_api; reflexivity | intros cr].
  apply (local_weaken secondary_climate), read_response_local.
Qed.

Lemma search_local (lat lon : Q) (month : Z) (n : nat) :
  forall y, local climate_urls (search n lat lon month y).
Proof.
  induction n as [| n IH]; intros y; simpl.
  - apply local_ret.
  - apply local_bind; [apply attempt_local |].
    intros [rec |]; [apply local_ret | apply IH].
Qed.

Lemma get_climate_data_local (cy cm : Z) (lat lon : Q) (month year mb : Z) :
  local climate_urls (get_climate_data cy cm lat lon month year mb).
Proof.
  unfold get_climate_data. apply local_bind; [apply search_local |].
  intros [rec |]; apply local_ret.
Qed.

Lemma attempt_outcome_run (net : oracle) (lat lon : Q) (month y : Z)
    (log : list request) :
  attempt lat lon month y net log
  = (attempt_outcome net lat lon month y,
     log ++ snd (attempt lat lon month y net [])).
Proof. apply (local_extends net log (attempt_local lat lon month y)). Qed.

Lemma no_primary_among_secondary (ext : list request) :
  Forall (fun q => secondary_urls (url q) = true) ext ->
  requests_to NASA_URL ext = [].
Proof.
  induction 1 as [| q ext Hq _ IH]; [reflexivity |].
  unfold requests_to in *. simpl. rewrite IH.
  unfold secondary_urls in Hq. apply String.eqb_eq in Hq. rewrite Hq. reflexivity.
Qed.


(** ** The search loop *)


Lemma search_run (net : oracle) (lat lon : Q) (month : Z) :
  climate_conforms net -> 1 <= month <= 12 ->
  forall (n : nat) (y : Z) (log : list request),
    y <= 9999 -> ((0 < n)%nat -> Z.of_nat n <= y) ->
    exists (r : option value) (ext : list request),
      search n lat lon month y net log = (Ok r, log ++ ext) /\
      match r with
      | Some rec =>
          success_record rec /\
          exists k : nat, (k < n)%nat /\ first_success net lat lon month y k rec /\
                          primary_fetches ext = S k
      | None => all_fail net lat lon month y n /\ primary_fetches ext = n
      end.
Proof.
  intros Hc Hm. induction n as [| n IH]; intros y log Hy Hn; simpl.
  - exists None, []. rewrite app_nil_r. split; [reflexivity |].
    split; [intros j Hj; lia | reflexivity].
  - destruct (@attempt_run net lat lon month y [] Hm ltac:(lia) Hc)
      as (r0 & ext0 & E0 & Hn0 & Hs0).
    unfold bind at 1. rewrite attempt_outcome_run.
    unfold attempt_outcome at 1. rewrite E0. cbn [fst snd app].
    assert (Hf0 : primary_fetches (primary_request lat lon y month :: ext0) = 1%nat).
    { unfold primary_fetches, requests_to in *. simpl. rewrite Hn0. reflexivity. }
    destruct r0 as [rec |].
    + exists (Some rec). eexists. split; [reflexivity |].
      split; [apply Hs0; reflexivity |].
      exists 0%nat. split; [lia |]. split; [| exact Hf0].
      split; [intros j Hj; lia |].
      unfold attempt_outcome. simpl. rewrite Z.sub_0_r, E0. reflexivity.
    + destruct (IH (y - 1) (log ++ primary_request lat lon y month :: ext0))
        as (r & ext & E & Hr); [lia | lia |].
      rewrite E. exists r. eexists. rewrite <- app_assoc. split; [reflexivity |].
      assert (Hy0 : attempt_outcome net lat lon month y = Ok None).
      { unfold attempt_outcome. rewrite E0. reflexivity. }
      destruct r as [rec |].
      * destruct Hr as (Hs & k & Hk & [Hbefore Hat] & Hf). split; [exact Hs |].
        exists (S k). split; [lia |]. split; [split |].
        -- intros [| j] Hj.
           ++ simpl. rewrite Z.sub_0_r. exact Hy0.
           ++ replace (y - Z.of_nat (S j)) with (y - 1 - Z.of_nat j) by lia.
              apply Hbefore. lia.
        -- replace (y - Z.of_nat (S k)) with (y - 1 - Z.of_nat k) by lia. exact Hat.
        -- unfold primary_fetches in *.
           change (primary_request lat lon y month :: ext0 ++ ext)
             with ((primary_request lat lon y month :: ext0) ++ ext).
           rewrite requests_to_app, length_app, Hf0, Hf. reflexivity.
      * destruct Hr as [Hall Hf]. split.
        -- intros [| j] Hj.
           ++ simpl. rewrite Z.sub_0_r. exact Hy0.
           ++ replace (y - Z.of_nat (S j)) with (y - 1 - Z.of_nat j) by lia.
              apply Hall. lia.
        -- unfold primary_fetches in *.
           change (primary_request lat lon y month :: ext0 ++ ext)
             with ((primary_request lat lon y month :: ext0) ++ ext).
           rewrite requests_to_app, length_app, Hf0, Hf. reflexivity.
Qed.

Lemma adjust_year_le_current (cy cm m y : Z) : adjust_year cy cm m y <= cy.
Proof.
  rewrite adjust_year_closed.
  destruct (Z.gtb_spec y cy); destruct (m >? cm);
    destruct (Z.eqb_spec y cy); simpl; lia.
Qed.


(** C4. For every month and year and every current date, the year at which
    [get_climate_data] starts its search is the largest year not after the
    requested one whose (month, year) is not in the future: it is below the
    current year, or it is the current year and the month is not after the
    current month.  Hence a request strictly in the future starts at the
    current year when the month is not after the current month and at the
    year before otherwise, and a request that is not in the future keeps
    its year. *)
Theorem adjust_year_largest_past (current_year current_month month year : Z) :
  (adjust_year current_year current_month month year <= year /\
   not_in_future current_year current_month month
     (adjust_year current_year current_month month year) /\
   forall y : Z,
     y <= year -> not_in_future current_year current_month month y ->
     y <= adjust_year current_year current_month month year) /\
  (strictly_in_future current_year current_month month year ->
     (month <= current_month ->
        adjust_year current_year current_month month year = current_year) /\
     (current_month < month ->
        adjust_year current_year current_month month year = current_year - 1)) /\
  (not_in_future current_year current_month month year ->
     adjust_year current_year current_month month year = year).
Proof.
  rewrite adjust_year_closed. unfold not_in_future, strictly_in_future.
  destruct (Z.gtb_spec year current_year) as [G | NG];
    destruct (Z.gtb_spec month current_month) as [M | NM];
    destruct (Z.eqb_spec year current_year) as [E | NE]; simpl;
    repeat split; intros; lia.
Qed.


(** What [get_climate_data] returns when every candidate year is a
    calendar year and the payloads have their shape. *)
Lemma get_climate_data_run
    (net : oracle) (current_year current_month : Z) (lat lon : Q)
    (month year max_years_back : Z) :
  climate_conforms net -> 1 <= month <= 12 -> current_year <= 9999 ->
  (0 < max_years_back ->
   max_years_back <= adjust_year current_year current_month month year) ->
  exists (record : value) (log : list request),
    get_climate_data current_year current_month lat lon month year
      max_years_back net [] = (Ok record, log) /\
    ((success_record record /\
      exists k : nat,
        (k < Z.to_nat max_years_back)%nat /\
        first_success net lat lon month
          (adjust_year current_year current_month month year) k record /\
        primary_fetches log = S k)
     \/
     (record = error_record month max_years_back year /\
      all_fail net lat lon month
        (adjust_year current_year current_month month year)
        (Z.to_nat max_years_back) /\
      primary_fetches log = Z.to_nat max_years_back)).
Proof.
  intros Hc Hm Hcy Hback. unfold get_climate_data.
  destruct (@search_run net lat lon month Hc Hm (Z.to_nat max_years_back)
              (adjust_year current_year current_month month year) [])
    as (r & ext & E & Hr).
  - pose proof (adjust_year_le_current current_year current_month month year). lia.
  - intros Hpos. lia.
  - unfold bind. rewrite E. simpl in *. destruct r as [rec |].
    + exists rec, ext. split; [reflexivity |]. left. exact Hr.
    + exists (error_record month max_years_back year), ext.
      split; [reflexivity |]. right. destruct Hr. auto.
Qed.

Lemma adjust_year_largest_past_witness :
  adjust_year 2026 11 12 2030 = 2026 - 1 /\ adjust_year 2026 11 3 2019 = 2019.
Proof.
  destruct (adjust_year_largest_past 2026 11 12 2030) as (_ & Hfuture & _).
  destruct (adjust_year_largest_past 2026 11 3 2019) as (_ & _ & Hpast).
  split.
  - apply Hfuture; [left |]; lia.
  - apply Hpast. left. lia.
Defined.



Lemma sample_climate_conforms : climate_conforms Samples.net_sample.
Proof.
  split; intros p; unfold Samples.net_sample.
  - simpl. destruct (lookup "start" p) as [v |]; [| reflexivity].
    destruct (is_str "20260201" v); reflexivity.
  - reflexivity.
Qed.





End ClimateFacts.

(* ===================================================================== *)
(** * Facts about the report aggregator                                  *)
(* ===================================================================== *)

Module ReportFacts.

Import Py Calendar Net Climate Report Schema NetFacts DictFacts ClimateFacts.
Local Open Scope string_scope.
Local Open Scope list_scope.
Local Open Scope Z_scope.

(** ** Concrete runs *)

(** With the current-weather provider down the report still has its four
    sections, the second one a placeholder. *)
Example report_without_weather :
  fst (run (get_location_info Samples.sample_repr 2026 11 1 2 2 2026)
         Samples.net_no_weather)
  = Ok (report_of
          (VDict [ ("Date Range", VStr "20250201 to 20250228");
                   ("Average Temperature (T2M)", VNum (3 # 2));
                   ("Total Precipitation (PRECTOT)", VNum (3 # 2)) ])
          NO_WEATHER
          (VDict [ ("phh2o", VNum (13 # 2)); ("soc", VNone); ("clay", VNone);
                   ("silt", VNone); ("sand", VNone); ("cec", VNone);
                   ("cfvo", VNone) ])
          (VDict [ ("Elevation (meters)", VNum 12) ])).
Proof. vm_compute. reflexivity. Qed.

(** With every provider down the soil section is still the seven keys. *)
Example soil_all_fetches_fail :
  fst (run (get_soil_data 1 2 DEFAULT_DEPTH) Samples.net_down)
  = Ok (VDict [ ("phh2o", VNone); ("soc", VNone); ("clay", VNone);
                ("silt", VNone); ("sand", VNone); ("cec", VNone);
                ("cfvo", VNone) ]).
Proof. reflexivity. Qed.

(** ** Soil *)

Lemma soil_value_ok (response : value) (prop depth : string) :
  soil_ok prop depth response = true ->
  exists v, soil_value response prop depth = Ok v /\ is_num_or_none v = true.
Proof.
  unfold soil_value, has_items.
  destruct response as [| | | | | d]; try discriminate; [exists VNone; auto |].
  destruct d as [| kv d']; [exists VNone; auto |].
  set (d := kv :: d'). unfold soil_ok, object, field_ok.
  cbn [truthy and_then contains getitem rbind].
  destruct (lookup "features" d) as [fs |]; [| exists VNone; auto].
  cbn [and_then contains getitem rbind].
  destruct fs as [| | | | l |]; try discriminate.
  destruct l as [| f l']; [exists VNone; auto |].
  cbn [len rbind List.length Nat.ltb Nat.leb getitem0].
  unfold feature_ok, object, field_ok.
  destruct f as [| | | | | fd]; try discriminate.
  cbn [getitem]. destruct (lookup "properties" fd) as [p |]; [| discriminate].
  destruct p as [| | | | | pd]; try discriminate.
  cbn [rbind get]. destruct (lookup prop pd) as [bd |]; cbn [rbind get].
  - destruct bd as [| | | | | bdd]; try discriminate. cbn [rbind get].
    destruct (lookup depth bdd) as [st |]; cbn [rbind get].
    + destruct st as [| | | | | std]; try discriminate. cbn [get].
      destruct (lookup "mean" std) as [m |]; intros; subst d; simpl; eauto.
    + intros; subst d; simpl; eauto.
  - intros; subst d; simpl; eauto.
Qed.

Lemma soil_loop_run (net : oracle) (lat lon : Q) (depth : string) :
  soil_conforms net ->
  forall (props : list string) (acc : dict) (log : list request),
    NoDup (keys acc ++ props) ->
    Forall (fun kv => is_num_or_none (snd kv) = true) acc ->
    exists (soil_data : dict) (log' : list request),
      soil_loop props lat lon depth acc net log = (Ok soil_data, log') /\
      keys soil_data = keys acc ++ props /\
      Forall (fun kv => is_num_or_none (snd kv) = true) soil_data.
Proof.
  intros Hc. induction props as [| prop rest IH]; intros acc log ND Hacc; simpl.
  - exists acc, log. rewrite app_nil_r. auto.
  - unfold bind at 1, fetch_api at 1.
    destruct (soil_value_ok _ _ _ (Hc lat lon prop depth)) as (v & Ev & Hv).
    rewrite bind_lift, Ev.
    assert (NI : ~ In prop (keys acc)).
    { intros I. apply NoDup_remove_2 in ND. apply ND, in_or_app. left. exact I. }
    rewrite set_fresh by exact NI.
    destruct (IH (acc ++ [(prop, v)]) (log ++ [mkreq SOIL_URL (soil_params lat lon prop depth)]))
      as (sd & log' & E & Hk & Hall).
    + unfold keys in *. rewrite map_app, <- app_assoc. exact ND.
    + apply Forall_app. split; [exact Hacc | repeat constructor; exact Hv].
    + exists sd, log'. split; [exact E |]. split; [| exact Hall].
      rewrite Hk. unfold keys. rewrite map_app, <- app_assoc. reflexivity.
Qed.

Lemma soil_properties_distinct : NoDup soil_properties.
Proof.
  unfold soil_properties. repeat constructor; simpl; intuition discriminate.
Qed.

(** A soil loop that returns has stored every property, whatever the
    provider answered. *)
Lemma soil_loop_keys (net : oracle) (lat lon : Q) (depth : string) :
  forall (props : list string) (acc : dict) (log log' : list request)
         (soil_data : dict),
    NoDup (keys acc ++ props) ->
    soil_loop props lat lon depth acc net log = (Ok soil_data, log') ->
    keys soil_data = keys acc ++ props.
Proof.
  induction props as [| prop rest IH]; intros acc log log' sd ND H; simpl in H.
  - unfold ret in H. injection H as <- _. rewrite app_nil_r. reflexivity.
  - apply bind_Ok in H. destruct H as (response & l1 & _ & H).
    apply bind_Ok in H. destruct H as (v & l2 & _ & H).
    assert (NI : ~ In prop (keys acc)).
    { intros I. apply NoDup_remove_2 in ND. apply ND, in_or_app. left. exact I. }
    rewrite set_fresh in H by exact NI.
    apply IH in H.
    + rewrite H. unfold keys. rewrite map_app, <- app_assoc. reflexivity.
    + unfold keys in *. rewrite map_app, <- app_assoc. exact ND.
Qed.

Lemma get_soil_data_keys (net : oracle) (lat lon : Q) (depth : string)
    (log log' : list request) (r : value) :
  get_soil_data lat lon depth net log = (Ok r, log') ->
  exists soil_data, r = VDict soil_data /\ keys soil_data = soil_properties.
Proof.
  unfold get_soil_data. intros H.
  apply bind_Ok in H. destruct H as (sd & l1 & Hloop & H).
  unfold ret in H. injection H as <- _.
  exists sd. split; [reflexivity |].
  apply (@soil_loop_keys net lat lon depth soil_properties [] log l1 sd
           soil_properties_distinct Hloop).
Qed.

(** What [get_soil_data] returns when the soil payloads have their shape. *)
Lemma get_soil_data_run (net : oracle) (lat lon : Q) (depth : string)
    (log : list request) :
  soil_conforms net ->
  exists (soil_data : dict) (log' : list request),
    get_soil_data lat lon depth net log = (Ok (VDict soil_data), log') /\
    keys soil_data = soil_properties /\
    Forall (fun kv => is_num_or_none (snd kv) = true) soil_data.
Proof.
  intros Hc. unfold get_soil_data.
  destruct (@soil_loop_run net lat lon depth Hc soil_properties [] log)
    as (sd & log' & E & Hk & Hall).
  - exact soil_properties_distinct.
  - constructor.
  - exists sd, log'. unfold bind. rewrite E. auto.
Qed.

Lemma seven_keys_truthy (soil_data : dict) :
  keys soil_data = soil_properties -> truthy (VDict soil_data) = true.
Proof. destruct soil_data; [discriminate | reflexivity]. Qed.


(** ** Weather and elevation *)

Lemma weather_section_ok (response : value) :
  weather_ok response = true ->
  exists w, weather_section response = Ok w /\ is_section w = true /\
            (response = VNone -> w = NO_WEATHER).
Proof.
  unfold weather_section.
  destruct response as [| | | | | d]; try discriminate;
    [exists NO_WEATHER; auto |].
  destruct d as [| kv d']; [exists NO_WEATHER; repeat split; discriminate |].
  set (d := kv :: d'). unfold weather_ok, object, field_ok.
  cbn [truthy and_then contains getitem rbind].
  destruct (lookup "main" d) as [main |];
    [| intros; subst d; exists NO_WEATHER; repeat split; discriminate].
  destruct main as [| | | | | md]; try discriminate. intros _.
  cbn [rbind get]. eexists. split; [reflexivity |]. split; [reflexivity | discriminate].
Qed.

Lemma elevation_section_ok (response : value) :
  terrain_ok response = true ->
  exists e, elevation_section response = Ok e /\ is_section e = true /\
            (response = VNone -> e = NO_ELEVATION).
Proof.
  unfold elevation_section, has_items.
  destruct response as [| | | | | d]; try discriminate;
    [exists NO_ELEVATION; auto |].
  destruct d as [| kv d']; [exists NO_ELEVATION; repeat split; discriminate |].
  set (d := kv :: d'). unfold terrain_ok, object, field_ok.
  cbn [truthy and_then contains getitem rbind].
  destruct (lookup "results" d) as [rs |];
    [| intros; subst d; exists NO_ELEVATION; repeat split; discriminate].
  cbn [and_then contains getitem rbind].
  destruct rs as [| | | | l |]; try discriminate.
  destruct l as [| r l'];
    [intros; subst d; exists NO_ELEVATION; repeat split; discriminate |].
  destruct r as [| | | | | rd]; try discriminate. intros _.
  cbn [len rbind List.length Nat.ltb Nat.leb getitem0 get].
  eexists. split; [reflexivity |]. split; [reflexivity | discriminate].
Qed.

(** A weather or elevation section that was made is a mapping or the
    placeholder, whatever the provider answered. *)
Lemma weather_section_shape (response w : value) :
  weather_section response = Ok w -> is_section w = true.
Proof.
  unfold weather_section. intros H.
  apply rbind_Ok in H. destruct H as (cond & _ & H). destruct cond.
  - do 5 (apply rbind_Ok in H; destruct H as (? & _ & H)).
    injection H as <-. reflexivity.
  - injection H as <-. reflexivity.
Qed.

Lemma elevation_section_shape (response e : value) :
  elevation_section response = Ok e -> is_section e = true.
Proof.
  unfold elevation_section. intros H.
  apply rbind_Ok in H. destruct H as (cond & _ & H). destruct cond.
  - do 3 (apply rbind_Ok in H; destruct H as (? & _ & H)).
    injection H as <-. reflexivity.
  - injection H as <-. reflexivity.
Qed.

(** ** Locality of the sources *)

Lemma soil_loop_local (lat lon : Q) (depth : string) (props : list string) :
  forall acc, local soil_urls (soil_loop props lat lon depth acc).
Proof.
  induction props as [| prop rest IH]; intros acc; simpl.
  - apply local_ret.
  - apply local_bind; [apply local_fetch_api; reflexivity | intros response].
    apply local_bind; [apply local_lift | intros v]. apply IH.
Qed.

Lemma get_soil_data_local (lat lon : Q) (depth : string) :
  local soil_urls (get_soil_data lat lon depth).
Proof.
  unfold get_soil_data. apply local_bind; [apply soil_loop_local |].
  intros d. apply local_ret.
Qed.

(** ** The aggregator *)

Section Aggregating.

Variable float_repr : Q -> string.
Variables (net : oracle) (current_year current_month : Z) (lat lon : Q) (month year : Z).

(** The four sections as their sources determine them. *)
Lemma get_location_info_run :
  forall (climate weather soil elevation : value) (l1 l2 : list request),
    get_climate_data current_year current_month lat lon month year
      DEFAULT_MAX_YEARS_BACK net [] = (Ok climate, l1) ->
    weather_section (net WEATHER_URL (weather_params lat lon)) = Ok weather ->
    get_soil_data lat lon DEFAULT_DEPTH net
      (l1 ++ [mkreq WEATHER_URL (weather_params lat lon)]) = (Ok soil, l2) ->
    truthy soil = true ->
    elevation_section
      (net TERRAIN_URL [ ("locations", VStr (float_repr lat ++ "," ++ float_repr lon)%string) ])
    = Ok elevation ->
    exists log,
      run (get_location_info float_repr current_year current_month lat lon month year) net
      = (Ok (report_of climate weather soil elevation), log).
Proof.
  intros climate weather soil elevation l1 l2 Ec Ew Es Ht Ee.
  unfold run, get_location_info.
  unfold bind at 1. rewrite Ec.
  unfold bind at 1, get_weather_data, fetch_api at 1.
  change [ ("lat", VNum lat); ("lon", VNum lon);
           ("appid", VStr OPENWEATHER_API_KEY); ("units", VStr "metric") ]
    with (weather_params lat lon).
  rewrite bind_lift, Ew.
  unfold bind at 1. rewrite Es, Ht.
  unfold bind at 1, get_terrain_data, fetch_api at 1.
  rewrite bind_lift, Ee.
  eexists. reflexivity.
Qed.

(** A report that was returned went through the four steps. *)
Lemma get_location_info_soil (report : value) (log : list request) :
  run (get_location_info float_repr current_year current_month lat lon month year) net
  = (Ok report, log) ->
  exists (climate weather soil_response elevation : value) (l l' : list request),
    get_soil_data lat lon DEFAULT_DEPTH net l = (Ok soil_response, l') /\
    is_section climate = true /\ is_section weather = true /\
    is_section elevation = true /\
    report = report_of climate weather
               (if truthy soil_response then soil_response else NO_SOIL) elevation.
Proof.
  unfold run, get_location_info. intros H.
  apply bind_Ok in H. destruct H as (climate & l1 & Hc & H).
  apply bind_Ok in H. destruct H as (wr & l2 & _ & H).
  apply bind_Ok in H. destruct H as (weather & l3 & Hw & H).
  apply bind_Ok in H. destruct H as (soil_response & l4 & Es & H).
  apply bind_Ok in H. destruct H as (tr & l5 & _ & H).
  apply bind_Ok in H. destruct H as (elevation & l6 & He & H).
  unfold ret in H. injection H as <- _.
  exists climate, weather, soil_response, elevation, l3, l4.
  split; [exact Es |].
  split; [apply get_climate_data_shape in Hc; exact Hc |].
  split.
  { unfold lift in Hw. injection Hw as Hw _. apply weather_section_shape in Hw. exact Hw. }
  split; [| reflexivity].
  unfold lift in He. injection He as He _. apply elevation_section_shape in He. exact He.
Qed.

End Aggregating.

(** What [get_location_info] returns when every candidate year of the
    climate search is a calendar year and the payloads have their shape:
    each section is determined by its own source. *)
Lemma get_location_info_report
    (float_repr : Q -> string) (net : oracle) (current_year current_month : Z)
    (lat lon : Q) (month year : Z) :
  conforms net -> 1 <= month <= 12 -> current_year <= 9999 ->
  DEFAULT_MAX_YEARS_BACK <= adjust_year current_year current_month month year ->
  exists (climate weather soil elevation : value) (log : list request),
    run (get_location_info float_repr current_year current_month lat lon month year) net
    = (Ok (report_of climate weather soil elevation), log) /\
    fst (get_climate_data current_year current_month lat lon month year
           DEFAULT_MAX_YEARS_BACK net []) = Ok climate /\
    weather_section (net WEATHER_URL (weather_params lat lon)) = Ok weather /\
    fst (get_soil_data lat lon DEFAULT_DEPTH net []) = Ok soil /\
    elevation_section
      (net TERRAIN_URL [ ("locations", VStr (float_repr lat ++ "," ++ float_repr lon)%string) ])
    = Ok elevation /\
    is_section climate = true /\ is_section weather = true /\
    is_section soil = true /\ is_section elevation = true /\
    (net WEATHER_URL (weather_params lat lon) = VNone -> weather = NO_WEATHER).
Proof.
  intros (Hclim & Hw & Hs & Ht) Hm Hcy Hback.
  destruct (@get_climate_data_run net current_year current_month lat lon month year
              DEFAULT_MAX_YEARS_BACK Hclim Hm Hcy (fun _ => Hback))
    as (climate & l1 & Ec & Hrec).
  destruct (weather_section_ok _ (Hw (weather_params lat lon)))
    as (weather & Ew & Hws & Hwn).
  destruct (get_soil_data_run lat lon DEFAULT_DEPTH
              (l1 ++ [mkreq WEATHER_URL (weather_params lat lon)]) Hs)
    as (sd & l2 & Es & Hk & _).
  destruct (elevation_section_ok _
              (Ht [ ("locations", VStr (float_repr lat ++ "," ++ float_repr lon)%string) ]))
    as (elevation & Ee & Hes & _).
  destruct (@get_location_info_run float_repr net current_year current_month lat lon
              month year climate weather (VDict sd) elevation l1 l2 Ec Ew Es
              (seven_keys_truthy _ Hk) Ee) as (log & E).
  exists climate, weather, (VDict sd), elevation, log.
  split; [exact E |]. split; [rewrite Ec; reflexivity |]. split; [exact Ew |].
  split.
  { destruct (local_extends net (l1 ++ [mkreq WEATHER_URL (weather_params lat lon)])
                (get_soil_data_local lat lon DEFAULT_DEPTH)) as [E' _].
    rewrite Es in E'. injection E' as E' _. symmetry. exact E'. }
  split; [exact Ee |].
  split.
  { apply get_climate_data_shape in Ec. exact Ec. }
  repeat split; assumption.
Qed.


Lemma sample_soil_conforms : soil_conforms Samples.net_sample.
Proof.
  intros lat lon prop depth.
  change (Samples.net_sample SOIL_URL (soil_params lat lon prop depth))
    with Samples.soil_payload.
  unfold Samples.soil_payload, soil_ok, feature_ok, object, field_ok. simpl.
  destruct (String.eqb prop "phh2o"); [| reflexivity].
  simpl. destruct (String.eqb depth "0-5cm"); reflexivity.
Qed.



(** C7 (amended). Every report [get_location_info] returns holds exactly
    the four sections "Climate Data", "Weather Data", "Soil Data (Depth
    0-5cm)" and "Elevation Data", each a mapping or a string.  The report is
    returned for every query whose month is in 1..12 and whose candidate
    years are calendar years (the current year is at most 9999 and the start
    year of the climate search is at least the default budget 5), when each
    provider answers nothing or a payload of the documented shape.  Then a
    failed weather fetch gives the weather placeholder, and each section
    depends on its own source only: with other providers that answer one
    source as before, that source's section is the same, whatever the other
    sources answer. *)
Theorem get_location_info_sections
    (float_repr : Q -> string) (net : oracle) (current_year current_month : Z)
    (lat lon : Q) (month year : Z) :
  (forall (report : value) (log : list request),
     run (get_location_info float_repr current_year current_month lat lon month year) net
     = (Ok report, log) ->
     exists climate weather soil elevation : value,
       report = report_of climate weather soil elevation /\
       is_section climate = true /\ is_section weather = true /\
       is_section soil = true /\ is_section elevation = true) /\
  (conforms net -> 1 <= month <= 12 -> current_year <= 9999 ->
   DEFAULT_MAX_YEARS_BACK <= adjust_year current_year current_month month year ->
   exists (climate weather soil elevation : value) (log : list request),
     run (get_location_info float_repr current_year current_month lat lon month year) net
     = (Ok (report_of climate weather soil elevation), log) /\
     (net WEATHER_URL (weather_params lat lon) = VNone -> weather = NO_WEATHER) /\
     forall net' : oracle,
       conforms net' ->
       exists (climate' weather' soil' elevation' : value) (log' : list request),
         run (get_location_info float_repr current_year current_month lat lon month year) net'
         = (Ok (report_of climate' weather' soil' elevation'), log') /\
         (agree climate_urls net net' -> climate' = climate) /\
         (agree weather_urls net net' -> weather' = weather) /\
         (agree soil_urls net net' -> soil' = soil) /\
         (agree terrain_urls net net' -> elevation' = elevation)).
Proof.
  split.
  - intros report log H. apply get_location_info_soil in H.
    destruct H as (c & w & sr & e & l & l' & Es & Hcs & Hws & Hes & ->).
    apply get_soil_data_keys in Es. destruct Es as (sd & -> & Hk).
    rewrite (seven_keys_truthy _ Hk).
    exists c, w, (VDict sd), e. repeat split; assumption.
  - intros Hc Hm Hcy Hback.
    destruct (@get_location_info_report float_repr net current_year current_month
                lat lon month year Hc Hm Hcy Hback)
      as (c & w & s & e & log & E & Ec & Ew & Es & Ee & Hcs & Hws & Hss & Hes & Hwn).
    exists c, w, s, e, log. split; [exact E |]. split; [exact Hwn |].
    intros net' Hc'.
    destruct (@get_location_info_report float_repr net' current_year current_month
                lat lon month year Hc' Hm Hcy Hback)
      as (c' & w' & s' & e' & log' & E' & Ec' & Ew' & Es' & Ee' & _).
    exists c', w', s', e', log'. split; [exact E' |].
    split; [| split; [| split]]; intros Ha.
    + pose proof (local_result [] []
                    (get_climate_data_local current_year current_month lat lon month year
                       DEFAULT_MAX_YEARS_BACK) Ha) as H.
      rewrite Ec, Ec' in H. congruence.
    + rewrite <- (Ha WEATHER_URL (weather_params lat lon) eq_refl) in Ew'. congruence.
    + pose proof (local_result [] [] (get_soil_data_local lat lon DEFAULT_DEPTH) Ha) as H.
      rewrite Es, Es' in H. congruence.
    + rewrite <- (Ha TERRAIN_URL _ eq_refl) in Ee'. congruence.
Qed.

(** C7, counterexample: on 2026-11 the query (month 1, year 0) gets no
    report although every provider answers: [get_climate_data] raises
    [ValueError] and [get_location_info] does not catch it. *)
Lemma get_location_info_raises_before_year_one :
  run (get_location_info Samples.sample_repr 2026 11 1 2 1 0) Samples.net_sample
  = (Raise ValueError, []).
Proof. vm_compute. reflexivity. Qed.

Lemma sample_conforms : conforms Samples.net_sample.
Proof.
  split; [exact sample_climate_conforms |].
  split; [intros p; reflexivity |].
  split; [exact sample_soil_conforms | intros p; reflexivity].
Qed.

Lemma no_weather_conforms : conforms Samples.net_no_weather.
Proof.
  split; [exact sample_climate_conforms |].
  split; [intros p; reflexivity |].
  split; [exact sample_soil_conforms | intros p; reflexivity].
Qed.

Lemma no_weather_agrees (U : string -> bool) :
  U WEATHER_URL = false -> agree U Samples.net_sample Samples.net_no_weather.
Proof.
  intros HU u p Hu. unfold Samples.net_no_weather.
  destruct (String.eqb_spec u WEATHER_URL) as [-> | _]; [congruence | reflexivity].
Qed.

Lemma get_location_info_sections_witness :
  exists (climate weather soil elevation : value) (log : list request),
    run (get_location_info Samples.sample_repr 2026 11 1 2 2 2026) Samples.net_sample
    = (Ok (report_of climate weather soil elevation), log) /\
    exists (weather' : value) (log' : list request),
      run (get_location_info Samples.sample_repr 2026 11 1 2 2 2026) Samples.net_no_weather
      = (Ok (report_of climate weather' soil elevation), log').
Proof.
  destruct (get_location_info_sections Samples.sample_repr Samples.net_sample
              2026 11 1 2 2 2026) as [_ Hreturns].
  destruct Hreturns as (c & w & s & e & log & E & _ & Hiso).
  - exact sample_conforms.
  - lia.
  - lia.
  - vm_compute. discriminate.
  - exists c, w, s, e, log. split; [exact E |].
    destruct (Hiso Samples.net_no_weather no_weather_conforms)
      as (c' & w' & s' & e' & log' & E' & Hc & _ & Hs & He).
    rewrite (Hc (no_weather_agrees climate_urls eq_refl)) in E'.
    rewrite (Hs (no_weather_agrees soil_urls eq_refl)) in E'.
    rewrite (He (no_weather_agrees terrain_urls eq_refl)) in E'.
    exists w', log'. exact E'.
Defined.

End ReportFacts.

(* ===================================================================== *)
(** * Facts about the CSV persistence of the report                      *)
(* ===================================================================== *)

Module CsvFacts.

Import Py Csv Schema DictFacts.
Local Open Scope string_scope.
Local Open Scope list_scope.

(** ** Concrete runs *)

Example export_stored_report :
  export_report_to_csv Samples.text_str Samples.stored_report
  = [ [ "Section"; "Key"; "Value" ];
      [ "Weather Data"; "Location"; "Hanoi" ];
      [ "Weather Data"; "Temperature"; "25" ];
      [ "Soil Data (Depth 0-5cm)"; "phh2o"; "" ];
      [ "Soil Data (Depth 0-5cm)"; "soc"; "" ] ].
Proof. reflexivity. Qed.

Example read_back_stored_report :
  read_report_from_csv (export_report_to_csv Samples.text_str Samples.stored_report)
  = [ ("Weather Data", VDict [ ("Location", VStr "Hanoi"); ("Temperature", VStr "25") ]);
      ("Soil Data (Depth 0-5cm)", VDict [ ("phh2o", VNone); ("soc", VNone) ]) ].
Proof. reflexivity. Qed.

(** A row that is not three fields ends the reading with what was read. *)
Example short_row_stops_reading :
  read_report_from_csv [ HEADER; [ "A"; "k"; "v" ]; [ "B"; "k" ]; [ "C"; "k"; "v" ] ]
  = [ ("A", VDict [ ("k", VStr "v") ]) ].
Proof. reflexivity. Qed.

Lemma set_set (A : Type) (k : string) (v v' : A) (d : list (string * A)) :
  set k v (set k v' d) = set k v d.
Proof.
  induction d as [| [k0 v0] d IH]; simpl.
  - rewrite String.eqb_refl. reflexivity.
  - destruct (String.eqb k k0) eqn:E; simpl; rewrite E; [reflexivity |].
    rewrite IH. reflexivity.
Qed.

Section Reading.

Variable py_str : value -> string.

(** Reading the rows of one section whose mapping [dacc] is already in the
    report appends its remaining fields to it. *)
Lemma read_fields (section : string) (d : dict) :
  forall (dacc : dict) (report : dict) (rest : list row),
    lookup section report = Some (VDict dacc) ->
    Forall (fun kv => fst kv <> "") d ->
    NoDup (keys dacc ++ keys d) ->
    read_loop (map (fun kv => [section; fst kv; cell py_str (snd kv)]) d ++ rest) report
    = read_loop rest
        (set section
           (VDict (dacc ++ map (fun f => (fst f, reread py_str (snd f))) d)) report).
Proof.
  induction d as [| [k v] d IH]; intros dacc report rest Hl Hne ND.
  - simpl. rewrite app_nil_r. f_equal.
    clear - Hl. induction report as [| [k0 v0] report IH]; simpl in *; [discriminate |].
    destruct (String.eqb section k0).
    + injection Hl as ->. reflexivity.
    + rewrite <- IH by exact Hl. reflexivity.
  - inversion Hne as [| ? ? Hk Hne']; subst. simpl in Hk.
    cbn [map app read_loop fst snd]. unfold read_row. rewrite Hl.
    destruct (String.eqb_spec k "") as [E | _]; [contradiction |].
    cbn [negb]. rewrite Hl.
    assert (NI : ~ In k (keys dacc)).
    { intros I. apply NoDup_remove_2 in ND. apply ND, in_or_app. left. exact I. }
    rewrite (@set_fresh _ k (parse_cell (cell py_str v)) dacc NI).
    rewrite (IH (dacc ++ [(k, parse_cell (cell py_str v))]));
      [| apply lookup_set_same | exact Hne'
       | unfold keys in *; rewrite map_app, <- app_assoc; exact ND].
    rewrite set_set, <- app_assoc. reflexivity.
Qed.

(** Reading the rows of a section that is not yet in the report. *)
Lemma read_section (section : string) (data : value) (d : dict)
    (report : dict) (rest : list row) :
  data = VDict d -> fields_ok d -> ~ In section (keys report) ->
  read_loop (section_rows py_str section data ++ rest) report
  = read_loop rest (report ++ reread_section py_str (section, data)).
Proof.
  intros -> [ND Hne] NI. unfold section_rows, reread_section. cbn [fst snd].
  destruct d as [| [k v] d].
  - simpl. rewrite app_nil_r. reflexivity.
  - inversion Hne as [| ? ? Hk Hne']; subst. simpl in Hk.
    cbn [map app read_loop fst snd]. unfold read_row.
    assert (El : lookup section report = None) by (apply lookup_None_iff; exact NI).
    rewrite El. rewrite lookup_set_same.
    destruct (String.eqb_spec k "") as [E | _]; [contradiction |].
    cbn [negb]. rewrite set_set. cbn [set].
    rewrite (@read_fields section d [(k, parse_cell (cell py_str v))]);
      [| apply lookup_set_same | exact Hne' | exact ND].
    rewrite set_set, set_fresh by exact NI. reflexivity.
Qed.




End Reading.




End CsvFacts.

(* ===================================================================== *)
(** * The sensor vector                                                  *)
(* ===================================================================== *)

Module SensorFacts.

Import Py Fitness FitnessModel Sensors Workflow Inputs DictFacts NetFacts.
Local Open Scope string_scope.
Local Open Scope list_scope.

Section Extraction.

Variable py_float : string -> option R.

(** ** One reading *)

Lemma reading_of_readable (report : dict) (section subkey : string) :
  readable report section subkey = true ->
  except_value_type (reading_of py_float report section subkey)
  = Ok (expected_reading py_float report section subkey).
Proof.
  unfold readable, expected_reading, field_of, reading_of.
  destruct (lookup section report) as [[| b | q | s | l | d] |]; try discriminate.
  - cbn [get rbind].
    destruct (lookup subkey d) as [[| b | q | s | l | d'] |]; intros H;
      try reflexivity; try (rewrite (proj1 (negb_true_iff _) H); reflexivity).
    cbn [truthy].
    destruct (String.eqb_spec s "") as [-> | NE]; [reflexivity |].
    cbn [negb strip_of rbind truthy].
    destruct (String.eqb (strip s) ""); [reflexivity |].
    cbn [negb float_of]. destruct (py_float s); reflexivity.
  - intros _. reflexivity.
Qed.

Lemma reading_of_unreadable (report : dict) (section subkey : string) :
  readable report section subkey = false ->
  except_value_type (reading_of py_float report section subkey)
  = Raise AttributeError.
Proof.
  unfold readable, field_of, reading_of.
  destruct (lookup section report) as [[| b | q | s | l | d] |];
    try reflexivity; try discriminate.
  cbn [get rbind].
  destruct (lookup subkey d) as [[| b | q | s | l | d'] |]; intros H;
    try discriminate; rewrite (proj1 (negb_false_iff _) H); reflexivity.
Qed.

(** ** The loop *)

Lemma sensor_loop_readable (report : dict) :
  forall (table : list (string * (string * string))) (acc : sensor_dict),
    Forall (fun e => readable report (fst (snd e)) (snd (snd e)) = true) table ->
    NoDup (keys acc ++ keys table) ->
    sensor_loop py_float table report acc
    = Ok (acc ++ map (fun e => (fst e, expected_reading py_float report
                                         (fst (snd e)) (snd (snd e)))) table).
Proof.
  induction table as [| [key [section subkey]] rest IH]; intros acc Hr ND.
  - simpl. rewrite app_nil_r. reflexivity.
  - inversion Hr as [| ? ? H1 Hr']; subst. cbn [fst snd] in H1.
    cbn [sensor_loop]. rewrite (reading_of_readable _ _ _ H1). cbn [rbind].
    assert (NI : ~ In key (keys acc)).
    { intros I. apply NoDup_remove_2 in ND. apply ND, in_or_app. left. exact I. }
    rewrite (@set_fresh _ key _ acc NI).
    rewrite IH; [| exact Hr' |].
    + rewrite <- app_assoc. reflexivity.
    + unfold keys in *. rewrite map_app, <- app_assoc. exact ND.
Qed.

Lemma sensor_loop_unreadable (report : dict) :
  forall (table : list (string * (string * string))) (acc : sensor_dict),
    Exists (fun e => readable report (fst (snd e)) (snd (snd e)) = false) table ->
    sensor_loop py_float table report acc = Raise AttributeError.
Proof.
  induction table as [| [key [section subkey]] rest IH]; intros acc H.
  - inversion H.
  - cbn [sensor_loop].
    destruct (readable report section subkey) eqn:E.
    + rewrite (reading_of_readable _ _ _ E). cbn [rbind]. apply IH.
      inversion H as [? ? H1 | ? ? H1]; subst; [| exact H1].
      cbn [fst snd] in H1. congruence.
    + rewrite (reading_of_unreadable _ _ _ E). reflexivity.
Qed.

Lemma sensor_keys_distinct : NoDup (keys (@nil (string * option R)) ++ keys sensor_keys).
Proof. repeat constructor; simpl; intuition discriminate. Qed.

(** Whatever [get_sensor_data_from_report] returns has the six keys. *)
Lemma get_sensor_data_keys (report : dict) (sensor_data : sensor_dict) :
  get_sensor_data_from_report py_float report = Ok sensor_data ->
  keys sensor_data = SENSOR_KEYS /\
  Forall (fun e => readable report (fst (snd e)) (snd (snd e)) = true) sensor_keys.
Proof.
  unfold get_sensor_data_from_report. intros H.
  destruct (Forall_Exists_dec
              (fun e : string * (string * string) =>
                 readable report (fst (snd e)) (snd (snd e)) = true)
              (fun e => bool_dec _ true) sensor_keys) as [F | E].
  - rewrite (@sensor_loop_readable report sensor_keys [] F sensor_keys_distinct) in H.
    injection H as <-. split; [reflexivity | exact F].
  - rewrite sensor_loop_unreadable in H; [discriminate |].
    apply Exists_impl with (2 := E). intros e He.
    apply not_true_is_false. exact He.
Qed.

(** X1. When each of the six fields the table names is readable (its
    section is a mapping or is not in the report, and the field is a text
    or counts as false), [get_sensor_data_from_report] returns a mapping
    with the keys T, H, P, T_avg, AP, pH in this order; a key holds the
    number [float] makes of the field's text, and [None] when the field is
    missing, [None], empty, blank, or a text [float] rejects. *)
Theorem sensor_data_of_readable_report (report : dict) :
  (forall key section subkey,
     In (key, (section, subkey)) sensor_keys -> readable report section subkey = true) ->
  exists sensor_data : sensor_dict,
    get_sensor_data_from_report py_float report = Ok sensor_data /\
    keys sensor_data = SENSOR_KEYS /\
    forall key section subkey,
      In (key, (section, subkey)) sensor_keys ->
      lookup key sensor_data = Some (expected_reading py_float report section subkey).
Proof.
  intros H.
  assert (F : Forall (fun e => readable report (fst (snd e)) (snd (snd e)) = true)
                sensor_keys).
  { apply Forall_forall. intros [key [section subkey]] I. apply (H key), I. }
  unfold get_sensor_data_from_report.
  rewrite (@sensor_loop_readable report sensor_keys [] F sensor_keys_distinct).
  eexists. split; [reflexivity |]. split; [reflexivity |].
  intros key section subkey I. simpl in I.
  repeat (destruct I as [I | I]; [injection I as <- <- <-; reflexivity |]).
  contradiction.
Qed.

(** X2. When a field the table names is not readable (its section is in
    the report and is not a mapping, as a placeholder text or [None] is, or
    the field is a value that counts as true and is not a text),
    [get_sensor_data_from_report] raises [AttributeError]: the handler
    around the lookup catches [ValueError] and [TypeError] only. *)
Theorem sensor_data_of_unreadable_report (report : dict) (key section subkey : string) :
  In (key, (section, subkey)) sensor_keys ->
  readable report section subkey = false ->
  get_sensor_data_from_report py_float report = Raise AttributeError.
Proof.
  intros I H. unfold get_sensor_data_from_report.
  apply sensor_loop_unreadable, Exists_exists.
  exists (key, (section, subkey)). split; [exact I | exact H].
Qed.

End Extraction.

Lemma sensor_data_of_readable_report_witness :
  exists sensor_data : sensor_dict,
    get_sensor_data_from_report sample_float report_read = Ok sensor_data /\
    keys sensor_data = SENSOR_KEYS /\
    lookup "H" sensor_data = Some None /\ lookup "pH" sensor_data = Some (Some 7%R).
Proof.
  destruct (@sensor_data_of_readable_report sample_float report_read)
    as (sd & E & Hk & Hl).
  - intros key section subkey I. simpl in I.
    repeat (destruct I as [I | I]; [injection I as <- <- <-; reflexivity |]).
    contradiction.
  - exists sd. split; [exact E |]. split; [exact Hk |]. split.
    + apply (Hl "H" "Weather Data" "Humidity"). simpl. tauto.
    + apply (Hl "pH" "Soil Data (Depth 0-5cm)" "phh2o"). simpl. tauto.
Defined.

Lemma sensor_data_of_unreadable_report_witness :
  get_sensor_data_from_report sample_float
    [ ("Weather Data", VStr "No weather data retrieved.") ]
  = Raise AttributeError.
Proof.
  apply (@sensor_data_of_unreadable_report sample_float
           [ ("Weather Data", VStr "No weather data retrieved.") ]
           "T" "Weather Data" "Temperature").
  - simpl. tauto.
  - reflexivity.
Defined.

End SensorFacts.

(* ===================================================================== *)
(** * Completing the sensor vector                                       *)
(* ===================================================================== *)

Module PromptFacts.

Import Py Fitness FitnessModel Sensors Workflow Inputs DictFacts NetFacts.
Local Open Scope string_scope.
Local Open Scope list_scope.

Section Dialog.

Variable py_float : string -> option R.
Variable prompts : list (string * string).
Variable valid_ranges : list (string * (R * R)).

(** ** The dialog for one key *)

Lemma ask_done (key : string) :
  forall (answers : list answer) (val : R) (rest : list answer),
    ask py_float prompts valid_ranges key answers = Done (val, rest) ->
    within valid_ranges key val /\
    exists (skipped : list answer) (text : string),
      answers = skipped ++ Some text :: rest /\ py_float text = Some val.
Proof.
  induction answers as [| a answers IH]; intros val rest H; simpl in H.
  - destruct (lookup key prompts); discriminate.
  - destruct (lookup key prompts) as [p |]; [| discriminate].
    assert (Hrec : ask py_float prompts valid_ranges key answers = Done (val, rest) ->
                   within valid_ranges key val /\
                   exists (skipped : list answer) (text : string),
                     a :: answers = skipped ++ Some text :: rest /\
                     py_float text = Some val).
    { intros H'. destruct (IH _ _ H') as (Hw & sk & text & -> & Hf).
      split; [exact Hw |]. exists (a :: sk), text. split; [reflexivity | exact Hf]. }
    destruct a as [text |]; [| exact (Hrec H)].
    destruct (py_float text) as [v |] eqn:Ef; [| exact (Hrec H)].
    destruct (lookup key valid_ranges) as [[lo hi] |] eqn:Er; [| discriminate].
    destruct (Rle_dec lo v) as [Hlo |]; [| exact (Hrec H)].
    destruct (Rle_dec v hi) as [Hhi |]; [| exact (Hrec H)].
    injection H as <- <-. split.
    + exists lo, hi. split; [exact Er | split; assumption].
    + exists [], text. split; [reflexivity | exact Ef].
Qed.

Lemma ask_skips (key p text : string) (val : R) (rest : list answer) :
  lookup key prompts = Some p -> py_float text = Some val ->
  within valid_ranges key val ->
  forall bad : list answer,
    Forall (turned_down py_float valid_ranges key) bad ->
    ask py_float prompts valid_ranges key (bad ++ Some text :: rest) = Done (val, rest).
Proof.
  intros Hp Hf (lo & hi & Er & Hlo & Hhi).
  induction bad as [| a bad IH]; intros Hbad; simpl; rewrite Hp.
  - rewrite Hf, Er.
    destruct (Rle_dec lo val); [| contradiction].
    destruct (Rle_dec val hi); [reflexivity | contradiction].
  - inversion Hbad as [| ? ? Ha Hbad']; subst. specialize (IH Hbad').
    destruct a as [t |]; [| exact IH].
    unfold turned_down in Ha.
    destruct (py_float t) as [v |]; [| exact IH].
    rewrite Er in *.
    destruct (Rle_dec lo v); [| exact IH].
    destruct (Rle_dec v hi); [| exact IH].
    exfalso. apply Ha. split; assumption.
Qed.

Lemma ask_never_fails (key p : string) (range : R * R) :
  lookup key prompts = Some p -> lookup key valid_ranges = Some range ->
  forall (answers : list answer) (e : exn),
    ask py_float prompts valid_ranges key answers <> Failed e.
Proof.
  intros Hp Er. destruct range as [lo hi].
  induction answers as [| a answers IH]; intros e; simpl; rewrite Hp.
  - discriminate.
  - destruct a as [t |]; [| apply IH].
    destruct (py_float t) as [v |]; [| apply IH].
    rewrite Er.
    destruct (Rle_dec lo v); [| apply IH].
    destruct (Rle_dec v hi); [discriminate | apply IH].
Qed.

(** ** The loop over the keys *)

Lemma fill_done :
  forall (todo : list string) (sensor_data : sensor_dict) (answers : list answer)
         (completed : sensor_dict) (rest : list answer),
    fill py_float prompts valid_ranges todo sensor_data answers = Done (completed, rest) ->
    keys completed = keys sensor_data /\
    (forall key x, lookup key sensor_data = Some (Some x) ->
                   lookup key completed = Some (Some x)) /\
    (forall key, In key todo -> lookup key sensor_data = Some None ->
                 exists val, lookup key completed = Some (Some val) /\
                             within valid_ranges key val) /\
    (exists used, answers = used ++ rest).
Proof.
  induction todo as [| k todo IH]; intros sd answers sd' rest H; simpl in H.
  - injection H as <- <-. repeat split; [auto | intros key [] | exists []; reflexivity].
  - destruct (lookup k sd) as [[x |] |] eqn:Ek; [| | discriminate].
    + destruct (IH _ _ _ _ H) as (Hk & Hkeep & Hfill & Hused).
      repeat split; [exact Hk | exact Hkeep | | exact Hused].
      intros key [<- | I] E; [congruence | apply Hfill; assumption].
    + destruct (ask py_float prompts valid_ranges k answers) as [[val answers'] | e |] eqn:Ea;
        [| discriminate | discriminate].
      destruct (ask_done _ _ Ea) as (Hw & skipped & text & -> & Hf).
      destruct (IH _ _ _ _ H) as (Hk & Hkeep & Hfill & used & Hused).
      assert (Ik : In k (keys sd)).
      { apply lookup_Some_In in Ek. apply (in_map fst) in Ek. exact Ek. }
      repeat split.
      * rewrite Hk. apply keys_set_present, Ik.
      * intros key x E. apply Hkeep.
        destruct (String.eqb_spec key k) as [-> | NE]; [congruence |].
        rewrite lookup_set_other by exact NE. exact E.
      * intros key I E.
        destruct (String.eqb_spec key k) as [-> | NE].
        -- exists val. split; [| exact Hw]. apply Hkeep, lookup_set_same.
        -- destruct I as [<- | I]; [contradiction |].
           apply Hfill; [exact I |]. rewrite lookup_set_other by exact NE. exact E.
      * exists (skipped ++ Some text :: used). rewrite Hused, <- app_assoc. reflexivity.
Qed.

Lemma fill_idle :
  forall (todo : list string) (sensor_data : sensor_dict) (answers : list answer),
    (forall key, In key todo -> exists x, lookup key sensor_data = Some (Some x)) ->
    fill py_float prompts valid_ranges todo sensor_data answers = Done (sensor_data, answers).
Proof.
  induction todo as [| k todo IH]; intros sd answers H; simpl; [reflexivity |].
  destruct (H k (or_introl eq_refl)) as [x ->].
  apply IH. intros key I. apply H. right. exact I.
Qed.

Lemma fill_one (key p text : string) (val : R) (bad rest : list answer) :
  lookup key prompts = Some p -> py_float text = Some val ->
  within valid_ranges key val ->
  Forall (turned_down py_float valid_ranges key) bad ->
  forall (todo : list string) (sensor_data : sensor_dict),
    In key todo -> lookup key sensor_data = Some None ->
    (forall k, In k todo -> k <> key -> exists x, lookup k sensor_data = Some (Some x)) ->
    fill py_float prompts valid_ranges todo sensor_data (bad ++ Some text :: rest)
    = Done (set key (Some val) sensor_data, rest).
Proof.
  intros Hp Hf Hw Hbad.
  induction todo as [| k todo IH]; intros sd I Ek Hothers; [destruct I |].
  simpl. destruct (String.eqb_spec k key) as [-> | NE].
  - rewrite Ek, (ask_skips rest Hp Hf Hw Hbad).
    apply fill_idle. intros k I'.
    destruct (String.eqb_spec k key) as [-> | NE].
    + exists val. apply lookup_set_same.
    + rewrite lookup_set_other by exact NE. apply Hothers; [right; exact I' | exact NE].
  - destruct (Hothers k (or_introl eq_refl) NE) as [x ->].
    apply IH; [destruct I as [E | I]; [contradiction | exact I] | exact Ek |].
    intros k' I'. apply Hothers. right. exact I'.
Qed.

Lemma fill_never_fails :
  forall (todo : list string) (sensor_data : sensor_dict) (answers : list answer) (e : exn),
    (forall key, In key todo ->
       In key (keys sensor_data) /\ In key (keys prompts) /\ In key (keys valid_ranges)) ->
    fill py_float prompts valid_ranges todo sensor_data answers <> Failed e.
Proof.
  induction todo as [| k todo IH]; intros sd answers e H; simpl; [discriminate |].
  destruct (H k (or_introl eq_refl)) as (Is & Ip & Ir).
  destruct (lookup_in_keys _ _ Is) as [r ->].
  destruct (lookup_in_keys _ _ Ip) as [p Ep].
  destruct (lookup_in_keys _ _ Ir) as [range Er].
  destruct r as [x |].
  - apply IH. intros key I. apply H. right. exact I.
  - destruct (ask py_float prompts valid_ranges k answers) as [[val answers'] | e' |] eqn:Ea.
    + apply IH. intros key I. destruct (H key (or_intror I)) as (Is' & Hrest).
      split; [| exact Hrest]. rewrite keys_set_present; assumption.
    + exfalso. exact (ask_never_fails _ Ep Er _ Ea).
    + discriminate.
Qed.

(** X3. When [prompt_for_missing_data] completes, the mapping has the keys
    it had, in their order; a reading that was present is the one it was,
    whatever its value (it is not compared with the range); a reading that
    was [None] is now a number within the range of its key; and the replies
    left over are a tail of the replies given. *)
Theorem prompt_fills_missing_readings
    (sensor_data completed : sensor_dict) (answers rest : list answer) :
  prompt_for_missing_data py_float sensor_data prompts valid_ranges answers
  = Done (completed, rest) ->
  keys completed = keys sensor_data /\
  (forall key x, lookup key sensor_data = Some (Some x) ->
                 lookup key completed = Some (Some x)) /\
  (forall key, lookup key sensor_data = Some None ->
               exists val, lookup key completed = Some (Some val) /\
                           within valid_ranges key val) /\
  (exists used, answers = used ++ rest).
Proof.
  unfold prompt_for_missing_data. intros H.
  destruct (fill_done _ _ _ H) as (Hk & Hkeep & Hfill & Hused).
  repeat split; [exact Hk | exact Hkeep | | exact Hused].
  intros key E. apply Hfill; [| exact E].
  apply lookup_Some_In in E. apply (in_map fst) in E. exact E.
Qed.

(** X4. For a mapping whose only missing reading is that of [key], replies
    that are cancelled, not numbers, or numbers outside the key's range are
    passed over: the first reply that is a number within the range becomes
    the reading, and the replies after it are left unread. *)
Theorem prompt_takes_first_acceptable_reply
    (sensor_data : sensor_dict) (key p text : string) (val : R)
    (bad rest : list answer) :
  lookup key sensor_data = Some None ->
  (forall k, In k (keys sensor_data) -> k <> key ->
             exists x, lookup k sensor_data = Some (Some x)) ->
  lookup key prompts = Some p ->
  Forall (turned_down py_float valid_ranges key) bad ->
  py_float text = Some val -> within valid_ranges key val ->
  prompt_for_missing_data py_float sensor_data prompts valid_ranges
    (bad ++ Some text :: rest)
  = Done (set key (Some val) sensor_data, rest).
Proof.
  intros Ek Hothers Hp Hbad Hf Hw. unfold prompt_for_missing_data.
  apply (fill_one rest Hp Hf Hw Hbad); [| exact Ek | exact Hothers].
  apply lookup_Some_In in Ek. apply (in_map fst) in Ek. exact Ek.
Qed.

(** X5. When no reading is missing, [prompt_for_missing_data] returns the
    mapping as it is, opens no dialog and reads no reply, whatever the
    prompts and the ranges are. *)
Theorem prompt_asks_nothing_when_complete
    (sensor_data : sensor_dict) (answers : list answer) :
  (forall key, In key (keys sensor_data) ->
               exists x, lookup key sensor_data = Some (Some x)) ->
  prompt_for_missing_data py_float sensor_data prompts valid_ranges answers
  = Done (sensor_data, answers).
Proof.
  intros H. unfold prompt_for_missing_data. apply fill_idle. exact H.
Qed.

End Dialog.

(** ** After the extraction, with the tables of [on_submit] *)

Lemma fixed_tables_cover (key : string) :
  In key SENSOR_KEYS -> In key (keys prompts) /\ In key (keys valid_ranges).
Proof. intros I. split; exact I. Qed.

(** X6. With the prompts and the ranges [on_submit] fixes, completing a
    mapping that [get_sensor_data_from_report] returned raises nothing,
    whatever the replies are: each of the six keys has its prompt and its
    range. *)
Theorem prompt_never_fails_after_extraction
    (py_float : string -> option R) (report : dict) (sensor_data : sensor_dict) :
  get_sensor_data_from_report py_float report = Ok sensor_data ->
  forall (answers : list answer) (e : exn),
    prompt_for_missing_data py_float sensor_data prompts valid_ranges answers <> Failed e.
Proof.
  intros H answers e. apply SensorFacts.get_sensor_data_keys in H. destruct H as [Hk _].
  unfold prompt_for_missing_data. apply fill_never_fails.
  intros key I. split; [exact I |]. apply fixed_tables_cover. rewrite <- Hk. exact I.
Qed.



(** ** Samples *)

Lemma sample_extraction :
  get_sensor_data_from_report sample_float report_read = Ok sensor_read.
Proof. reflexivity. Qed.

Lemma sample_dialog :
  prompt_for_missing_data sample_float sensor_read prompts valid_ranges replies
  = Done (sensor_completed, []).
Proof.
  unfold prompt_for_missing_data, replies.
  repeat first [progress simpl | progress read_replies | progress compare_bounds].
  reflexivity.
Qed.

Lemma prompt_fills_missing_readings_witness :
  keys sensor_completed = keys sensor_read /\
  (forall key x, lookup key sensor_read = Some (Some x) ->
                 lookup key sensor_completed = Some (Some x)) /\
  (forall key, lookup key sensor_read = Some None ->
               exists val, lookup key sensor_completed = Some (Some val) /\
                           within valid_ranges key val) /\
  (exists used, replies = used ++ []).
Proof.
  exact (@prompt_fills_missing_readings sample_float prompts valid_ranges
           sensor_read sensor_completed replies [] sample_dialog).
Defined.

Lemma prompt_takes_first_acceptable_reply_witness :
  prompt_for_missing_data sample_float
    [ ("T", Some 25%R); ("H", None) ] prompts valid_ranges
    ([ None; Some "many"; Some "120" ] ++ Some "80" :: [ Some "0" ])
  = Done (set "H" (Some 80%R) [ ("T", Some 25%R); ("H", None) ], [ Some "0" ]).
Proof.
  apply (@prompt_takes_first_acceptable_reply sample_float prompts valid_ranges
           [ ("T", Some 25%R); ("H", None) ] "H" "Enter ambient humidity (%): " "80" 80%R).
  - reflexivity.
  - intros k [<- | [<- | []]] NE; [exists 25%R; reflexivity | contradiction].
  - reflexivity.
  - constructor; [exact I |]. constructor; [exact I |].
    constructor; [| constructor].
    unfold turned_down. simpl. read_replies. intros [_ H]. lra.
  - reflexivity.
  - exists 0%R, 100%R. split; [reflexivity | lra].
Defined.

Lemma prompt_asks_nothing_when_complete_witness :
  prompt_for_missing_data sample_float sample_sensor [] [] replies
  = Done (sample_sensor, replies).
Proof.
  apply (@prompt_asks_nothing_when_complete sample_float [] [] sample_sensor replies).
  intros key I. simpl in I.
  repeat (destruct I as [<- | I]; [eexists; reflexivity |]). contradiction.
Defined.

Lemma prompt_never_fails_after_extraction_witness :
  get_sensor_data_from_report sample_float report_read = Ok sensor_read /\
  ~ (exists e : exn,
       prompt_for_missing_data sample_float sensor_read prompts valid_ranges [ None ]
       = Failed e).
Proof.
  split; [exact sample_extraction |].
  intros [e H].
  exact (@prompt_never_fails_after_extraction sample_float report_read sensor_read
           sample_extraction [ None ] e H).
Defined.


End PromptFacts.

(* ===================================================================== *)
(** * The stored report: any section, any file                           *)
(* ===================================================================== *)

Module StorageFacts.

Import Py Climate Report Csv Schema Workflow Inputs DictFacts.
Local Open Scope string_scope.
Local Open Scope list_scope.

(** ** Assignments keep a dict a dict *)

Lemma NoDup_snoc (A : Type) (x : A) (l : list A) :
  NoDup l -> ~ In x l -> NoDup (l ++ [x]).
Proof.
  induction l as [| y l IH]; intros ND NI; simpl.
  - constructor; [intros [] | constructor].
  - inversion ND as [| ? ? Ny ND']; subst. constructor.
    + intros I. apply in_app_or in I. destruct I as [I | [E | []]].
      * contradiction.
      * apply NI. left. symmetry. exact E.
    + apply IH; [exact ND' |]. intros I. apply NI. right. exact I.
Qed.

Lemma keys_set_distinct (A : Type) (k : string) (v : A) (d : list (string * A)) :
  NoDup (keys d) -> NoDup (keys (set k v d)).
Proof.
  intros ND. destruct (in_dec string_dec k (keys d)) as [I | NI].
  - rewrite keys_set_present by exact I. exact ND.
  - rewrite set_fresh by exact NI. unfold keys in *. rewrite map_app. simpl.
    apply NoDup_snoc; assumption.
Qed.

Lemma Forall_set (A : Type) (Q : A -> Prop) (k : string) (v : A) (d : list (string * A)) :
  Forall (fun kv => Q (snd kv)) d -> Q v -> Forall (fun kv => Q (snd kv)) (set k v d).
Proof.
  intros Hd Hv. induction d as [| [k' v'] d IH]; simpl.
  - constructor; [exact Hv | constructor].
  - inversion Hd as [| ? ? H1 Hd']; subst.
    destruct (String.eqb k k'); constructor; auto.
Qed.

(** ** What the reader stores *)

Lemma parse_cell_leaf (s : string) : read_leaf (parse_cell s) = true.
Proof.
  unfold parse_cell. destruct (String.eqb s "") eqn:E; simpl; [reflexivity |].
  rewrite E. reflexivity.
Qed.

Lemma read_fields_set (key : string) (v : value) (d : dict) :
  key <> "" -> read_leaf v = true ->
  forallb read_field d = true -> forallb read_field (set key v d) = true.
Proof.
  intros Hk Hv. assert (Hnew : read_field (key, v) = true).
  { unfold read_field. cbn [fst snd]. rewrite Hv.
    destruct (String.eqb_spec key ""); [contradiction | reflexivity]. }
  induction d as [| [k' v'] d IH]; simpl; intros Hd.
  - rewrite Hnew. reflexivity.
  - apply andb_true_iff in Hd. destruct Hd as [H1 Hd].
    destruct (String.eqb_spec key k') as [<- | NE]; simpl.
    + rewrite Hnew, Hd. reflexivity.
    + rewrite H1, (IH Hd). reflexivity.
Qed.

Lemma set_nonempty (A : Type) (k : string) (v : A) (d : list (string * A)) :
  nonempty (set k v d) = true.
Proof. destruct d as [| [k' v'] d]; simpl; [| destruct (String.eqb k k')]; reflexivity. Qed.

Lemma as_read_set (report : dict) (section : string) (v : value) :
  as_read report -> read_section_ok v = true -> distinct_fields v ->
  as_read (set section v report).
Proof.
  intros [ND H] Hv Hd. split; [apply keys_set_distinct, ND |].
  apply (@Forall_set _ (fun x => read_section_ok x = true /\ distinct_fields x));
    [exact H | split; assumption].
Qed.

Lemma as_read_lookup (report : dict) (section : string) (v : value) :
  as_read report -> lookup section report = Some v ->
  read_section_ok v = true /\ distinct_fields v.
Proof.
  intros [_ H] E. apply lookup_Some_In in E.
  rewrite Forall_forall in H. apply (H _ E).
Qed.

Lemma read_row_as_read (report report' : dict) (r : row) :
  as_read report -> read_row report r = Ok report' -> as_read report'.
Proof.
  intros Hr H.
  destruct r as [| section [| key [| v [| x r]]]]; try discriminate.
  unfold read_row in H.
  destruct (String.eqb_spec key "") as [-> | NE]; cbn [negb] in H.
  - injection H as <-.
    destruct (lookup section report); [| rewrite CsvFacts.set_set];
      (apply as_read_set; [exact Hr | | ]);
      unfold parse_cell; destruct (String.eqb v "") eqn:E; simpl;
      try rewrite E; auto.
  - destruct (lookup section report) as [stored |] eqn:El.
    + rewrite El in H. destruct stored as [| | | | | d]; try discriminate.
      injection H as <-.
      destruct (as_read_lookup _ Hr El) as [Hok Hd]. simpl in Hok, Hd.
      apply andb_true_iff in Hok. destruct Hok as [_ Hok].
      apply as_read_set; [exact Hr | | apply keys_set_distinct, Hd].
      simpl. rewrite set_nonempty. simpl.
      apply read_fields_set; [exact NE | apply parse_cell_leaf | exact Hok].
    + rewrite lookup_set_same in H. injection H as <-.
      rewrite CsvFacts.set_set. apply as_read_set; [exact Hr | |].
      * simpl. unfold read_field. cbn [fst snd]. rewrite parse_cell_leaf.
        destruct (String.eqb_spec key ""); [contradiction | reflexivity].
      * simpl. constructor; [intros [] | constructor].
Qed.

Lemma read_loop_as_read (rows : list row) :
  forall report : dict, as_read report -> as_read (read_loop rows report).
Proof.
  induction rows as [| r rows IH]; intros report Hr; simpl; [exact Hr |].
  destruct (read_row report r) as [report' | e] eqn:E; [| exact Hr].
  apply IH. exact (read_row_as_read _ Hr E).
Qed.

Lemma read_report_as_read (rows : list row) : as_read (read_report_from_csv rows).
Proof.
  assert (H0 : as_read []) by (split; constructor).
  destruct rows as [| header body]; simpl; [exact H0 |].
  apply read_loop_as_read, H0.
Qed.

(** X8. Whatever the lines of the file are, the report
    [read_report_from_csv] returns has distinct section names; a section
    is [None], a text that is not empty, or a mapping that is not empty,
    whose keys are distinct and not empty and whose values are [None] or
    texts that are not empty.  An empty text is never stored, and no
    number, list or nested mapping is. *)
Theorem read_report_shape (rows : list row) : as_read (read_report_from_csv rows).
Proof. exact (read_report_as_read rows). Qed.

(** ** Where the reading ends *)

Lemma read_row_ends (report : dict) (r : row) :
  ends_reading report r -> exists e, read_row report r = Raise e.
Proof.
  intros [Hlen | (section & key & v & stored & -> & Hk & El & Hd)].
  - destruct r as [| a [| b [| c [| x r]]]]; simpl in Hlen;
      try (exists ValueError; reflexivity). contradiction.
  - unfold read_row. rewrite El.
    destruct (String.eqb_spec key ""); [contradiction |]. cbn [negb]. rewrite El.
    destruct stored; try discriminate; exists TypeError; reflexivity.
Qed.

Lemma read_loop_ends (bad : row) (rest : list row) :
  forall (good : list row) (report : dict),
    ends_reading (read_loop good report) bad ->
    read_loop (good ++ bad :: rest) report = read_loop good report.
Proof.
  induction good as [| r good IH]; intros report H; simpl in *.
  - destruct (read_row_ends H) as [e ->]. reflexivity.
  - destruct (read_row report r) as [report' | e]; [apply IH, H | reflexivity].
Qed.

(** X9. A line that has not exactly three fields, or a line with a key
    for a section already stored as a single value, ends the reading
    without an error for the caller: the report is the one of the lines
    before it, and the lines after it are not read. *)
Theorem reading_ends_at_bad_line (header bad : row) (good rest : list row) :
  ends_reading (read_report_from_csv (header :: good)) bad ->
  read_report_from_csv (header :: good ++ bad :: rest)
  = read_report_from_csv (header :: good).
Proof. simpl. apply read_loop_ends. Qed.

Lemma reading_ends_at_bad_line_witness :
  read_report_from_csv
    (HEADER :: [ ["Weather Data"; ""; "No weather data retrieved."] ]
            ++ ["Weather Data"; "Temperature"; "25"]
            :: [ ["Soil Data (Depth 0-5cm)"; "phh2o"; "65"] ])
  = [ ("Weather Data", VStr "No weather data retrieved.") ].
Proof.
  apply (@reading_ends_at_bad_line HEADER ["Weather Data"; "Temperature"; "25"]
           [ ["Weather Data"; ""; "No weather data retrieved."] ]
           [ ["Soil Data (Depth 0-5cm)"; "phh2o"; "65"] ]).
  right. exists "Weather Data", "Temperature", "25", (VStr "No weather data retrieved.").
  repeat split; [discriminate].
Defined.

(** ** Storing and reading any report *)

Section Storing.

Variable py_str : value -> string.

Lemma reread_any_mapping (section : string) (d : dict) :
  reread_any py_str (section, VDict d) = reread_section py_str (section, VDict d).
Proof. destruct d; reflexivity. Qed.

Lemma read_single (section : string) (data : value) (report : dict) (rest : list row) :
  is_dict data = false -> ~ In section (keys report) ->
  read_loop (section_rows py_str section data ++ rest) report
  = read_loop rest (report ++ reread_any py_str (section, data)).
Proof.
  intros Hd NI.
  assert (El : lookup section report = None) by (apply lookup_None_iff; exact NI).
  assert (E : section_rows py_str section data = [[section; ""; py_str data]])
    by (destruct data; try reflexivity; discriminate).
  assert (E' : reread_any py_str (section, data) = [(section, parse_cell (py_str data))])
    by (destruct data; try reflexivity; discriminate).
  rewrite E, E'. cbn [app read_loop]. unfold read_row. rewrite El.
  cbn [String.eqb negb]. rewrite CsvFacts.set_set, set_fresh by exact NI. reflexivity.
Qed.

Lemma reread_any_keys (sd : string * value) :
  keys (reread_any py_str sd) = [] \/ keys (reread_any py_str sd) = [fst sd].
Proof.
  destruct sd as [section data]. unfold reread_any. cbn [fst snd].
  destruct data as [| | | | | [| kv d]]; simpl; auto.
Qed.

Lemma read_any_sections (report : dict) :
  forall acc : dict,
    storable report -> NoDup (keys acc ++ keys report) ->
    read_loop (flat_map (fun sd => section_rows py_str (fst sd) (snd sd)) report) acc
    = acc ++ flat_map (reread_any py_str) report.
Proof.
  induction report as [| [section data] report IH]; intros acc [NDr Hs] ND.
  - simpl. rewrite app_nil_r. reflexivity.
  - inversion Hs as [| ? ? Hd Hs']; subst. cbn [snd] in Hd.
    inversion NDr as [| ? ? _ NDr']; subst.
    cbn [flat_map fst snd].
    assert (NI : ~ In section (keys acc)).
    { intros I. apply NoDup_remove_2 in ND. apply ND, in_or_app. left. exact I. }
    assert (Hstep :
      read_loop (section_rows py_str section data
                 ++ flat_map (fun sd => section_rows py_str (fst sd) (snd sd)) report) acc
      = read_loop (flat_map (fun sd => section_rows py_str (fst sd) (snd sd)) report)
          (acc ++ reread_any py_str (section, data))).
    { destruct (is_dict data) eqn:Ed.
      - destruct data as [| | | | | d]; try discriminate.
        rewrite reread_any_mapping.
        apply (@CsvFacts.read_section py_str section (VDict d) d acc _ eq_refl
                 (Hd d eq_refl) NI).
      - apply read_single; assumption. }
    rewrite Hstep, IH; [rewrite <- app_assoc; reflexivity | split; assumption |].
    unfold keys in *. rewrite map_app, <- app_assoc.
    destruct (reread_any_keys (section, data)) as [E | E];
      unfold keys in E; rewrite E; cbn [fst app].
    + apply NoDup_remove_1 in ND. exact ND.
    + exact ND.
Qed.

Lemma read_any_report (report : dict) :
  storable report ->
  read_report_from_csv (export_report_to_csv py_str report)
  = flat_map (reread_any py_str) report.
Proof.
  intros H. unfold read_report_from_csv, export_report_to_csv.
  rewrite (read_any_sections [] H); [reflexivity | apply H].
Qed.

(** What a section that is a mapping with a field becomes. *)
Lemma lookup_reread_any (report : dict) (section : string) (d : dict) :
  lookup section report = Some (VDict d) -> d <> [] ->
  lookup section (flat_map (reread_any py_str) report)
  = Some (VDict (map (fun f => (fst f, reread py_str (snd f))) d)).
Proof.
  induction report as [| [s0 data] report IH]; intros Hs Hd; [discriminate |].
  cbn [flat_map]. rewrite lookup_app. simpl in Hs.
  destruct (String.eqb_spec section s0) as [-> | NE].
  - injection Hs as ->. unfold reread_any. cbn [fst snd].
    destruct d as [| kv d]; [contradiction |].
    cbn [lookup]. rewrite String.eqb_refl. reflexivity.
  - assert (E : lookup section (reread_any py_str (s0, data)) = None).
    { apply lookup_None_iff.
      destruct (reread_any_keys (s0, data)) as [-> | ->]; simpl; intuition congruence. }
    rewrite E. apply IH; assumption.
Qed.

(** What a section that is not a mapping becomes. *)
Lemma lookup_reread_single (report : dict) (section : string) (data : value) :
  lookup section report = Some data -> is_dict data = false ->
  lookup section (flat_map (reread_any py_str) report)
  = Some (parse_cell (py_str data)).
Proof.
  induction report as [| [s0 v0] report IH]; intros Hs Hd; [discriminate |].
  cbn [flat_map]. rewrite lookup_app. simpl in Hs.
  destruct (String.eqb_spec section s0) as [-> | NE].
  - injection Hs as ->. unfold reread_any. cbn [fst snd].
    destruct data; try discriminate; cbn [lookup]; rewrite String.eqb_refl; reflexivity.
  - assert (E : lookup section (reread_any py_str (s0, v0)) = None).
    { apply lookup_None_iff.
      destruct (reread_any_keys (s0, v0)) as [-> | ->]; simpl; intuition congruence. }
    rewrite E. apply IH; assumption.
Qed.


(** ** A report that was read, stored again *)

Hypothesis str_of_text : forall s : string, py_str (VStr s) = s.

Lemma reread_leaf (v : value) : read_leaf v = true -> reread py_str v = v.
Proof.
  destruct v as [| | | s | |]; try discriminate; [reflexivity |].
  simpl. intros H. unfold reread, cell, parse_cell. rewrite str_of_text.
  apply negb_true_iff in H. rewrite H. reflexivity.
Qed.

Lemma reread_fields (d : dict) :
  forallb read_field d = true ->
  map (fun f => (fst f, reread py_str (snd f))) d = d.
Proof.
  induction d as [| [k v] d IH]; simpl; intros H; [reflexivity |].
  apply andb_true_iff in H. destruct H as [H1 H].
  unfold read_field in H1. apply andb_true_iff in H1. destruct H1 as [_ H1].
  cbn [snd] in H1. rewrite (reread_leaf _ H1), (IH H). reflexivity.
Qed.

Lemma reread_any_read (sd : string * value) :
  read_section_ok (snd sd) = true -> snd sd <> VNone ->
  reread_any py_str sd = [sd].
Proof.
  destruct sd as [section data]. cbn [snd]. unfold reread_any. cbn [fst snd].
  destruct data as [| | | s | | d]; try discriminate; intros H NN.
  - contradiction.
  - simpl in H. rewrite str_of_text. unfold parse_cell.
    apply negb_true_iff in H. rewrite H. reflexivity.
  - simpl in H. apply andb_true_iff in H. destruct H as [Hne H].
    destruct d as [| kv d]; [discriminate |].
    rewrite (reread_fields _ H). reflexivity.
Qed.

Lemma as_read_storable (report : dict) : as_read report -> storable report.
Proof.
  intros [ND H]. split; [exact ND |].
  apply Forall_impl with (2 := H). intros [section data] [Hok Hd] d E.
  cbn [snd] in *. subst data. simpl in Hok, Hd.
  apply andb_true_iff in Hok. destruct Hok as [_ Hok].
  split; [exact Hd |]. apply Forall_forall. intros kv I.
  rewrite forallb_forall in Hok. specialize (Hok _ I).
  unfold read_field in Hok. apply andb_true_iff in Hok. destruct Hok as [Hk _].
  intros E. rewrite E in Hk. discriminate.
Qed.

(** X11. A report that was read from a file, when no section of it is
    [None], is stored and read back unchanged, [str] of a text being the
    text itself: sections, keys and values come back in the same order. *)
Theorem read_report_stable (rows : list row) :
  Forall (fun sd => snd sd <> VNone) (read_report_from_csv rows) ->
  read_report_from_csv (export_report_to_csv py_str (read_report_from_csv rows))
  = read_report_from_csv rows.
Proof.
  intros HN. pose proof (read_report_as_read rows) as Hr.
  set (report := read_report_from_csv rows) in *.
  unfold read_report_from_csv at 1, export_report_to_csv.
  rewrite (read_any_sections [] (as_read_storable Hr)); [| apply Hr].
  destruct Hr as [_ Hr]. cbn [app].
  induction report as [| sd report IH]; [reflexivity |].
  inversion HN as [| ? ? H1 HN']; subst. inversion Hr as [| ? ? [H2 _] Hr']; subst.
  cbn [flat_map]. rewrite (reread_any_read _ H2 H1), (IH HN' Hr'). reflexivity.
Qed.

End Storing.



Lemma read_report_stable_witness :
  read_report_from_csv
    (export_report_to_csv sample_str
       (read_report_from_csv (export_report_to_csv sample_str report_without_weather)))
  = read_report_from_csv (export_report_to_csv sample_str report_without_weather).
Proof.
  apply (@read_report_stable sample_str (fun s => eq_refl)
           (export_report_to_csv sample_str report_without_weather)).
  repeat constructor; discriminate.
Defined.

End StorageFacts.

(* ===================================================================== *)
(** * From the sources to the sensor vector                              *)
(* ===================================================================== *)

Module WorkflowFacts.

Import Py Net Climate Report Csv Fitness Sensors Schema Workflow Inputs Samples.
Import DictFacts NetFacts.
Local Open Scope string_scope.
Local Open Scope list_scope.

(** ** The sections [get_location_info] stores *)

Lemma weather_section_cases (response w : value) :
  weather_section response = Ok w ->
  w = NO_WEATHER \/
  exists location temp humidity pressure : value,
    w = VDict [ ("Location", location); ("Temperature", temp);
                ("Humidity", humidity); ("Pressure", pressure) ].
Proof.
  unfold weather_section. intros H.
  apply rbind_Ok in H. destruct H as (cond & _ & H). destruct cond.
  - apply rbind_Ok in H. destruct H as (main & _ & H).
    apply rbind_Ok in H. destruct H as (location & _ & H).
    apply rbind_Ok in H. destruct H as (temp & _ & H).
    apply rbind_Ok in H. destruct H as (humidity & _ & H).
    apply rbind_Ok in H. destruct H as (pressure & _ & H).
    injection H as <-. right. exists location, temp, humidity, pressure. reflexivity.
  - injection H as <-. left. reflexivity.
Qed.

Lemma elevation_section_cases (response e : value) :
  elevation_section response = Ok e ->
  e = NO_ELEVATION \/ exists x : value, e = VDict [ ("Elevation (meters)", x) ].
Proof.
  unfold elevation_section. intros H.
  apply rbind_Ok in H. destruct H as (cond & _ & H). destruct cond.
  - apply rbind_Ok in H. destruct H as (results & _ & H).
    apply rbind_Ok in H. destruct H as (first & _ & H).
    apply rbind_Ok in H. destruct H as (x & _ & H).
    injection H as <-. right. exists x. reflexivity.
  - injection H as <-. left. reflexivity.
Qed.

Lemma get_location_info_located
    (float_repr : Q -> string) (net : oracle) (current_year current_month : Z)
    (lat lon : Q) (month year : Z) (report : value) (log : list request) :
  run (get_location_info float_repr current_year current_month lat lon month year) net
  = (Ok report, log) ->
  exists sections : dict, report = VDict sections /\ located month year sections.
Proof.
  unfold run, get_location_info. intros H.
  apply bind_Ok in H. destruct H as (climate & l1 & Hc & H).
  apply bind_Ok in H. destruct H as (wr & l2 & _ & H).
  apply bind_Ok in H. destruct H as (weather & l3 & Hw & H).
  apply bind_Ok in H. destruct H as (soil_response & l4 & Es & H).
  apply bind_Ok in H. destruct H as (tr & l5 & _ & H).
  apply bind_Ok in H. destruct H as (elevation & l6 & He & H).
  unfold ret in H. injection H as <- _.
  apply ReportFacts.get_soil_data_keys in Es. destruct Es as (soil_data & -> & Hk).
  rewrite (ReportFacts.seven_keys_truthy _ Hk).
  eexists. split; [reflexivity |].
  exists climate, weather, elevation, soil_data. split; [reflexivity |].
  split; [exact (ClimateFacts.get_climate_data_returned _ _ _ _ _ _ _ _ _ Hc) |].
  split.
  { unfold lift in Hw. injection Hw as Hw _. exact (weather_section_cases _ Hw). }
  split; [exact Hk |].
  unfold lift in He. injection He as He _. exact (elevation_section_cases _ He).
Qed.

Lemma located_storable (month year : Z) (report : dict) :
  located month year report -> storable report.
Proof.
  intros (climate & weather & elevation & soil_data & -> & Hc & Hw & Hk & He).
  split; [repeat constructor; simpl; intuition discriminate |].
  constructor; [| constructor; [| constructor; [| constructor; [| constructor]]]];
    cbn [snd]; intros d E.
  - destruct Hc as [(range & avg & total & -> & _) | ->]; injection E as <-;
      split; repeat constructor; simpl; intuition discriminate.
  - destruct Hw as [-> | (l & t & h & p & ->)]; [discriminate |].
    injection E as <-. split; repeat constructor; simpl; intuition discriminate.
  - injection E as <-. split.
    + rewrite Hk. repeat constructor; simpl; intuition discriminate.
    + apply Forall_forall. intros kv I E.
      apply (in_map fst) in I. fold (keys soil_data) in I. rewrite Hk, E in I.
      simpl in I. intuition discriminate.
  - destruct He as [-> | (x & ->)]; [discriminate |].
    injection E as <-. split; repeat constructor; simpl; intuition discriminate.
Qed.

(** ** Reading the sensor fields of a stored report *)

Section Stored.

Variable py_str : value -> string.
Variable py_float : string -> option R.

Lemma reading_after_storage (report : dict) (section subkey : string) (d : dict) :
  lookup section report = Some (VDict d) -> d <> [] ->
  readable (flat_map (reread_any py_str) report) section subkey = true /\
  expected_reading py_float (flat_map (reread_any py_str) report) section subkey
  = stored_reading py_str py_float report section subkey.
Proof.
  intros Hs Hd. unfold readable, expected_reading, field_of, stored_reading.
  rewrite (StorageFacts.lookup_reread_any py_str _ _ Hs Hd), Hs.
  change (fun f : string * value => (fst f, reread py_str (snd f)))
    with (fun f : string * value => (fst f, (reread py_str) (snd f))).
  rewrite (lookup_map_snd (reread py_str)).
  destruct (lookup subkey d) as [v |]; cbn [option_map]; [| split; reflexivity].
  unfold reread, parse_cell.
  destruct (String.eqb_spec (cell py_str v) "") as [E | NE].
  - rewrite E. split; reflexivity.
  - split; reflexivity.
Qed.

Lemma placeholder_unreadable (report : dict) (section subkey : string) (data : value) :
  lookup section report = Some data -> is_dict data = false ->
  readable (flat_map (reread_any py_str) report) section subkey = false.
Proof.
  intros Hs Hd. unfold readable, field_of.
  rewrite (StorageFacts.lookup_reread_single py_str _ _ Hs Hd).
  unfold parse_cell. destruct (String.eqb (py_str data) ""); reflexivity.
Qed.

Lemma located_sections (month year : Z) (report : dict) :
  located month year report ->
  (exists d, lookup CLIMATE_KEY report = Some (VDict d) /\ d <> []) /\
  (exists d, lookup SOIL_KEY report = Some (VDict d) /\ d <> []) /\
  (forall w, lookup WEATHER_KEY report = Some (VDict w) -> w <> []).
Proof.
  intros (climate & weather & elevation & soil_data & -> & Hc & Hw & Hk & He).
  split; [| split].
  - destruct Hc as [(range & avg & total & -> & _) | ->];
      eexists; (split; [reflexivity | discriminate]).
  - exists soil_data. split; [reflexivity |].
    intros ->. discriminate.
  - intros w E. simpl in E. injection E as ->.
    destruct Hw as [E | (l & t & h & p & E)]; [discriminate |].
    injection E as ->. discriminate.
Qed.

(** X12. When [get_location_info] returns a report whose weather section
    is the placeholder text, as it is when the weather request fails or
    its answer has no [main], then storing the report, reading it back and
    extracting the sensor data from it, as [on_submit] does, raises
    [AttributeError]: the section is read back as a text, not a mapping. *)
Theorem sensor_data_fails_without_weather
    (float_repr : Q -> string) (net : oracle) (current_year current_month : Z)
    (lat lon : Q) (month year : Z) (sections : dict) (log : list request) :
  run (get_location_info float_repr current_year current_month lat lon month year) net
  = (Ok (VDict sections), log) ->
  lookup WEATHER_KEY sections = Some NO_WEATHER ->
  sensor_data_of_report py_str py_float sections = Raise AttributeError.
Proof.
  intros Hrun Hw.
  apply get_location_info_located in Hrun. destruct Hrun as (s' & E & Hl).
  injection E as <-.
  unfold sensor_data_of_report, get_sensor_data_from_report.
  rewrite (StorageFacts.read_any_report py_str (located_storable Hl)).
  apply SensorFacts.sensor_loop_unreadable, Exists_cons_hd. cbn [fst snd].
  exact (@placeholder_unreadable sections WEATHER_KEY "Temperature" NO_WEATHER Hw eq_refl).
Qed.

(** X13. When [get_location_info] returns a report whose weather section
    is a mapping, then storing the report, reading it back and extracting
    the sensor data from it, as [on_submit] does, returns a mapping with
    the keys T, H, P, T_avg, AP, pH; a key holds the number [float] makes
    of [str] of its field of the report, and [None] when the field is
    missing or [None] or when that text is blank or rejected by [float]
    (as the text of a climate record without data is, when [float] rejects
    it). *)
Theorem sensor_data_with_weather
    (float_repr : Q -> string) (net : oracle) (current_year current_month : Z)
    (lat lon : Q) (month year : Z) (sections w : dict) (log : list request) :
  run (get_location_info float_repr current_year current_month lat lon month year) net
  = (Ok (VDict sections), log) ->
  lookup WEATHER_KEY sections = Some (VDict w) ->
  exists sensor_data : sensor_dict,
    sensor_data_of_report py_str py_float sections = Ok sensor_data /\
    keys sensor_data = SENSOR_KEYS /\
    forall key section subkey,
      In (key, (section, subkey)) sensor_keys ->
      lookup key sensor_data
      = Some (stored_reading py_str py_float sections section subkey).
Proof.
  intros Hrun Hw.
  apply get_location_info_located in Hrun. destruct Hrun as (s' & E & Hl).
  injection E as <-.
  destruct (located_sections Hl) as ((dc & Hc & Nc) & (ds & Hs & Ns) & Nw).
  specialize (Nw _ Hw).
  pose proof (fun subkey => @reading_after_storage sections CLIMATE_KEY subkey dc Hc Nc) as Rc.
  pose proof (fun subkey => @reading_after_storage sections SOIL_KEY subkey ds Hs Ns) as Rs.
  pose proof (fun subkey => @reading_after_storage sections WEATHER_KEY subkey w Hw Nw) as Rw.
  unfold sensor_data_of_report, get_sensor_data_from_report.
  rewrite (StorageFacts.read_any_report py_str (located_storable Hl)).
  rewrite (@SensorFacts.sensor_loop_readable py_float
             (flat_map (reread_any py_str) sections) sensor_keys []);
    [| | exact SensorFacts.sensor_keys_distinct].
  - eexists. split; [reflexivity |]. split; [reflexivity |].
    intros key section subkey I. simpl in I.
    set (stored := flat_map (reread_any py_str) sections) in *.
    destruct I as [I | [I | [I | [I | [I | [I | []]]]]]];
      injection I as <- <- <-; unfold sensor_keys; cbn [map app fst snd];
      simpl lookup; f_equal; first [apply (proj2 (Rw _)) | apply (proj2 (Rc _)) | apply (proj2 (Rs _))].
  - unfold sensor_keys.
    repeat (constructor;
            [cbn [fst snd];
             first [apply (proj1 (Rw _)) | apply (proj1 (Rc _)) | apply (proj1 (Rs _))] |]).
    constructor.
Qed.

End Stored.

Lemma sensor_data_fails_without_weather_witness :
  exists (sections : dict) (log : list request),
    run (get_location_info sample_repr 2026 11 1 2 2 2026) net_no_weather
    = (Ok (VDict sections), log) /\
    sensor_data_of_report sample_str sample_float sections = Raise AttributeError.
Proof.
  assert (H : exists (sections : dict) (log : list request),
            run (get_location_info sample_repr 2026 11 1 2 2 2026) net_no_weather
            = (Ok (VDict sections), log) /\
            lookup WEATHER_KEY sections = Some NO_WEATHER).
  { vm_compute. eexists. eexists. split; reflexivity. }
  destruct H as (sections & log & Hrun & Hw).
  exists sections, log. split; [exact Hrun |].
  exact (@sensor_data_fails_without_weather sample_str sample_float sample_repr
           net_no_weather 2026 11 1 2 2 2026 sections log Hrun Hw).
Defined.

Lemma sensor_data_with_weather_witness :
  exists (sections : dict) (log : list request) (sensor_data : sensor_dict),
    run (get_location_info sample_repr 2026 11 1 2 2 2026) net_sample
    = (Ok (VDict sections), log) /\
    sensor_data_of_report sample_str sample_float sections = Ok sensor_data /\
    keys sensor_data = SENSOR_KEYS.
Proof.
  assert (H : exists (sections w : dict) (log : list request),
            run (get_location_info sample_repr 2026 11 1 2 2 2026) net_sample
            = (Ok (VDict sections), log) /\
            lookup WEATHER_KEY sections = Some (VDict w)).
  { vm_compute. eexists. eexists. eexists. split; reflexivity. }
  destruct H as (sections & w & log & Hrun & Hw).
  destruct (@sensor_data_with_weather sample_str sample_float sample_repr
              net_sample 2026 11 1 2 2 2026 sections w log Hrun Hw)
    as (sensor_data & E & Hk & _).
  exists sections, log, sensor_data. auto.
Defined.

End WorkflowFacts.

(* ===================================================================== *)
(** * The requests of the climate search and of the report               *)
(* ===================================================================== *)

Module RequestFacts.

Import Py Calendar Net Climate Report Schema Samples Inputs DictFacts NetFacts ClimateFacts.
Local Open Scope string_scope.
Local Open Scope list_scope.
Local Open Scope Z_scope.

(** ** One attempt *)

(** An attempt asks the primary provider for the candidate month, once, or
    raises [ValueError] on the dates before asking anything. *)
Lemma attempt_requests (net : oracle) (lat lon : Q) (month y : Z) :
  requests_to NASA_URL (snd (attempt lat lon month y net []))
  = [primary_request lat lon y month] \/
  attempt lat lon month y net [] = (Raise ValueError, []).
Proof.
  unfold attempt. rewrite bind_lift. unfold monthrange_days.
  destruct ((1 <=? month) && (month <=? 12)); [| right; reflexivity].
  rewrite bind_lift. unfold datetime.
  match goal with |- context [if ?c then Ok (mkdate y month 1) else _] => destruct c end;
    [| right; reflexivity].
  rewrite bind_lift.
  match goal with |- context [if ?c then Ok (mkdate y month ?d) else _] => destruct c end;
    [| right; reflexivity].
  left. unfold bind at 1, fetch_api at 1.
  match goal with
  | |- context [read_response ?a ?b ?c ?d ?e net ?l] =>
      destruct (local_extends net l (read_response_local a b c d e)) as [E F];
      rewrite E
  end.
  cbn [snd]. rewrite requests_to_app. simpl.
  rewrite (no_primary_among_secondary F). reflexivity.
Qed.


(** The candidate months of [k] passes from the year [y] downwards. *)
Lemma candidates_shift (lat lon : Q) (month y : Z) (k : nat) :
  map (fun j => primary_request lat lon (y - Z.of_nat j) month) (seq 0 (S k))
  = primary_request lat lon y month
    :: map (fun j => primary_request lat lon (y - 1 - Z.of_nat j) month) (seq 0 k).
Proof.
  cbn [seq map]. f_equal; [f_equal; lia |].
  rewrite <- seq_shift, map_map. apply map_ext. intros j. f_equal. lia.
Qed.

(** ** The search *)

Lemma search_requests (net : oracle) (lat lon : Q) (month : Z) (n : nat) :
  forall y : Z,
  exists k : nat,
    (k <= n)%nat /\
    requests_to NASA_URL (snd (search n lat lon month y net []))
    = map (fun j => primary_request lat lon (y - Z.of_nat j) month) (seq 0 k).
Proof.
  induction n as [| n IH]; intros y; simpl.
  - exists 0%nat. split; [lia | reflexivity].
  - unfold bind at 1.
    destruct (attempt_requests net lat lon month y) as [Hreq | Hraise].
    + destruct (attempt lat lon month y net []) as [[[rec |] | e] ext0] eqn:Ea;
        cbn [snd] in Hreq.
      * exists 1%nat. split; [lia |]. unfold ret. cbn [snd]. rewrite Hreq.
        simpl. repeat f_equal. lia.
      * destruct (IH (y - 1)) as (k & Hk & Hsearch).
        destruct (local_extends net ext0 (search_local lat lon month n (y - 1))) as [E _].
        rewrite E. cbn [snd]. rewrite requests_to_app, Hreq, Hsearch.
        exists (S k). split; [lia |]. rewrite candidates_shift. reflexivity.
      * exists 1%nat. split; [lia |]. cbn [snd]. rewrite Hreq.
        simpl. repeat f_equal. lia.
    + rewrite Hraise. exists 0%nat. split; [lia | reflexivity].
Qed.

Lemma adjusted_year_not_after (cy cm m y : Z) :
  adjust_year cy cm m y <= y /\ not_in_future cy cm m (adjust_year cy cm m y).
Proof.
  rewrite adjust_year_closed. unfold not_in_future.
  destruct (Z.gtb_spec y cy); destruct (Z.gtb_spec m cm);
    destruct (Z.eqb_spec y cy); simpl; lia.
Qed.

(** X14. Whatever the providers answer, and whether [get_climate_data]
    returns or raises, the requests it makes to the primary climate
    provider are those for the requested month of the years [a], [a - 1],
    ..., [a - k + 1], in this order, where [a] is the adjusted year and [k]
    is at most [max_years_back]: no year is asked twice, none is later than
    the requested year, and none lies in the future of the current month. *)
Theorem primary_requests_year_by_year
    (net : oracle) (current_year current_month : Z) (lat lon : Q)
    (month year max_years_back : Z) :
  exists k : nat,
    (k <= Z.to_nat max_years_back)%nat /\
    requests_to NASA_URL
      (snd (run (get_climate_data current_year current_month lat lon month year
                   max_years_back) net))
    = map (fun j => primary_request lat lon
                      (adjust_year current_year current_month month year - Z.of_nat j)
                      month)
          (seq 0 k) /\
    forall j : nat, (j < k)%nat ->
      adjust_year current_year current_month month year - Z.of_nat j <= year /\
      not_in_future current_year current_month month
        (adjust_year current_year current_month month year - Z.of_nat j).
Proof.
  destruct (search_requests net lat lon month (Z.to_nat max_years_back)
              (adjust_year current_year current_month month year))
    as (k & Hk & Hreq).
  exists k. split; [exact Hk |]. split.
  - unfold run, get_climate_data, bind.
    destruct (search (Z.to_nat max_years_back) lat lon month
                (adjust_year current_year current_month month year) net [])
      as [[[rec |] | e] log]; exact Hreq.
  - intros j _.
    destruct (adjusted_year_not_after current_year current_month month year) as [H1 H2].
    unfold not_in_future in *. lia.
Qed.



(** ** An attempt whose primary answer has precipitation readings *)



(** ** The requests of the report *)

Lemma soil_loop_log (net : oracle) (lat lon : Q) (depth : string) :
  forall (props : list string) (acc soil_data : dict) (log log' : list request),
    soil_loop props lat lon depth acc net log = (Ok soil_data, log') ->
    log' = log ++ map (fun prop => mkreq SOIL_URL (soil_params lat lon prop depth)) props.
Proof.
  induction props as [| prop rest IH]; intros acc sd log log' H; simpl in H.
  - unfold ret in H. injection H as _ <-. simpl. rewrite app_nil_r. reflexivity.
  - unfold bind at 1, fetch_api at 1 in H.
    rewrite bind_lift in H.
    destruct (soil_value (net SOIL_URL (soil_params lat lon prop depth)) prop depth)
      as [v | e]; [| discriminate].
    apply IH in H. rewrite H, <- app_assoc. reflexivity.
Qed.

(** X17. When [get_location_info] returns, the requests it made are, in
    this order: those of the climate search, to the two climate providers
    only; one to the weather provider; one to the soil provider for each of
    the seven properties phh2o, soc, clay, silt, sand, cec, cfvo at the
    depth 0-5cm; and one to the terrain provider.  No source is asked again
    after an empty answer. *)
Theorem report_requests_in_order
    (float_repr : Q -> string) (net : oracle) (current_year current_month : Z)
    (lat lon : Q) (month year : Z) (report : value) (log : list request) :
  run (get_location_info float_repr current_year current_month lat lon month year) net
  = (Ok report, log) ->
  exists climate_log : list request,
    Forall (fun q => climate_urls (url q) = true) climate_log /\
    log = climate_log
          ++ mkreq WEATHER_URL (weather_params lat lon)
          :: map (fun prop => mkreq SOIL_URL (soil_params lat lon prop DEFAULT_DEPTH))
                 soil_properties
          ++ [ mkreq TERRAIN_URL
                 [ ("locations", VStr (float_repr lat ++ "," ++ float_repr lon)%string) ] ].
Proof.
  unfold run, get_location_info. intros H.
  apply bind_Ok in H. destruct H as (climate & l1 & Hc & H).
  apply bind_Ok in H. destruct H as (wr & l2 & Hw & H).
  apply bind_Ok in H. destruct H as (weather & l3 & Hws & H).
  apply bind_Ok in H. destruct H as (soil_response & l4 & Es & H).
  apply bind_Ok in H. destruct H as (tr & l5 & Ht & H).
  apply bind_Ok in H. destruct H as (elevation & l6 & He & H).
  unfold ret in H. injection H as _ <-.
  unfold lift in He. injection He as _ <-.
  unfold get_terrain_data, fetch_api in Ht. injection Ht as _ <-.
  unfold get_soil_data in Es. apply bind_Ok in Es.
  destruct Es as (sd & l4' & Hloop & Es). unfold ret in Es. injection Es as _ <-.
  apply soil_loop_log in Hloop. subst l4'.
  unfold lift in Hws. injection Hws as _ <-.
  unfold get_weather_data, fetch_api in Hw. injection Hw as _ <-.
  destruct (local_extends net []
              (get_climate_data_local current_year current_month lat lon month year
                 DEFAULT_MAX_YEARS_BACK)) as [_ F].
  rewrite Hc in F. cbn [snd] in F.
  exists l1. split; [exact F |].
  unfold weather_params. rewrite <- !app_assoc. reflexivity.
Qed.

Lemma report_requests_in_order_witness :
  exists (report : value) (log climate_log : list request),
    run (get_location_info sample_repr 2026 11 1 2 2 2026) net_sample = (Ok report, log) /\
    log = climate_log
          ++ mkreq WEATHER_URL (weather_params 1 2)
          :: map (fun prop => mkreq SOIL_URL (soil_params 1 2 prop DEFAULT_DEPTH))
                 soil_properties
          ++ [ mkreq TERRAIN_URL
                 [ ("locations", VStr (sample_repr 1 ++ "," ++ sample_repr 2)%string) ] ].
Proof.
  assert (H : exists (report : value) (log : list request),
            run (get_location_info sample_repr 2026 11 1 2 2 2026) net_sample
            = (Ok report, log)).
  { vm_compute. eexists. eexists. reflexivity. }
  destruct H as (report & log & Hrun).
  destruct (@report_requests_in_order sample_repr net_sample 2026 11 1 2 2 2026
              report log Hrun) as (climate_log & _ & Hlog).
  exists report, log, climate_log. split; [exact Hrun | exact Hlog].
Defined.

End RequestFacts.

(* ===================================================================== *)
(** * The scorer on missing readings, zero sigmas and changed readings   *)
(* ===================================================================== *)

Module RankingFacts.

Import Py Fitness FitnessModel Ranking DictFacts NetFacts FitnessFacts.
Local Open Scope string_scope.
Local Open Scope list_scope.
Local Open Scope R_scope.

(** ** Readings that are None, sigmas that are zero *)










(** ** Readings closer to the optimum *)





(** ** The pressure reading and the order of the table *)







Section Ranked.

Variables (sensor : sensor_dict) (sg wt : fdict).
Variables (s : SensorVector) (sigma : Sigmas) (w : Weights).
Hypothesis sensor_ok : populated sensor s.
Hypothesis sigmas_ok : sigmas_of sg sigma.
Hypothesis weights_ok : weights_of wt w.
Hypothesis sigma_nonzero : nonzero sigma.

Variable optimal_conditions : list (string * fdict).
Hypothesis profiles_ok : complete optimal_conditions.
Hypothesis keys_ok : NoDup (keys optimal_conditions).
Hypothesis some_crop : optimal_conditions <> [].



End Ranked.





End RankingFacts.

(* ===================================================================== *)
(** * The grouping column of the crop table                              *)
(* ===================================================================== *)

Module DatasetFacts.

Import Py Dataset.
Local Open Scope string_scope.
Local Open Scope list_scope.

Lemma has_column (col : string) (columns : list string) :
  existsb (String.eqb col) columns = true <-> In col columns.
Proof.
  rewrite existsb_exists. split.
  - intros (c & I & E). apply String.eqb_eq in E. subst c. exact I.
  - intros I. exists col. split; [exact I | apply String.eqb_refl].
Qed.

Lemma find_first (A : Type) (f : A -> bool) (l : list A) (x : A) :
  find f l = Some x <->
  exists before after : list A,
    l = before ++ x :: after /\ f x = true /\ forall c, In c before -> f c = false.
Proof.
  induction l as [| a l IH]; simpl.
  - split; [discriminate |]. intros ([| c before] & after & E & _); discriminate.
  - destruct (f a) eqn:Fa.
    + split.
      * intros H. injection H as <-. exists [], l. split; [reflexivity |].
        split; [exact Fa | intros c []].
      * intros ([| c before] & after & E & Fx & Hb); simpl in E; injection E as E1 E2.
        -- subst. reflexivity.
        -- subst c. rewrite (Hb a (or_introl eq_refl)) in Fa. discriminate.
    + rewrite IH. split.
      * intros (before & after & -> & Fx & Hb). exists (a :: before), after.
        split; [reflexivity |]. split; [exact Fx |].
        intros c [<- | I]; [exact Fa | apply Hb, I].
      * intros ([| c before] & after & E & Fx & Hb); simpl in E; injection E as E1 E2.
        -- subst. rewrite Fx in Fa. discriminate.
        -- exists before, after. split; [exact E2 |]. split; [exact Fx |].
           intros c' I. apply Hb. right. exact I.
Qed.

Lemma candidates_truthy (col : string) :
  In col GROUP_CANDIDATES -> truthy (VStr col) = true.
Proof.
  intros I. simpl in I.
  repeat (destruct I as [<- | I]; [reflexivity |]). contradiction.
Qed.

(** X23. The column by which [compute_optimal_conditions] and
    [export_plant_counts] group the crop table is the first of label, crop,
    common_name, plant_name that the table has: a later name is taken only
    when every earlier one is missing.  [KeyError] is raised exactly when
    the table has none of the four. *)
Theorem group_column_is_first_candidate (columns : list string) :
  (forall col : string,
     group_column columns = Ok col <->
     exists before after : list string,
       GROUP_CANDIDATES = before ++ col :: after /\ In col columns /\
       forall c, In c before -> ~ In c columns) /\
  (group_column columns = Raise KeyError <->
   forall c, In c GROUP_CANDIDATES -> ~ In c columns) /\
  (forall e, group_column columns = Raise e -> e = KeyError).
Proof.
  assert (Hfind : forall col,
            first_candidate columns = Some col <->
            exists before after : list string,
              GROUP_CANDIDATES = before ++ col :: after /\ In col columns /\
              forall c, In c before -> ~ In c columns).
  { intros col. unfold first_candidate. rewrite find_first. split.
    - intros (before & after & E & Hc & Hb). exists before, after.
      split; [exact E |]. split; [apply has_column, Hc |].
      intros c I Ic. apply has_column in Ic. rewrite (Hb c I) in Ic. discriminate.
    - intros (before & after & E & Hc & Hb). exists before, after.
      split; [exact E |]. split; [apply has_column, Hc |].
      intros c I. apply not_true_is_false. intros Ic. apply has_column in Ic.
      exact (Hb c I Ic). }
  assert (Hin : forall col, first_candidate columns = Some col ->
                            In col GROUP_CANDIDATES).
  { intros col H. apply Hfind in H. destruct H as (before & after & -> & _).
    apply in_or_app. right. left. reflexivity. }
  split; [| split].
  - intros col. rewrite <- Hfind. unfold group_column.
    destruct (first_candidate columns) as [c |] eqn:E.
    + rewrite (candidates_truthy (Hin c eq_refl)). split; congruence.
    + split; discriminate.
  - unfold group_column.
    destruct (first_candidate columns) as [c |] eqn:E.
    + rewrite (candidates_truthy (Hin c eq_refl)). split; [discriminate |].
      intros H. exfalso.
      destruct (proj1 (Hfind c) eq_refl) as (before & after & Ec & Ic & _).
      apply (H c); [| exact Ic]. rewrite Ec. apply in_or_app. right. left. reflexivity.
    + split; [| reflexivity]. intros _ c I Ic.
      unfold first_candidate in E.
      apply (find_none _ _ E) in I. apply has_column in Ic. congruence.
  - intros e. unfold group_column.
    destruct (first_candidate columns) as [c |] eqn:E.
    + rewrite (candidates_truthy (Hin c eq_refl)). discriminate.
    + congruence.
Qed.

End DatasetFacts.
